(** * Match scoring engine of backend-nextgen: cache, providers, ranking

    Shallow embedding of
      - app/models/match.py            (MatchResult, GeminiMatchPayload)
      - app/config.py                  (Settings.match_cache_hours)
      - app/services/gemini_service.py (GeminiService.analyze_match)
      - app/services/groq_service.py   (GroqService.analyze_match)
      - app/services/matching_service.py
      - app/routers/students.py, app/routers/employers.py (the two
        ranking endpoints, and the completeness that saving a profile
        and connecting GitHub store)
      - app/models/student.py          (calculate_profile_completion)
      - app/services/github_service.py (GitHubService)
      - app/middleware/auth.py         (get_current_user and the role gates)
      - app/routers/analytics.py       (get_top_skills, get_student_readiness)
    followed by the properties of the engine and of the rest. *)

From Stdlib Require Import ZArith String Ascii List Lia Sorted Permutation.
From stdpp Require Import base option list gmap strings.

Set Warnings "-register-all".

Local Open Scope string_scope.
Local Open Scope Z_scope.

(** ** Python values and the built-ins the services rely on *)

Module Py.

(** A finite IEEE double is [m * 2^e]; [json.loads] also produces the
    three non-finite values. *)
Inductive pyfloat :=
| FNaN
| FInf (negative : bool)
| FFin (m e : Z).

(** What [json.loads] returns. A dict keeps its items in insertion order. *)
Inductive json :=
| JNull
| JBool (b : bool)
| JInt (z : Z)
| JFloat (f : pyfloat)
| JStr (s : string)
| JArr (items : list json)
| JObj (items : list (string * json)).

(** [type(v).__name__] *)
Definition type_name (v : json) : string :=
  match v with
  | JNull => "NoneType"
  | JBool _ => "bool"
  | JInt _ => "int"
  | JFloat _ => "float"
  | JStr _ => "str"
  | JArr _ => "list"
  | JObj _ => "dict"
  end.

(** [needle in hay] on strings *)
Fixpoint contains (needle hay : string) : bool :=
  String.prefix needle hay
  || match hay with
     | EmptyString => false
     | String _ rest => contains needle rest
     end.

(** [str.lower()], on the ASCII letters *)
Definition lower_ascii (c : ascii) : ascii :=
  let n := nat_of_ascii c in
  if ((65 <=? n)%nat && (n <=? 90)%nat)%bool then ascii_of_nat (n + 32) else c.

Fixpoint lower (s : string) : string :=
  match s with
  | EmptyString => EmptyString
  | String c rest => String (lower_ascii c) (lower rest)
  end.

(** *** [int(x)] *)

(** The result of [int(v)]: the integer, or the text of the exception.
    What [int] makes of a string is the interpreter's business (digits
    and spaces of any script, a sign, underscores, a limit on the number
    of digits, and the text of the [ValueError]); it is the argument
    [of_str], left open. *)
Definition int (of_str : string -> string + Z) (v : json) : string + Z :=
  match v with
  | JInt z => inr z
  | JBool b => inr (if b then 1 else 0)
  | JFloat FNaN => inl "cannot convert float NaN to integer"
  | JFloat (FInf _) => inl "cannot convert float infinity to integer"
  | JFloat (FFin m e) =>
      inr (if 0 <=? e then m * 2 ^ e else Z.quot m (2 ^ (- e)))
  | JStr s => of_str s
  | _ =>
      inl ("int() argument must be a string, a bytes-like object or a real number, not '"
             +:+ type_name v +:+ "'")
  end.

(** [d.get(key, default)] when [d] is a dict; any other value has no
    attribute [get]. *)
Fixpoint assoc (key : string) (items : list (string * json)) : option json :=
  match items with
  | [] => None
  | (k, v) :: rest => if String.eqb k key then Some v else assoc key rest
  end.

Definition get (d : json) (key : string) (dflt : json) : string + json :=
  match d with
  | JObj items => inr (default dflt (assoc key items))
  | _ => inl ("'" +:+ type_name d +:+ "' object has no attribute 'get'")
  end.

(** *** [xs[:n]] and [xs.sort(key=..., reverse=True)] *)

(** A negative bound counts from the end of the list. *)
Definition slice_to {A : Type} (xs : list A) (n : Z) : list A :=
  if 0 <=? n then take (Z.to_nat n) xs
  else take (Z.to_nat (Z.of_nat (length xs) + n)) xs.

(** [list.sort] is stable, also with [reverse=True]: the result is in
    descending key order and items with equal keys keep their order.
    There is one such arrangement of a list ([sort_desc_unique] below);
    it is computed here by insertion. *)
Section Sort.
Context {A : Type} (key : A -> Z).

Fixpoint insert_desc (x : A) (l : list A) : list A :=
  match l with
  | [] => [x]
  | y :: l' => if key y <=? key x then x :: l else y :: insert_desc x l'
  end.

Definition sort_desc (l : list A) : list A := foldr insert_desc [] l.
End Sort.

End Py.

(** ** app/models: the rows of the record store and the pydantic models *)

Module Models.
Import Py.

(** A row of [student_profiles], typed as [StudentProfileResponse]. *)
Record StudentRow := {
  s_id : string;
  s_user_id : string;
  s_name : string;
  s_university : string;
  s_specialty : string;
  s_skills : list string;
  s_technologies : list string;
  s_experience_text : option string;
  s_github_url : option string;
  s_resume_url : option string;
  s_profile_completion : Z;
}.

(** A row of [vacancies], typed as [VacancyResponse]. *)
Record VacancyRow := {
  v_id : string;
  v_employer_id : string;
  v_title : string;
  v_company : string;
  v_description : string;
  v_required_skills : list string;
  v_required_technologies : list string;
  v_experience_years : Z;
  v_is_active : bool;
}.

(** A row of [matches]: what [_get_or_compute_match] upserts. Times are
    microseconds on the UTC time line. *)
Record MatchRow := {
  r_student_id : string;
  r_vacancy_id : string;
  r_match_percent : Z;
  r_strong_skills : json;
  r_missing_skills : json;
  r_explanation : json;
  r_cached_at : Z;
}.

Record GeminiMatchPayload := {
  student_name : string;
  student_skills : list string;
  student_technologies : list string;
  student_experience : option string;
  vacancy_title : string;
  vacancy_company : string;
  vacancy_description : string;
  vacancy_required_skills : list string;
  vacancy_required_technologies : list string;
  vacancy_experience_years : Z;
}.

Record MatchResult := {
  vacancy_id : string;
  title : string;
  company : string;
  match_percent : Z;
  strong_skills : list string;
  missing_skills : list string;
  explanation : string;
  cached : bool;
  cached_at : option Z;
}.

(** The dict that both [analyze_match] methods return. *)
Record Analysis := {
  a_match_percent : Z;
  a_strong_skills : json;
  a_missing_skills : json;
  a_explanation : json;
}.

(** An entry of the list [get_candidates_for_vacancy] returns. *)
Record Candidate := {
  c_student_id : string;
  c_name : string;
  c_university : string;
  c_specialty : string;
  c_match_percent : Z;
  c_strong_skills : list string;
  c_missing_skills : list string;
  c_explanation : string;
  c_github_url : option string;
  c_resume_url : option string;
}.

(** Exceptions that leave the services: FastAPI's [HTTPException] with
    its status code (the detail text is not kept), pydantic's
    [ValidationError] and the [APIError] of the client of the store. *)
Inductive Exn :=
| HTTPException (status_code : Z)
| ValidationError
| APIError.

(** Exceptions raised inside the [try] blocks of the providers:
    [json.JSONDecodeError], or any other exception with its [str(e)]. *)
Inductive RawExn :=
| JSONDecodeError
| OtherException (msg : string).

(** pydantic validation of a [str] and of a [List[str]] field. *)
Definition as_str (v : json) : option string :=
  match v with JStr s => Some s | _ => None end.

Definition as_str_list (v : json) : option (list string) :=
  match v with JArr items => mapM as_str items | _ => None end.

(** [MatchResult(...)]: [match_percent] is an [int] with [ge=0, le=100];
    the other arguments a caller of this module passes with a value that
    is not already typed are the two skill lists and the explanation. *)
Definition MatchResult_init (vid ttl comp : string) (percent : Z)
    (strong missing expl : json) (from_cache : bool) (at_ : option Z)
  : Exn + MatchResult :=
  match as_str_list strong, as_str_list missing, as_str expl with
  | Some ss, Some ms, Some ex =>
      if (0 <=? percent) && (percent <=? 100) then
        inr {| vacancy_id := vid; title := ttl; company := comp;
               match_percent := percent; strong_skills := ss;
               missing_skills := ms; explanation := ex;
               cached := from_cache; cached_at := at_ |}
      else inl ValidationError
  | _, _, _ => inl ValidationError
  end.

(** The dict literal of both [analyze_match] methods:
    [{"match_percent": int(parsed.get("match_percent", 0)),
      "strong_skills": parsed.get("strong_skills", []), ...}] *)
Definition to_analysis (of_str : string -> string + Z) (parsed : json)
  : RawExn + Analysis :=
  match get parsed "match_percent" (JInt 0) with
  | inl msg => inl (OtherException msg)
  | inr v =>
      match int of_str v with
      | inl msg => inl (OtherException msg)
      | inr percent =>
          match get parsed "strong_skills" (JArr []),
                get parsed "missing_skills" (JArr []),
                get parsed "explanation" (JStr "") with
          | inr ss, inr ms, inr ex =>
              inr {| a_match_percent := percent; a_strong_skills := ss;
                     a_missing_skills := ms; a_explanation := ex |}
          | inl msg, _, _ | _, inl msg, _ | _, _, inl msg =>
              inl (OtherException msg)
          end
      end
  end.

End Models.

(** ** The world the services run in *)

Module World.
Import Py Models.

(** What a provider does with one request: it raises (SDK, transport or
    quota error, with the text of the exception), or it answers with a
    text. The text enters the code through
    [json.loads(re.sub(..., raw).strip())], which gives a value or raises
    [JSONDecodeError] ([None]). [Raises] also stands for any other
    exception raised in the [try] block before the answer is parsed,
    which the code handles in the same way. *)
Inductive Reply :=
| Raises (msg : string)
| Text (parsed : option json).

Inductive Event :=
| Select (student_id vacancy_id : string)
| Primary (payload : GeminiMatchPayload)
| Fallback (payload : GeminiMatchPayload)
| Upsert (row : MatchRow).

(** Read-only surroundings: the settings, the two tables the engine only
    reads (rows in the order the store returns them; [id] is the key of
    a table), the two providers and the interpreter. A provider sees
    the prompt, which is a function of the payload, and may answer
    differently from one call to the next: its first argument is the
    number of calls it has served. It takes [latency] microseconds to
    answer. [int_of_str s] is what [int(s)] gives for a string: the
    integer, or the text of the [ValueError]. *)
Record Env := {
  match_cache_hours : Z;
  student_profiles : list StudentRow;
  vacancies : list VacancyRow;
  gemini : nat -> GeminiMatchPayload -> Reply;
  groq : nat -> GeminiMatchPayload -> Reply;
  latency : N;
  int_of_str : string -> string + Z;
}.

(** Mutable state: the [matches] table, unique on
    [(student_id, vacancy_id)], the clock, and the log of what was done. *)
Record State := {
  matches : gmap (string * string) MatchRow;
  clock : Z;
  trace : list Event;
}.

Definition log (e : Event) (w : State) : State :=
  {| matches := matches w; clock := clock w; trace := trace w ++ [e] |}.

(** The clock moves on by [d] microseconds. *)
Definition tick (d : N) (w : State) : State :=
  {| matches := matches w; clock := clock w + Z.of_N d; trace := trace w |}.

Definition is_primary (e : Event) : bool :=
  match e with Primary _ => true | _ => false end.
Definition is_fallback (e : Event) : bool :=
  match e with Fallback _ => true | _ => false end.
Definition is_select (e : Event) : bool :=
  match e with Select _ _ => true | _ => false end.

Definition count (p : Event -> bool) (w : State) : nat :=
  length (List.filter p (trace w)).

(** Computations that read and write the state and may raise [E]. What
    was done before an exception stays done. *)
Definition M (E A : Type) : Type := State -> (E + A) * State.

Definition ret {E A} (a : A) : M E A := fun w => (inr a, w).
Definition raise {E A} (e : E) : M E A := fun w => (inl e, w).
Definition bind {E A B} (c : M E A) (k : A -> M E B) : M E B :=
  fun w => match c w with
           | (inr a, w') => k a w'
           | (inl e, w') => (inl e, w')
           end.
(** [try: c  except E as e: h e] *)
Definition try_except {E E' A} (c : M E A) (h : E -> M E' A) : M E' A :=
  fun w => match c w with
           | (inr a, w') => (inr a, w')
           | (inl e, w') => h e w'
           end.
Definition lift {E A} (r : E + A) : M E A := fun w => (r, w).

(** [datetime.now(timezone.utc)] *)
Definition now {E} : M E Z := fun w => (inr (clock w), w).

End World.

#[export] Instance M_ret {E} : MRet (World.M E) := @World.ret E.
#[export] Instance M_bind {E} : MBind (World.M E) :=
  fun A B k c => World.bind c k.

(** ** app/services/groq_service.py *)

Module GroqService.
Import Py Models World.
Section WithEnv.
Variable env : Env.

(** [self.client.chat.completions.create(...)] and the parse of its text *)
Definition create (payload : GeminiMatchPayload) : M RawExn json :=
  fun w =>
    let w2 := tick (latency env) (log (Fallback payload) w) in
    match groq env (count is_fallback w) payload with
    | Raises msg => (inl (OtherException msg), w2)
    | Text None => (inl JSONDecodeError, w2)
    | Text (Some parsed) => (inr parsed, w2)
    end.

Definition analyze_match (payload : GeminiMatchPayload) : M Exn Analysis :=
  try_except
    (parsed ← create payload; lift (to_analysis (int_of_str env) parsed))
    (fun e => match e with
              | JSONDecodeError => raise (HTTPException 502)
              | OtherException _ => raise (HTTPException 503)
              end).
End WithEnv.
End GroqService.

(** ** app/services/gemini_service.py *)

Module GeminiService.
Import Py Models World.
Section WithEnv.
Variable env : Env.

(** [self.model.generate_content(prompt, ...)], [response.text] and
    the parse of the text *)
Definition generate_content (payload : GeminiMatchPayload) : M RawExn json :=
  fun w =>
    let w2 := tick (latency env) (log (Primary payload) w) in
    match gemini env (count is_primary w) payload with
    | Raises msg => (inl (OtherException msg), w2)
    | Text None => (inl JSONDecodeError, w2)
    | Text (Some parsed) => (inr parsed, w2)
    end.

(** Always raises [NotImplementedError]; the service it is given is
    not called. The text of the exception only goes into the detail of
    the HTTP error, which is not kept here. *)
Definition _groq_analyze_with_delay
    (groq_service : GeminiMatchPayload -> M Exn Analysis) : M RawExn Analysis :=
  raise (OtherException "Use the built-in Groq analysis through a separate endpoint").

Definition is_quota_error (error_msg : string) : bool :=
  contains "429" error_msg || contains "quota" (lower error_msg).

Definition _sync_analyze_match (payload : GeminiMatchPayload) : M Exn Analysis :=
  try_except
    (parsed ← generate_content payload; lift (to_analysis (int_of_str env) parsed))
    (fun e => match e with
              | JSONDecodeError => raise (HTTPException 502)
              | OtherException error_msg =>
                  if is_quota_error error_msg then
                    try_except
                      (_groq_analyze_with_delay (GroqService.analyze_match env))
                      (fun groq_error => raise (HTTPException 429))
                  else raise (HTTPException 503)
              end).

Definition analyze_match (payload : GeminiMatchPayload) : M Exn Analysis :=
  _sync_analyze_match payload.
End WithEnv.
End GeminiService.

(** ** app/services/matching_service.py *)

Module MatchingService.
Import Py Models World.
Section WithEnv.
Variable env : Env.

(** [timedelta(hours=1)] in microseconds *)
Definition hour : Z := 3600 * 1000000.

(** [table("matches").select("*").eq("student_id", ..).eq("vacancy_id", ..)
     .gte("cached_at", threshold).limit(1).execute()] *)
Definition select_cached (student_id vacancy_id : string) (threshold : Z)
  : M Exn (option MatchRow) :=
  fun w =>
    (inr (match matches w !! (student_id, vacancy_id) with
          | Some row => if threshold <=? r_cached_at row then Some row else None
          | None => None
          end),
     log (Select student_id vacancy_id) w).

(** [table("matches").upsert(match_data, on_conflict="student_id,vacancy_id")] *)
Definition upsert (match_data : MatchRow) : M Exn unit :=
  fun w =>
    (inr tt,
     log (Upsert match_data)
       {| matches := <[(r_student_id match_data, r_vacancy_id match_data) := match_data]>
                       (matches w);
          clock := clock w;
          trace := trace w |}).

Definition payload_of (student : StudentRow) (vacancy : VacancyRow)
  : GeminiMatchPayload :=
  {| student_name := s_name student;
     student_skills := s_skills student;
     student_technologies := s_technologies student;
     student_experience := s_experience_text student;
     vacancy_title := v_title vacancy;
     vacancy_company := v_company vacancy;
     vacancy_description := v_description vacancy;
     vacancy_required_skills := v_required_skills vacancy;
     vacancy_required_technologies := v_required_technologies vacancy;
     vacancy_experience_years := v_experience_years vacancy |}.

Definition _get_or_compute_match (student : StudentRow) (vacancy : VacancyRow)
  : M Exn MatchResult :=
  let student_id := s_id student in
  let vacancy_id := v_id vacancy in
  t ← now;
  let cache_threshold := t - match_cache_hours env * hour in
  cached_resp ← select_cached student_id vacancy_id cache_threshold;
  match cached_resp with
  | Some cached =>
      lift (MatchResult_init vacancy_id (v_title vacancy) (v_company vacancy)
              (r_match_percent cached) (r_strong_skills cached)
              (r_missing_skills cached) (r_explanation cached)
              true (Some (r_cached_at cached)))
  | None =>
      let payload := payload_of student vacancy in
      gemini_result ← GeminiService.analyze_match env payload;
      t' ← now;
      let match_data :=
        {| r_student_id := student_id;
           r_vacancy_id := vacancy_id;
           r_match_percent := a_match_percent gemini_result;
           r_strong_skills := a_strong_skills gemini_result;
           r_missing_skills := a_missing_skills gemini_result;
           r_explanation := a_explanation gemini_result;
           r_cached_at := t' |} in
      _ ← upsert match_data;
      lift (MatchResult_init vacancy_id (v_title vacancy) (v_company vacancy)
              (a_match_percent gemini_result) (a_strong_skills gemini_result)
              (a_missing_skills gemini_result) (a_explanation gemini_result)
              false None)
  end.

(** [for x in xs: results.append(await f(x))] *)
Fixpoint for_each {A B : Type} (f : A -> M Exn B) (xs : list A) : M Exn (list B) :=
  match xs with
  | [] => mret []
  | x :: xs' => r ← f x; rs ← for_each f xs'; mret (r :: rs)
  end.

(** [.eq("is_active", True).limit(50)] *)
Definition active_vacancies : list VacancyRow :=
  take 50 (List.filter v_is_active (vacancies env)).

(** [.eq("id", ..).single().execute()] gives the row with the id. When
    no row has it, the store answers with an error and the client raises
    [APIError]: the test [if not ...data] that follows in the code, and
    its HTTP 404, are never reached. *)
Definition get_matches_for_student (student_id : string) (limit : Z)
  : M Exn (list MatchResult) :=
  match List.find (fun s => String.eqb (s_id s) student_id) (student_profiles env) with
  | None => raise APIError
  | Some student =>
      let vacancies := active_vacancies in
      match vacancies with
      | [] => mret []
      | _ =>
          results ← for_each (_get_or_compute_match student) vacancies;
          mret (slice_to (sort_desc match_percent results) limit)
      end
  end.

(** [.gte("profile_completion", 30)], without a limit *)
Definition complete_students : list StudentRow :=
  List.filter (fun s => 30 <=? s_profile_completion s) (student_profiles env).

Definition candidate_of (student : StudentRow) (vacancy : VacancyRow)
  : M Exn Candidate :=
  match_result ← _get_or_compute_match student vacancy;
  mret {| c_student_id := s_id student;
          c_name := s_name student;
          c_university := s_university student;
          c_specialty := s_specialty student;
          c_match_percent := match_percent match_result;
          c_strong_skills := strong_skills match_result;
          c_missing_skills := missing_skills match_result;
          c_explanation := explanation match_result;
          c_github_url := s_github_url student;
          c_resume_url := s_resume_url student |}.

Definition get_candidates_for_vacancy (vacancy_id : string) (limit : Z)
  : M Exn (list Candidate) :=
  match List.find (fun v => String.eqb (v_id v) vacancy_id) (vacancies env) with
  | None => raise APIError
  | Some vacancy =>
      candidates ← for_each (fun student => candidate_of student vacancy)
                      complete_students;
      mret (slice_to (sort_desc c_match_percent candidates) limit)
  end.
End WithEnv.
End MatchingService.

(** ** app/routers: the two ranking endpoints *)

Module Routers.
Import Py Models World.
Section WithEnv.
Variable env : Env.

(** GET /matches of app/routers/students.py.
    [.eq("user_id", ..).single().execute()] gives the profile of the
    caller when exactly one row has the [user_id]; with no such row, or
    several, the client raises [APIError], and the HTTP 404 of the code
    is never reached. *)
Definition get_student_matches (limit : Z) (current_user_id : string)
  : M Exn (list MatchResult) :=
  match List.filter (fun s => String.eqb (s_user_id s) current_user_id)
          (student_profiles env) with
  | [profile] =>
      MatchingService.get_matches_for_student env (s_id profile) (Z.min limit 20)
  | _ => raise APIError
  end.

(** GET /vacancies/{vacancy_id}/candidates of app/routers/employers.py.
    Again [.single().execute()] raises [APIError] unless exactly one row
    has the id. *)
Definition get_vacancy_candidates (vacancy_id : string) (limit : Z)
    (current_user_id : string) : M Exn (list Candidate) :=
  match List.filter (fun v => String.eqb (v_id v) vacancy_id) (vacancies env) with
  | [existing] =>
      if negb (String.eqb (v_employer_id existing) current_user_id)
      then raise (HTTPException 403)
      else MatchingService.get_candidates_for_vacancy env vacancy_id (Z.min limit 20)
  | _ => raise APIError
  end.
End WithEnv.
End Routers.

(** ** Vocabulary of the properties *)

Module Order.
Section Keyed.
Context {A : Type} (key : A -> Z).

(** Descending by key *)
Definition desc (a b : A) : Prop := key b <= key a.

(** The items whose key is [k], in the order of the list *)
Definition with_key (k : Z) (l : list A) : list A :=
  List.filter (fun a => key a =? k) l.
End Keyed.
End Order.

(** Freshness, and the states [_get_or_compute_match] passes through *)

Module Cache.
Import Py Models World MatchingService.

(** The freshness window, and the age of a row at the time of the state *)
Definition window (env : Env) : Z := match_cache_hours env * hour.
Definition age (w : State) (row : MatchRow) : Z := clock w - r_cached_at row.
Definition fresh (env : Env) (w : State) (row : MatchRow) : Prop :=
  age w row <= window env.

Definition cached_row (w : State) (s : StudentRow) (v : VacancyRow) : option MatchRow :=
  matches w !! (s_id s, v_id v).

Definition absent_or_stale (env : Env) (w : State) (s : StudentRow) (v : VacancyRow) : Prop :=
  cached_row w s v = None \/
  exists row, cached_row w s v = Some row /\ window env < age w row.

(** The row written for an analysis at time [t] *)
Definition row_of (s : StudentRow) (v : VacancyRow) (a : Analysis) (t : Z) : MatchRow :=
  {| r_student_id := s_id s; r_vacancy_id := v_id v;
     r_match_percent := a_match_percent a;
     r_strong_skills := a_strong_skills a;
     r_missing_skills := a_missing_skills a;
     r_explanation := a_explanation a;
     r_cached_at := t |}.

(** The state once the cache was queried and the Primary provider asked *)
Definition asked (env : Env) (w : State) (s : StudentRow) (v : VacancyRow) : State :=
  tick (latency env)
    (log (Primary (payload_of s v)) (log (Select (s_id s) (v_id v)) w)).

(** ... and once the analysis [a] was written to the cache *)
Definition stored (env : Env) (w : State) (s : StudentRow) (v : VacancyRow)
    (a : Analysis) : State :=
  let w1 := asked env w s v in
  let row := row_of s v a (clock w1) in
  log (Upsert row)
    {| matches := <[(s_id s, v_id v) := row]> (matches w1);
       clock := clock w1; trace := trace w1 |}.

(** The error a failed Primary call ends in *)
Definition primary_error (e : RawExn) : Exn :=
  match e with
  | JSONDecodeError => HTTPException 502
  | OtherException msg =>
      HTTPException (if GeminiService.is_quota_error msg then 429 else 503)
  end.

(** The outcome of the Primary call as the adapter sees it *)
Definition primary_outcome (env : Env) (w : State) (s : StudentRow) (v : VacancyRow)
  : RawExn + Analysis :=
  match gemini env (count is_primary w) (payload_of s v) with
  | Raises msg => inl (OtherException msg)
  | Text None => inl JSONDecodeError
  | Text (Some parsed) => to_analysis (int_of_str env) parsed
  end.

(** The number of pairs handed to [_get_or_compute_match] between two
    states: each pair starts with one query of the cache. *)
Definition fan_out (w w' : State) : nat := count is_select w' - count is_select w.

(** The number of Primary calls between two states *)
Definition primary_calls (w w' : State) : nat :=
  count is_primary w' - count is_primary w.

End Cache.

(** ** Concrete worlds used by the examples *)

Module Fixtures.
Import Py Models World.

Definition student (id : string) (completion : Z) : StudentRow :=
  {| s_id := id; s_user_id := "u-" +:+ id; s_name := "Anna";
     s_university := "KazNU"; s_specialty := "CS";
     s_skills := ["teamwork"]; s_technologies := ["Python"; "FastAPI"];
     s_experience_text := None; s_github_url := None; s_resume_url := None;
     s_profile_completion := completion |}.

Definition vacancy (id : string) (active : bool) : VacancyRow :=
  {| v_id := id; v_employer_id := "e1"; v_title := "Junior Backend Developer";
     v_company := "TechCorp"; v_description := "Python developer for REST services";
     v_required_skills := ["responsibility"];
     v_required_technologies := ["Python"; "Docker"];
     v_experience_years := 1; v_is_active := active |}.

(** The interpreter of the example worlds. No example converts a
    string; [ascii_int] is [int] on the strings of printable ASCII
    characters without quote or backslash, of fewer than 200
    characters: spaces around, a sign, decimal digits, single
    underscores between digits. *)
Definition is_space (c : ascii) : bool :=
  let n := nat_of_ascii c in
  ((n =? 32)%nat || ((9 <=? n)%nat && (n <=? 13)%nat))%bool.

Fixpoint lstrip (s : string) : string :=
  match s with
  | String c rest => if is_space c then lstrip rest else s
  | EmptyString => EmptyString
  end.

Fixpoint rstrip (s : string) : string :=
  match s with
  | EmptyString => EmptyString
  | String c rest =>
      match rstrip rest with
      | EmptyString => if is_space c then EmptyString else String c EmptyString
      | r => String c r
      end
  end.

Definition strip (s : string) : string := rstrip (lstrip s).

Definition digit_of (c : ascii) : option Z :=
  let n := nat_of_ascii c in
  if ((48 <=? n)%nat && (n <=? 57)%nat)%bool then Some (Z.of_nat (n - 48)) else None.

(** Decimal digits, single underscores allowed between two digits.
    [after_digit] tells whether the previous character was a digit. *)
Fixpoint digits (acc : Z) (after_digit : bool) (s : string) : option Z :=
  match s with
  | EmptyString => if after_digit then Some acc else None
  | String c rest =>
      match digit_of c with
      | Some d => digits (10 * acc + d) true rest
      | None =>
          if (Ascii.eqb c "_" && after_digit)%bool then digits acc false rest
          else None
      end
  end.

Definition ascii_literal (s : string) : option Z :=
  match strip s with
  | String "-" rest => Z.opp <$> digits 0 false rest
  | String "+" rest => digits 0 false rest
  | t => digits 0 false t
  end.

Definition ascii_int (s : string) : string + Z :=
  match ascii_literal s with
  | Some z => inr z
  | None => inl ("invalid literal for int() with base 10: '" +:+ s +:+ "'")
  end.

(** A well-formed answer with the given score. *)
Definition answer (percent : Z) : json :=
  JObj [("match_percent", JInt percent);
        ("strong_skills", JArr [JStr "Python"]);
        ("missing_skills", JArr [JStr "Docker"]);
        ("explanation", JStr "ok")].

Definition env_with (students : list StudentRow) (offers : list VacancyRow)
    (primary fallback : nat -> GeminiMatchPayload -> Reply) : Env :=
  {| match_cache_hours := 24; student_profiles := students; vacancies := offers;
     gemini := primary; groq := fallback; latency := 1500000;
     int_of_str := ascii_int |}.

Definition start (t : Z) (rows : list MatchRow) : State :=
  {| matches := list_to_map (map (fun r => ((r_student_id r, r_vacancy_id r), r)) rows);
     clock := t; trace := [] |}.

Definition row (sid vid : string) (percent at_ : Z) : MatchRow :=
  {| r_student_id := sid; r_vacancy_id := vid; r_match_percent := percent;
     r_strong_skills := JArr [JStr "Python"]; r_missing_skills := JArr [];
     r_explanation := JStr "cached"; r_cached_at := at_ |}.

End Fixtures.

(** ** Scenarios *)

Module Scenarios.
Import Py Models World MatchingService Fixtures.

(** One subject, one offer, providers that answer well. *)
Definition quiet : Env :=
  env_with [student "s1" 80] [vacancy "v1" true]
    (fun _ _ => Text (Some (answer 55))) (fun _ _ => Text (Some (answer 80))).

(** It is hour 100; the cache holds nothing, a record written one hour
    ago, or a record written 25 hours ago. *)
Definition empty_cache : State := start (100 * hour) [].
Definition one_hour_old : State :=
  start (100 * hour) [row "s1" "v1" 70 (99 * hour)].
Definition day_old : State :=
  start (100 * hour) [row "s1" "v1" 70 (75 * hour)].

Definition three_offers : list VacancyRow :=
  [vacancy "v1" true; vacancy "v2" true; vacancy "v3" true].

(** Primary answers with text that is not JSON. *)
Definition garbled : Env :=
  env_with [student "s1" 80] [vacancy "v1" true]
    (fun _ _ => Text None) (fun _ _ => Text (Some (answer 80))).

(** Primary is over quota for every request, Fallback would answer 80. *)
Definition rate_limited : Env :=
  env_with [student "s1" 80] three_offers
    (fun _ _ => Raises "429 Resource has been exhausted (e.g. check quota).")
    (fun _ _ => Text (Some (answer 80))).

(** Primary is down for every request, Fallback would answer 80. *)
Definition unavailable : Env :=
  env_with [student "s1" 80] three_offers
    (fun _ _ => Raises "503 The service is currently unavailable.")
    (fun _ _ => Text (Some (answer 80))).

(** Primary answers [percent = 135]. *)
Definition overshoot : Env :=
  env_with [student "s1" 80] [vacancy "v1" true]
    (fun _ _ => Text (Some (answer 135))) (fun _ _ => Text (Some (answer 80))).

(** Primary answers with an object that has no [match_percent]. *)
Definition scoreless_answer : json :=
  JObj [("strong_skills", JArr [JStr "Python"]);
        ("missing_skills", JArr [JStr "Docker"]);
        ("explanation", JStr "no score given")].

Definition scoreless : Env :=
  env_with [student "s1" 80] [vacancy "v1" true]
    (fun _ _ => Text (Some scoreless_answer)) (fun _ _ => Text (Some (answer 80))).

(** Primary scores the offers 35, 85, 35 in the order it is asked. *)
Definition tied : Env :=
  env_with [student "s1" 80] three_offers
    (fun n _ => Text (Some (answer (nth n [35; 85; 35] 0))))
    (fun _ _ => Text (Some (answer 80))).

(** Six active offers and one inactive one. *)
Definition six_offers : Env :=
  env_with [student "s1" 80]
    [vacancy "v1" true; vacancy "v2" true; vacancy "v0" false; vacancy "v3" true;
     vacancy "v4" true; vacancy "v5" true; vacancy "v6" true]
    (fun n _ => Text (Some (answer (10 * Z.of_nat n))))
    (fun _ _ => Text (Some (answer 80))).

(** [n] subjects with complete profiles, named by one character each. *)
Definition crowd_of (n : nat) : list StudentRow :=
  map (fun i => student (String (ascii_of_nat (48 + i)) EmptyString) 80) (seq 0 n).

Definition crowd : Env :=
  env_with (crowd_of 51) [vacancy "v1" true]
    (fun _ _ => Text (Some (answer 55))) (fun _ _ => Text (Some (answer 80))).

End Scenarios.

(** ** More scenarios *)

Module MoreScenarios.
Import Py Models World MatchingService Fixtures Scenarios.

(** Primary answers the first request and is down for the second. *)
Definition second_fails : Env :=
  env_with [student "s1" 80] three_offers
    (fun n _ => match n with
                | 1%nat => Raises "503 The service is currently unavailable."
                | _ => Text (Some (answer 60))
                end)
    (fun _ _ => Text (Some (answer 80))).

(** [n] active offers, named by one character each. *)
Definition offers_of (n : nat) : list VacancyRow :=
  map (fun i => vacancy (String (ascii_of_nat (48 + i)) EmptyString) true) (seq 0 n).

Definition many_offers : Env :=
  env_with [student "s1" 80] (offers_of 22)
    (fun n _ => Text (Some (answer (Z.of_nat n)))) (fun _ _ => Text (Some (answer 80))).


(** Two subjects, one below the completeness threshold, and an offer of
    employer [e1]. *)
Definition two_subjects : Env :=
  env_with [student "s1" 80; student "s2" 25] [vacancy "v1" true]
    (fun _ _ => Text (Some (answer 55))) (fun _ _ => Text (Some (answer 80))).

(** Fallback is over quota. *)
Definition groq_over_quota : Env :=
  env_with [student "s1" 80] [vacancy "v1" true]
    (fun _ _ => Text (Some (answer 55)))
    (fun _ _ => Raises "429 rate limit reached, quota exceeded").

End MoreScenarios.

(** ** More Python built-ins: truth values, [len], dict updates, string splitting *)

Module PyMore.
Import Py.

(** [bool(v)] *)
Definition truthy (v : json) : bool :=
  match v with
  | JNull => false
  | JBool b => b
  | JInt z => negb (z =? 0)
  | JFloat (FFin m _) => negb (m =? 0)
  | JFloat _ => true
  | JStr s => negb (String.eqb s "")
  | JArr items => match items with [] => false | _ => true end
  | JObj items => match items with [] => false | _ => true end
  end.

(** [a or b] *)
Definition or_else (a b : json) : json := if truthy a then a else b.

(** [len(v)], or the text of the [TypeError]. The length of a string is
    counted in the characters of the model; the code only compares it
    with 0. *)
Definition len (v : json) : string + Z :=
  match v with
  | JStr s => inr (Z.of_nat (String.length s))
  | JArr items => inr (Z.of_nat (length items))
  | JObj items => inr (Z.of_nat (length items))
  | _ => inl ("object of type '" +:+ type_name v +:+ "' has no len()")
  end.

(** A dict is its items in insertion order, keys distinct. *)
Definition dict : Type := list (string * json).

(** [d.get(key)] and [d.get(key, dflt)] *)
Definition dget (d : dict) (key : string) (dflt : json) : json :=
  default dflt (assoc key d).

(** [d[key] = v]: the value is replaced in place, a new key goes last. *)
Fixpoint dset (d : dict) (key : string) (v : json) : dict :=
  match d with
  | [] => [(key, v)]
  | (k, x) :: rest =>
      if String.eqb k key then (k, v) :: rest else (k, x) :: dset rest key v
  end.

(** [counts[key] = counts.get(key, 0) + 1], and [counter[key] += 1] on a
    [Counter]: a dict of counts kept in insertion order *)
Fixpoint bump (counts : list (string * Z)) (key : string) : list (string * Z) :=
  match counts with
  | [] => [(key, 1)]
  | (k, n) :: rest =>
      if String.eqb k key then (k, n + 1) :: rest else (k, n) :: bump rest key
  end.

(** [{**a, **b}] *)
Definition dict_merge (a b : dict) : dict :=
  fold_left (fun d kv => dset d (fst kv) (snd kv)) b a.

(** [s.rstrip(c)] for a one-character [c] *)
Fixpoint rstrip_char (c : ascii) (s : string) : string :=
  match s with
  | EmptyString => EmptyString
  | String x rest =>
      match rstrip_char c rest with
      | EmptyString => if Ascii.eqb x c then EmptyString else String x EmptyString
      | r => String x r
      end
  end.

(** [s.split(c)] for a one-character [c]: never an empty list *)
Fixpoint split_on (c : ascii) (s : string) : list string :=
  match s with
  | EmptyString => [EmptyString]
  | String x rest =>
      if Ascii.eqb x c then EmptyString :: split_on c rest
      else match split_on c rest with
           | p :: ps => String x p :: ps
           | [] => [String x EmptyString]
           end
  end.

(** An exception that leaves a function: FastAPI's [HTTPException] with
    its status code, or any other exception, uncaught, with its text. *)
Inductive Raised :=
| Http (status_code : Z)
| Uncaught (msg : string).

End PyMore.

(** ** app/models/student.py: [calculate_profile_completion], and the
       completeness [upsert_student_profile] stores *)

Module Student.
Import Py PyMore.

(** The list [checks]: building it evaluates the two [len] calls, in
    this order, and either may raise [TypeError]. *)
Definition checks (profile : dict) : string + list (bool * Z) :=
  match len (dget profile "skills" (JArr [])) with
  | inl msg => inl msg
  | inr n_skills =>
      match len (dget profile "technologies" (JArr [])) with
      | inl msg => inl msg
      | inr n_technologies =>
          inr [(truthy (dget profile "name" JNull), 15);
               (truthy (dget profile "university" JNull), 15);
               (truthy (dget profile "specialty" JNull), 15);
               (0 <? n_skills, 15);
               (0 <? n_technologies, 15);
               (truthy (dget profile "experience_text" JNull), 10);
               (truthy (dget profile "github_url" JNull), 10);
               (truthy (dget profile "resume_url" JNull), 5)]
      end
  end.

(** [for condition, points in checks: if condition: score += points] *)
Definition add_points (score : Z) (check : bool * Z) : Z :=
  if fst check then score + snd check else score.

Definition calculate_profile_completion (profile : dict) : string + Z :=
  match checks profile with
  | inl msg => inl msg
  | inr cs => inr (Z.min (fold_left add_points cs 0) 100)
  end.

(** [StudentProfileCreate]: the body of POST /students/profile, after
    validation. *)
Record StudentProfileCreate := {
  name : string;
  university : string;
  specialty : string;
  skills : list string;
  technologies : list string;
  experience_text : option string;
  github_url : option string;
  career_interests : list string;
}.

(** The constraints of the model that bear on the completeness:
    [min_length=2] on the three names. *)
Definition validated (data : StudentProfileCreate) : Prop :=
  (2 <= String.length (name data))%nat
  /\ (2 <= String.length (university data))%nat
  /\ (2 <= String.length (specialty data))%nat.

Definition opt_str (o : option string) : json :=
  match o with Some s => JStr s | None => JNull end.

(** [profile_data.model_dump()] *)
Definition model_dump (data : StudentProfileCreate) : dict :=
  [("name", JStr (name data));
   ("university", JStr (university data));
   ("specialty", JStr (specialty data));
   ("skills", JArr (map JStr (skills data)));
   ("technologies", JArr (map JStr (technologies data)));
   ("experience_text", opt_str (experience_text data));
   ("github_url", opt_str (github_url data));
   ("career_interests", JArr (map JStr (career_interests data)))].

(** The first three statements of [upsert_student_profile]: the dict
    that is then written to [student_profiles], [resume_url] apart. *)
Definition upsert_profile_dict (data : StudentProfileCreate) (current_user_id : string)
  : string + dict :=
  let profile_dict := model_dump data in
  let profile_dict := dset profile_dict "user_id" (JStr current_user_id) in
  match calculate_profile_completion profile_dict with
  | inl msg => inl msg
  | inr completion => inr (dset profile_dict "profile_completion" (JInt completion))
  end.

(** The score of eight checks worth 15, 15, 15, 15, 15, 10, 10 and 5. *)
Definition score8 (c1 c2 c3 c4 c5 c6 c7 c8 : bool) : Z :=
  (if c1 then 15 else 0) + (if c2 then 15 else 0) + (if c3 then 15 else 0)
  + (if c4 then 15 else 0) + (if c5 then 15 else 0) + (if c6 then 10 else 0)
  + (if c7 then 10 else 0) + (if c8 then 5 else 0).

End Student.

(** ** app/services/github_service.py *)

Module GitHubService.
Import Py PyMore.

Definition slash : ascii := "/"%char.

Definition _extract_username (github_url : string) : Raised + string :=
  let url := rstrip_char slash github_url in
  let username := List.last (split_on slash url) EmptyString in
  if String.eqb username "" then inl (Http 400) else inr username.

(** A repository as PyGithub gives it. [commits] is what
    [repo.get_commits().totalCount] does: the count, or the text of the
    [GithubException] it raises. *)
Record Repo := {
  name : string;
  description : option string;
  language : option string;
  stargazers_count : Z;
  html_url : string;
  fork : bool;
  pushed_at : option Z;
  commits : string + Z;
}.

(** What [self._client.get_user(username)] does (the two exceptions the
    code catches, any other exception, or a user), and for a user what
    [list(user.get_repos())] does. *)
Inductive UserReply :=
| UnknownObjectException
| GithubException (msg : string)
| OtherError (msg : string)
| User (repos : string + list Repo) (public_repos followers : Z).

Record TopRepo := {
  t_name : string;
  t_description : string;
  t_language : string;
  t_stars : Z;
  t_url : string;
}.

Record ProfileAnalysis := {
  a_github_url : string;
  a_username : string;
  detected_technologies : list string;
  language_stats : list (string * Z);
  top_repos : list TopRepo;
  total_commits : Z;
  public_repos_count : Z;
  a_followers : Z;
}.

(** The loop over [own_repos[:50]] *)
Definition count_language (counts : list (string * Z)) (repo : Repo)
  : list (string * Z) :=
  match language repo with
  | Some lang => if String.eqb lang "" then counts else bump counts lang
  | None => counts
  end.

Definition language_counts (own_repos : list Repo) : list (string * Z) :=
  fold_left count_language (take 50 own_repos) [].

Definition top_repo_data (repo : Repo) : TopRepo :=
  {| t_name := name repo;
     t_description := default "" (description repo);
     t_language := match language repo with
                   | Some lang => if String.eqb lang "" then "Unknown" else lang
                   | None => "Unknown"
                   end;
     t_stars := stargazers_count repo;
     t_url := html_url repo |}.

(** [getattr(repo, "pushed_at", None) and repo.get_commits().totalCount or 0] *)
Definition commits_of (repo : Repo) : string + Z :=
  match pushed_at repo with
  | None => inr 0
  | Some _ => commits repo
  end.

(** [sum(... for repo in repos)]: the first exception ends the sum. *)
Fixpoint sum_commits (repos : list Repo) : string + Z :=
  match repos with
  | [] => inr 0
  | repo :: rest =>
      match commits_of repo with
      | inl msg => inl msg
      | inr n =>
          match sum_commits rest with
          | inl msg => inl msg
          | inr total => inr (n + total)
          end
      end
  end.

Section WithClient.
Variable get_user : string -> UserReply.

Definition _sync_analyze (github_url : string) : Raised + ProfileAnalysis :=
  match _extract_username github_url with
  | inl e => inl e
  | inr username =>
      match get_user username with
      | UnknownObjectException => inl (Http 404)
      | GithubException _ => inl (Http 503)
      | OtherError msg => inl (Uncaught msg)
      | User (inl msg) _ _ => inl (Uncaught msg)
      | User (inr repos) n_public n_followers =>
          let own_repos := List.filter (fun r => negb (fork r)) repos in
          let sorted_languages := sort_desc snd (language_counts own_repos) in
          let top := take 5 (sort_desc stargazers_count own_repos) in
          match match own_repos with
                | [] => inr 0
                | _ => sum_commits (take 10 own_repos)
                end with
          | inl msg => inl (Uncaught msg)
          | inr total =>
              inr {| a_github_url := github_url;
                     a_username := username;
                     detected_technologies := map fst sorted_languages;
                     language_stats := sorted_languages;
                     top_repos := map top_repo_data top;
                     total_commits := total;
                     public_repos_count := n_public;
                     a_followers := n_followers |}
          end
      end
  end.

Definition analyze_profile (github_url : string) : Raised + ProfileAnalysis :=
  _sync_analyze github_url.
End WithClient.

(** The languages counted, with what is known of each. *)
Definition counted (own_repos : list Repo) (counts : list (string * Z)) : Prop :=
  NoDup (map fst counts)
  /\ Forall (fun kv => 1 <= snd kv) counts
  /\ forall lang, lang ∈ map fst counts ->
       lang <> "" /\ exists repo, In repo own_repos /\ language repo = Some lang.

End GitHubService.

(** Vocabulary for the properties of [_extract_username] *)

Module Chars.

(** [c in s] and "[s] is made of [c] only", for one character [c] *)
Fixpoint has_char (c : ascii) (s : string) : bool :=
  match s with
  | EmptyString => false
  | String x rest => Ascii.eqb x c || has_char c rest
  end.

Fixpoint all_char (c : ascii) (s : string) : bool :=
  match s with
  | EmptyString => true
  | String x rest => Ascii.eqb x c && all_char c rest
  end.

(** [c * n] *)
Fixpoint repeat_char (c : ascii) (n : nat) : string :=
  match n with
  | O => EmptyString
  | S n' => String c (repeat_char c n')
  end.

End Chars.

Module GitHubExample.
Import Py PyMore GitHubService.

Definition repo (n : string) (lang : option string) (stars : Z) (is_fork : bool) : Repo :=
  {| name := n; description := None; language := lang; stargazers_count := stars;
     html_url := "https://github.com/anna/" +:+ n; fork := is_fork;
     pushed_at := Some 0; commits := inr 3 |}.

(** Five repositories of [anna]: two in Python, one in Go, one without a
    language, and a fork in Rust with the most stars. *)
Definition anna (username : string) : UserReply :=
  if String.eqb username "anna" then
    User (inr [repo "api" (Some "Go") 7 false;
               repo "bot" (Some "Python") 2 false;
               repo "linux" (Some "Rust") 900 true;
               repo "notes" None 1 false;
               repo "cli" (Some "Python") 7 false]) 5 12
  else UnknownObjectException.

(** What the analysis of [anna] returns. *)
Definition anna_analysis : ProfileAnalysis :=
  {| a_github_url := "https://github.com/anna";
     a_username := "anna";
     detected_technologies := ["Python"; "Go"];
     language_stats := [("Python", 2); ("Go", 1)];
     top_repos := map top_repo_data
                    [repo "api" (Some "Go") 7 false; repo "cli" (Some "Python") 7 false;
                     repo "bot" (Some "Python") 2 false; repo "notes" None 1 false];
     total_commits := 12;
     public_repos_count := 5;
     a_followers := 12 |}.

End GitHubExample.

(** ** app/middleware/auth.py *)

Module Auth.
Import Py PyMore.

Record CurrentUser := {
  user_id : json;
  email : json;
  role : json;
}.

(** [v == s] for a string literal [s] *)
Definition is_str (v : json) (s : string) : bool :=
  match v with JStr t => String.eqb t s | _ => false end.

Section WithSecret.
(** [jwt.decode(token, settings.jwt_secret, algorithms=["HS256"], ...)]:
    the claims, or [None] when it raises [JWTError]. *)
Variable jwt_decode : string -> option dict.

Definition decode_supabase_jwt (token : string) : Raised + dict :=
  match jwt_decode token with
  | Some payload => inr payload
  | None => inl (Http 401)
  end.

Definition get_current_user (token : string) : Raised + CurrentUser :=
  match decode_supabase_jwt token with
  | inl e => inl e
  | inr payload =>
      let sub := dget payload "sub" JNull in
      let mail := dget payload "email" JNull in
      if negb (truthy sub) then inl (Http 401)
      else
        let user_metadata := dget payload "user_metadata" (JObj []) in
        let app_metadata := dget payload "app_metadata" (JObj []) in
        let made r := inr {| user_id := sub; email := or_else mail (JStr "");
                             role := r |} in
        match get user_metadata "role" JNull with
        | inl msg => inl (Uncaught msg)
        | inr r1 =>
            if truthy r1 then made r1
            else match get app_metadata "role" JNull with
                 | inl msg => inl (Uncaught msg)
                 | inr r2 => made (or_else r2 (JStr "student"))
                 end
        end
  end.
End WithSecret.

Definition require_student (current_user : Raised + CurrentUser)
  : Raised + CurrentUser :=
  match current_user with
  | inl e => inl e
  | inr u => if negb (is_str (role u) "student") then inl (Http 403) else inr u
  end.

Definition require_employer (current_user : Raised + CurrentUser)
  : Raised + CurrentUser :=
  match current_user with
  | inl e => inl e
  | inr u => if negb (is_str (role u) "employer") then inl (Http 403) else inr u
  end.

Definition require_university (current_user : Raised + CurrentUser)
  : Raised + CurrentUser :=
  match current_user with
  | inl e => inl e
  | inr u =>
      if negb (is_str (role u) "university" || is_str (role u) "admin")
      then inl (Http 403) else inr u
  end.

End Auth.

(** ** app/routers/analytics.py *)

Module Analytics.
Import Py PyMore Models.

(** A [Counter]: its items, in the order the keys were first counted. *)
Definition Counter : Type := list (string * Z).

(** [for x in xs: counter[x] += 1] *)
Definition tally (counter : Counter) (xs : list string) : Counter :=
  fold_left bump xs counter.

(** [counter.get(x, 0)] *)
Fixpoint count_of (counter : Counter) (x : string) : Z :=
  match counter with
  | [] => 0
  | (k, n) :: rest => if String.eqb k x then n else count_of rest x
  end.

(** [counter.most_common(n)] is [heapq.nlargest(n, items, key=count)]:
    [sorted(items, key=count, reverse=True)[:n]], and nothing for an
    [n] below 1. *)
Definition most_common (counter : Counter) (n : Z) : Counter :=
  take (Z.to_nat n) (sort_desc snd counter).

(** A row of the query of [get_top_skills]: the three columns it
    selects from the active vacancies, typed as [VacancyCreate] writes
    them. *)
Record SkillsRow := {
  required_skills : list string;
  required_technologies : list string;
  soft_skills : list string;
}.

(** The result of [get_top_skills]. An entry is a name with its count;
    [demand_percent], which the code derives from the count and the
    total in floating point, is left out. *)
Record TopSkills := {
  total_vacancies_analyzed : Z;
  top_technologies : Counter;
  top_skills : Counter;
}.

Definition get_top_skills (vacancies : list SkillsRow) (limit : Z) : TopSkills :=
  let tech_counter :=
    fold_left (fun counter vacancy => tally counter (required_technologies vacancy))
      vacancies [] in
  let skill_counter :=
    fold_left (fun counter vacancy =>
                 tally counter (required_skills vacancy ++ soft_skills vacancy)%list)
      vacancies [] in
  {| total_vacancies_analyzed := Z.of_nat (length vacancies);
     top_technologies := most_common tech_counter limit;
     top_skills := most_common skill_counter limit |}.

(** [sum(1 for c in completions if p(c))] *)
Definition count_where (p : Z -> bool) (completions : list Z) : Z :=
  fold_left (fun total c => if p c then total + 1 else total) completions 0.

(** The result of [get_student_readiness] when there are students: the
    counts of the distribution and the two rankings. The average and
    the percentages, computed in floating point, are left out. *)
Record Readiness := {
  total_students : Z;
  low : Z;
  medium : Z;
  high : Z;
  top_student_technologies : Counter;
  top_specialties : Counter;
}.

(** [students] is what the query returns; [None] stands for the answer
    without statistics that the code gives when there is no student. *)
Definition get_student_readiness (students : list StudentRow) : option Readiness :=
  match students with
  | [] => None
  | _ =>
      let completions := map s_profile_completion students in
      let all_techs :=
        fold_left (fun counter s => tally counter (s_technologies s)) students [] in
      let specialties :=
        fold_left (fun counter s =>
                     if String.eqb (s_specialty s) "" then counter
                     else bump counter (s_specialty s))
          students [] in
      Some {| total_students := Z.of_nat (length students);
              low := count_where (fun c => c <? 40) completions;
              medium := count_where (fun c => (40 <=? c) && (c <? 70)) completions;
              high := count_where (fun c => 70 <=? c) completions;
              top_student_technologies := most_common all_techs 15;
              top_specialties := most_common specialties 10 |}
  end.

(** How often [x] occurs in [xs] *)
Definition occurrences (xs : list string) (x : string) : Z :=
  Z.of_nat (count_occ String.string_dec xs x).

(** A ranking of the names of [xs] by how often they occur. *)
Definition ranks (xs : list string) (limit : Z) (ranking : Counter) : Prop :=
  Z.of_nat (length ranking) <= Z.max 0 limit
  /\ NoDup (map fst ranking)
  /\ StronglySorted (Order.desc snd) ranking
  /\ Forall (fun kv => snd kv = occurrences xs (fst kv) /\ 1 <= snd kv) ranking.

End Analytics.

(** ** app/routers/students.py: what [connect_github] writes *)

Module StudentsRouter.
Import Py PyMore Student.

(** [list(set(xs))]: the distinct elements of [xs], in an order the
    code does not control. What the code relies on: every element comes
    from [xs], and the list is empty only if [xs] is. *)
Definition is_list_of_set (xs merged : list json) : Prop :=
  (forall x, In x merged -> In x xs) /\ (xs <> [] -> merged <> []).

(** [update_data] of [connect_github], before the completeness is
    added *)
Definition github_update_data (github_url : string) (merged_techs : list json) : dict :=
  [("github_url", JStr github_url); ("technologies", JArr merged_techs)].

(** [calculate_profile_completion({**profile, **update_data})], stored
    under [profile_completion] *)
Definition connect_github_update (profile : dict) (github_url : string)
    (merged_techs : list json) : string + dict :=
  let update_data := github_update_data github_url merged_techs in
  match calculate_profile_completion (dict_merge profile update_data) with
  | inl msg => inl msg
  | inr completion => inr (dset update_data "profile_completion" (JInt completion))
  end.

End StudentsRouter.

(** * Properties *)

(** ** Stable descending sort *)

Module SortFacts.
Import Py Order.
Section Facts.
Context {A : Type} (key : A -> Z).
Local Abbreviation desc := (desc key).
Local Abbreviation with_key := (with_key key).

Lemma insert_desc_perm x l : Permutation (insert_desc key x l) (x :: l).
Proof.
  induction l as [|y l IH]; simpl; [reflexivity|].
  destruct (key y <=? key x); [reflexivity|].
  rewrite IH. apply perm_swap.
Qed.

Lemma sort_desc_perm l : Permutation (sort_desc key l) l.
Proof.
  induction l as [|x l IH]; simpl; [reflexivity|].
  rewrite insert_desc_perm. by constructor.
Qed.

Lemma sort_desc_length l : length (sort_desc key l) = length l.
Proof. apply Permutation_length, sort_desc_perm. Qed.

Lemma insert_desc_sorted x l :
  StronglySorted desc l -> StronglySorted desc (insert_desc key x l).
Proof.
  induction 1 as [|y l Hl IH Hy]; simpl.
  - repeat constructor.
  - destruct (Z.leb_spec (key y) (key x)) as [Hle|Hgt].
    + constructor; [by constructor|].
      constructor; [exact Hle|].
      eapply Forall_impl; [exact Hy|]. unfold desc. intros; simpl in *; lia.
    + constructor; [exact IH|].
      rewrite (insert_desc_perm x l).
      constructor; [unfold desc; lia | exact Hy].
Qed.

Lemma sort_desc_sorted l : StronglySorted desc (sort_desc key l).
Proof.
  induction l as [|x l IH]; simpl; [constructor|].
  by apply insert_desc_sorted.
Qed.

Lemma with_key_insert_desc k x l :
  with_key k (insert_desc key x l) = with_key k (x :: l).
Proof.
  induction l as [|y l IH]; [reflexivity|].
  simpl. destruct (Z.leb_spec (key y) (key x)) as [Hle|Hgt]; [reflexivity|].
  unfold with_key in *. simpl in *. rewrite IH.
  destruct (Z.eqb_spec (key x) k), (Z.eqb_spec (key y) k); try reflexivity.
  lia.
Qed.

(** Stability: for every key, the items with that key come out in the
    order they went in. *)
Lemma sort_desc_stable k l : with_key k (sort_desc key l) = with_key k l.
Proof.
  induction l as [|x l IH]; [reflexivity|].
  simpl. rewrite with_key_insert_desc. unfold with_key in *. simpl.
  by rewrite IH.
Qed.

Lemma with_key_nil l : (forall k, with_key k l = []) -> l = [].
Proof.
  destruct l as [|x l]; [reflexivity|]. intros H.
  specialize (H (key x)). unfold with_key in H. simpl in H.
  by rewrite Z.eqb_refl in H.
Qed.

Lemma with_key_In k x l : In x (with_key k l) <-> In x l /\ key x = k.
Proof. unfold with_key. rewrite filter_In, Z.eqb_eq. reflexivity. Qed.

(** A descending list is determined by its items of each key. *)
Lemma sorted_stable_eq l1 :
  forall l2,
    StronglySorted desc l1 -> StronglySorted desc l2 ->
    (forall k, with_key k l1 = with_key k l2) -> l1 = l2.
Proof.
  induction l1 as [|x l1 IH]; intros l2 S1 S2 E.
  - symmetry. apply with_key_nil. intros k. by rewrite <- E.
  - destruct l2 as [|y l2].
    { specialize (E (key x)). unfold with_key in E. simpl in E.
      by rewrite Z.eqb_refl in E. }
    apply StronglySorted_inv in S1 as [S1 F1].
    apply StronglySorted_inv in S2 as [S2 F2].
    assert (Hxy : key x = key y).
    { assert (In x (with_key (key x) (y :: l2))) as Hx.
      { rewrite <- E. apply with_key_In. split; [by left|reflexivity]. }
      assert (In y (with_key (key y) (x :: l1))) as Hy.
      { rewrite E. apply with_key_In. split; [by left|reflexivity]. }
      apply with_key_In in Hx as [Hx _]. apply with_key_In in Hy as [Hy _].
      rewrite List.Forall_forall in F1, F2. unfold desc in *.
      destruct Hx as [->|Hx]; [reflexivity|].
      destruct Hy as [->|Hy]; [reflexivity|].
      apply F2 in Hx. apply F1 in Hy. lia. }
    pose proof (E (key x)) as Ek. unfold with_key in Ek. simpl in Ek.
    rewrite Z.eqb_refl in Ek. rewrite <- Hxy, Z.eqb_refl in Ek.
    injection Ek as <- Ek. f_equal.
    apply IH; [done|done|]. intros k.
    destruct (Z.eq_dec k (key x)) as [->|Hk]; [exact Ek|].
    specialize (E k). unfold with_key in *. simpl in E.
    destruct (Z.eqb_spec (key x) k); [lia|]. exact E.
Qed.

(** [sort_desc] computes the only stable descending arrangement. *)
Lemma sort_desc_unique l l' :
  StronglySorted desc l' -> (forall k, with_key k l' = with_key k l) ->
  l' = sort_desc key l.
Proof.
  intros S E. apply sorted_stable_eq; [done|apply sort_desc_sorted|].
  intros k. by rewrite E, sort_desc_stable.
Qed.

(** *** Slices *)

Lemma slice_to_prefix (l : list A) n : slice_to l n `prefix_of` l.
Proof. unfold slice_to. destruct (0 <=? n); apply prefix_take. Qed.

Lemma slice_to_length (l : list A) n :
  0 <= n -> Z.of_nat (length (slice_to l n)) <= n.
Proof.
  intros Hn. unfold slice_to. destruct (Z.leb_spec 0 n); [|lia].
  rewrite length_take. lia.
Qed.

Lemma sorted_prefix l1 l2 :
  l1 `prefix_of` l2 -> StronglySorted desc l2 -> StronglySorted desc l1.
Proof.
  intros [t ->]. revert t. induction l1 as [|x l1 IH]; intros t S; [constructor|].
  simpl in S. apply StronglySorted_inv in S as [S F].
  constructor; [by eapply IH|].
  rewrite Forall_app in F. tauto.
Qed.

Lemma with_key_prefix k l1 l2 :
  l1 `prefix_of` l2 -> with_key k l1 `prefix_of` with_key k l2.
Proof.
  intros [t ->]. unfold with_key. rewrite List.filter_app. by eexists.
Qed.
(** What sorting and then slicing gives. *)
Lemma ranked_slice l n :
  let out := slice_to (sort_desc key l) n in
  StronglySorted desc out
  /\ (forall k, with_key k out `prefix_of` with_key k l)
  /\ (forall arranged,
        StronglySorted desc arranged ->
        (forall k, with_key k arranged = with_key k l) ->
        out = slice_to arranged n).
Proof.
  simpl. pose proof (slice_to_prefix (sort_desc key l) n) as Hpre.
  repeat split.
  - eapply sorted_prefix; [exact Hpre|apply sort_desc_sorted].
  - intros k. rewrite <- (sort_desc_stable k l). by apply with_key_prefix.
  - intros arranged Hsorted Hstable.
    by rewrite (sort_desc_unique l arranged Hsorted Hstable).
Qed.
End Facts.
End SortFacts.

(** ** The cache decision, step by step *)

Module CacheFacts.
Import Py Models World MatchingService Cache.

Lemma count_log p e w :
  count p (log e w) = (count p w + (if p e then 1 else 0))%nat.
Proof.
  unfold count, log. simpl. rewrite List.filter_app, length_app. simpl.
  by destruct (p e).
Qed.

Lemma count_tick p d w : count p (tick d w) = count p w.
Proof. reflexivity. Qed.

Lemma select_fresh env w s v row :
  cached_row w s v = Some row -> fresh env w row ->
  select_cached (s_id s) (v_id v) (clock w - match_cache_hours env * hour) w
  = (inr (Some row), log (Select (s_id s) (v_id v)) w).
Proof.
  unfold cached_row, fresh, age, window, select_cached. intros -> H.
  destruct (Z.leb_spec (clock w - match_cache_hours env * hour) (r_cached_at row));
    [reflexivity|lia].
Qed.

Lemma select_miss env w s v :
  absent_or_stale env w s v ->
  select_cached (s_id s) (v_id v) (clock w - match_cache_hours env * hour) w
  = (inr None, log (Select (s_id s) (v_id v)) w).
Proof.
  unfold absent_or_stale, cached_row, age, window, select_cached.
  intros [->|(row & -> & H)]; [reflexivity|].
  destruct (Z.leb_spec (clock w - match_cache_hours env * hour) (r_cached_at row));
    [lia|reflexivity].
Qed.

(** Every state has a fresh row or not. *)
Lemma fresh_or_not env w s v :
  (exists row, cached_row w s v = Some row /\ fresh env w row)
  \/ absent_or_stale env w s v.
Proof.
  unfold absent_or_stale, fresh. destruct (cached_row w s v) as [row|]; [|by right; left].
  destruct (Z.le_gt_cases (age w row) (window env)); [left|right; right]; eauto.
Qed.

(** Cache hit: the stored row is turned into the result. *)
Lemma hit_run env w s v row :
  cached_row w s v = Some row -> fresh env w row ->
  _get_or_compute_match env s v w =
    (MatchResult_init (v_id v) (v_title v) (v_company v)
       (r_match_percent row) (r_strong_skills row) (r_missing_skills row)
       (r_explanation row) true (Some (r_cached_at row)),
     log (Select (s_id s) (v_id v)) w).
Proof.
  intros Hrow Hfresh. unfold _get_or_compute_match, mbind, M_bind, bind, now.
  by rewrite (select_fresh env w s v row).
Qed.

(** Cache miss: one Primary call, then the write and the result. *)
Lemma miss_run env w s v :
  absent_or_stale env w s v ->
  _get_or_compute_match env s v w =
    match primary_outcome env w s v with
    | inl e => (inl (primary_error e), asked env w s v)
    | inr a =>
        (MatchResult_init (v_id v) (v_title v) (v_company v)
           (a_match_percent a) (a_strong_skills a) (a_missing_skills a)
           (a_explanation a) false None,
         stored env w s v a)
    end.
Proof.
  intros Hmiss. unfold _get_or_compute_match, mbind, M_bind, bind, now.
  rewrite (select_miss env w s v Hmiss).
  unfold GeminiService.analyze_match, GeminiService._sync_analyze_match,
    GeminiService.generate_content, GeminiService._groq_analyze_with_delay,
    try_except, mbind, M_bind, bind, lift, raise, primary_outcome.
  rewrite count_log. simpl. rewrite Nat.add_0_r.
  destruct (gemini env (count is_primary w) (payload_of s v)) as [msg|[parsed|]];
    simpl; [by destruct (GeminiService.is_quota_error msg)| |reflexivity].
  destruct (to_analysis _ parsed) as [[|msg]|a]; simpl; [reflexivity| |reflexivity].
  by destruct (GeminiService.is_quota_error msg).
Qed.

(** Only a score that is a string reaches the interpreter's conversion
    of strings. *)
Lemma int_of_number of_str of_str' v :
  match v with
  | JStr _ => True
  | _ => int of_str v = int of_str' v
  end.
Proof. by destruct v. Qed.

End CacheFacts.

(** ** What one pair and one loop add to the log *)

Module Fanout.
Import Py Models World MatchingService Cache CacheFacts.

Lemma pair_counts env s v w :
  let w' := snd (_get_or_compute_match env s v w) in
  count is_select w' = S (count is_select w)
  /\ count is_fallback w' = count is_fallback w
  /\ (count is_primary w <= count is_primary w' <= S (count is_primary w))%nat.
Proof.
  destruct (fresh_or_not env w s v) as [(row & Hrow & Hfresh)|Hmiss].
  - rewrite (hit_run env w s v row Hrow Hfresh). simpl.
    rewrite !count_log. simpl. lia.
  - rewrite (miss_run env w s v Hmiss).
    destruct (primary_outcome env w s v) as [e|a]; simpl;
      unfold stored, asked; rewrite ?count_log, ?count_tick; simpl;
      unfold count; simpl; rewrite ?List.filter_app, ?length_app; simpl; lia.
Qed.

Section Loop.
Context {A B : Type} (f : A -> M Exn B).

Lemma for_each_step x xs w :
  for_each f (x :: xs) w =
    match f x w with
    | (inl e, w1) => (inl e, w1)
    | (inr r, w1) =>
        match for_each f xs w1 with
        | (inl e, w2) => (inl e, w2)
        | (inr rs, w2) => (inr (r :: rs), w2)
        end
    end.
Proof.
  simpl. unfold mbind, M_bind, bind, mret, M_ret, ret.
  destruct (f x w) as [[e|r] w1]; [reflexivity|].
  by destruct (for_each f xs w1) as [[e|rs] w2].
Qed.

(** A loop over [xs] adds at most [length xs] events of a kind the body
    adds at most one of, and exactly that many when the body adds one
    each time and no iteration raises. *)
Lemma for_each_at_most p xs :
  (forall x w, (count p (snd (f x w)) <= S (count p w))%nat) ->
  forall w, (count p (snd (for_each f xs w)) <= count p w + length xs)%nat.
Proof.
  intros Hf. induction xs as [|x xs IH]; intros w; [simpl; lia|].
  rewrite for_each_step. specialize (Hf x w).
  destruct (f x w) as [[e|r] w1]; simpl in *; [lia|].
  specialize (IH w1).
  destruct (for_each f xs w1) as [[e|rs] w2]; simpl in *; lia.
Qed.

Lemma for_each_exactly p xs :
  (forall x w, count p (snd (f x w)) = S (count p w)) ->
  forall w rs, fst (for_each f xs w) = inr rs ->
    count p (snd (for_each f xs w)) = (count p w + length xs)%nat.
Proof.
  intros Hf. induction xs as [|x xs IH]; intros w rs; [simpl; lia|].
  rewrite for_each_step. specialize (Hf x w).
  destruct (f x w) as [[e|r] w1]; simpl in *; [discriminate|].
  specialize (IH w1).
  destruct (for_each f xs w1) as [[e|rs'] w2]; simpl in *; [discriminate|].
  intros _. rewrite (IH rs' eq_refl). lia.
Qed.

Lemma for_each_none p xs :
  (forall x w, count p (snd (f x w)) = count p w) ->
  forall w, count p (snd (for_each f xs w)) = count p w.
Proof.
  intros Hf. induction xs as [|x xs IH]; intros w; [reflexivity|].
  rewrite for_each_step. specialize (Hf x w).
  destruct (f x w) as [[e|r] w1]; simpl in *; [done|].
  specialize (IH w1).
  destruct (for_each f xs w1) as [[e|rs] w2]; simpl in *; lia.
Qed.

(** The results line up with the items, in order. *)
Lemma for_each_Forall2 (R : A -> B -> Prop) xs :
  (forall x w r, fst (f x w) = inr r -> R x r) ->
  forall w rs, fst (for_each f xs w) = inr rs -> Forall2 R xs rs.
Proof.
  intros Hf. induction xs as [|x xs IH]; intros w rs.
  - simpl. intros [= <-]. constructor.
  - rewrite for_each_step. specialize (Hf x w).
    destruct (f x w) as [[e|r] w1]; simpl in *; [discriminate|].
    specialize (IH w1).
    destruct (for_each f xs w1) as [[e|rs'] w2]; simpl in *; [discriminate|].
    intros [= <-]. constructor; eauto.
Qed.
End Loop.

(** The result of a pair carries the id of its offer and a score in range. *)
Lemma init_inr vid ttl comp percent strong missing expl from_cache at_ r :
  MatchResult_init vid ttl comp percent strong missing expl from_cache at_ = inr r ->
  vacancy_id r = vid /\ match_percent r = percent /\ cached r = from_cache
  /\ 0 <= percent <= 100.
Proof.
  unfold MatchResult_init.
  destruct (as_str_list strong), (as_str_list missing), (as_str expl); try discriminate.
  destruct (Z.leb_spec 0 percent), (Z.leb_spec percent 100); simpl; try discriminate.
  intros [= <-]. simpl. repeat split; lia.
Qed.

Lemma init_out_of_range vid ttl comp percent strong missing expl from_cache at_ :
  percent < 0 \/ 100 < percent ->
  MatchResult_init vid ttl comp percent strong missing expl from_cache at_
  = inl ValidationError.
Proof.
  intros Hout. unfold MatchResult_init.
  destruct (as_str_list strong), (as_str_list missing), (as_str expl); try reflexivity.
  destruct (Z.leb_spec 0 percent), (Z.leb_spec percent 100); simpl; try reflexivity.
  lia.
Qed.

Lemma pair_result env s v w r :
  fst (_get_or_compute_match env s v w) = inr r ->
  vacancy_id r = v_id v /\ 0 <= match_percent r <= 100.
Proof.
  destruct (fresh_or_not env w s v) as [(row & Hrow & Hfresh)|Hmiss].
  - rewrite (hit_run env w s v row Hrow Hfresh). simpl.
    intros H%init_inr. destruct H as (? & -> & ? & ?). done.
  - rewrite (miss_run env w s v Hmiss).
    destruct (primary_outcome env w s v) as [e|a]; simpl; [discriminate|].
    intros H%init_inr. destruct H as (? & -> & ? & ?). done.
Qed.

End Fanout.

(** ** The shape of a ranking *)

Module Ranking.
Import Py Models World MatchingService Order Cache CacheFacts Fanout SortFacts.

Lemma slice_to_nil {A : Type} n : slice_to (@nil A) n = [].
Proof. unfold slice_to. by destruct (0 <=? n); rewrite take_nil. Qed.

(** A successful ranking is the slice of the sorted per-offer results,
    which line up with the fetched offers. *)
Lemma ranking_shape env student_id limit w out :
  fst (get_matches_for_student env student_id limit w) = inr out ->
  exists results,
    Forall2 (fun v r => vacancy_id r = v_id v /\ 0 <= match_percent r <= 100)
      (active_vacancies env) results
    /\ out = slice_to (sort_desc match_percent results) limit.
Proof.
  unfold get_matches_for_student.
  destruct (List.find _ (student_profiles env)) as [student|]; [|discriminate].
  destruct (active_vacancies env) as [|v0 vs] eqn:Hv.
  - simpl. intros [= <-]. exists []. split; [constructor|]. symmetry. apply slice_to_nil.
  - unfold mbind, M_bind, bind, mret, M_ret, ret.
    destruct (for_each (_get_or_compute_match env student) (v0 :: vs) w)
      as [[e|results] w1] eqn:Hrun; simpl; [discriminate|].
    intros [= <-]. exists results. split; [|reflexivity].
    eapply (for_each_Forall2 (_get_or_compute_match env student)); last first.
    + by rewrite Hrun.
    + intros v w0 r Hr. by apply pair_result in Hr.
Qed.

End Ranking.

(** * Properties of the engine, C1 to C10 *)

Import Py Models World MatchingService Order Cache Fixtures Scenarios.
Import SortFacts CacheFacts Fanout Ranking.

(** ** C1: what happens when the Primary provider fails *)

(** Whatever the providers do, no pair and no ranking ever reaches the
    Fallback provider. *)
Lemma ranking_never_calls_fallback env student_id limit w :
  count is_fallback (snd (get_matches_for_student env student_id limit w))
  = count is_fallback w.
Proof.
  unfold get_matches_for_student.
  destruct (List.find _ (student_profiles env)) as [student|]; [|reflexivity].
  destruct (active_vacancies env) as [|v0 vs]; [reflexivity|].
  unfold mbind, M_bind, bind, mret, M_ret, ret.
  pose proof (for_each_none (_get_or_compute_match env student) is_fallback (v0 :: vs)
                (fun v w0 => proj1 (proj2 (pair_counts env student v w0))) w) as H.
  by destruct (for_each _ (v0 :: vs) w) as [[e|results] w1].
Qed.

(** Whenever the Primary call raises, the pair ends with HTTP 429 (the
    text of the exception holds 429 or quota) or HTTP 503, without a
    Fallback call and without a write to the cache. *)
Lemma primary_failure_ends_pair env w s v msg :
  absent_or_stale env w s v ->
  gemini env (count is_primary w) (payload_of s v) = Raises msg ->
  let (res, w') := _get_or_compute_match env s v w in
  res = inl (HTTPException (if GeminiService.is_quota_error msg then 429 else 503))
  /\ count is_fallback w' = count is_fallback w
  /\ matches w' = matches w.
Proof.
  intros Hmiss Hreply. rewrite (miss_run env w s v Hmiss).
  unfold primary_outcome. rewrite Hreply. simpl.
  unfold asked. rewrite count_tick, !count_log. simpl. repeat split; lia.
Qed.

(** C1, on the code. Ranking a subject against three active offers while
    the Primary provider is over quota (its error text holds 429 and
    quota) and the Fallback provider would answer with a score of 80:
    the first pair ends the ranking with HTTP 429, the Fallback provider
    is not called, no record is written. When the Primary provider is
    unavailable instead, the ranking ends with HTTP 503, again without a
    Fallback call. *)
Theorem C1_primary_failure_never_reaches_fallback :
  let s := student "s1" 80 in
  let v := vacancy "v1" true in
  fst (GroqService.analyze_match rate_limited (payload_of s v) empty_cache)
  = inr {| a_match_percent := 80; a_strong_skills := JArr [JStr "Python"];
           a_missing_skills := JArr [JStr "Docker"]; a_explanation := JStr "ok" |}
  /\ (let (res, w') := get_matches_for_student rate_limited "s1" 10 empty_cache in
      res = inl (HTTPException 429)
      /\ trace w' = [Select "s1" "v1"; Primary (payload_of s v)]
      /\ count is_fallback w' = 0%nat
      /\ matches w' = ∅)
  /\ (let (res, w') := get_matches_for_student unavailable "s1" 10 empty_cache in
      res = inl (HTTPException 503)
      /\ trace w' = [Select "s1" "v1"; Primary (payload_of s v)]
      /\ count is_fallback w' = 0%nat
      /\ matches w' = ∅).
Proof. vm_compute. repeat split. Qed.

(** ** C2: a score of 135 from the Primary provider *)

(** Any integer score outside [0,100] that the Primary provider gives is
    written to the cache before the result fails to validate. *)
Lemma out_of_range_score_reaches_cache env w s v items percent :
  absent_or_stale env w s v ->
  gemini env (count is_primary w) (payload_of s v) = Text (Some (JObj items)) ->
  assoc "match_percent" items = Some (JInt percent) ->
  percent < 0 \/ 100 < percent ->
  let (res, w') := _get_or_compute_match env s v w in
  res = inl ValidationError
  /\ r_match_percent <$> cached_row w' s v = Some percent.
Proof.
  intros Hmiss Hreply Hscore Hout. rewrite (miss_run env w s v Hmiss).
  unfold primary_outcome. rewrite Hreply. unfold to_analysis, get.
  rewrite Hscore. simpl. split; [by apply init_out_of_range|].
  unfold cached_row. simpl. by rewrite lookup_insert_eq.
Qed.

(** C2, on the code. The Primary provider answers [match_percent = 135]:
    the adapter returns 135 as it is; [_get_or_compute_match] writes the
    record with 135 to the cache and only then fails, with pydantic's
    validation error, to build the result; within the freshness window
    every later request for the pair reads that record and fails the
    same way, without a provider call. *)
Theorem C2_out_of_range_score_is_cached :
  let s := student "s1" 80 in
  let v := vacancy "v1" true in
  fst (GeminiService.analyze_match overshoot (payload_of s v) empty_cache)
  = inr {| a_match_percent := 135; a_strong_skills := JArr [JStr "Python"];
           a_missing_skills := JArr [JStr "Docker"]; a_explanation := JStr "ok" |}
  /\ let (res, w') := _get_or_compute_match overshoot s v empty_cache in
     res = inl ValidationError
     /\ r_match_percent <$> cached_row w' s v = Some 135
     /\ let (res', w'') := _get_or_compute_match overshoot s v w' in
        res' = inl ValidationError
        /\ count is_primary w'' = count is_primary w'
        /\ r_match_percent <$> cached_row w'' s v = Some 135.
Proof. vm_compute. repeat split. Qed.

(** ** C3: an answer without a score *)

(** C3 as stated fails: the Primary provider answers with a JSON object
    that has no [match_percent]; no error is raised, the result and the
    cached record carry a score of 0. *)
Lemma C3_counterexample :
  let s := student "s1" 80 in
  let v := vacancy "v1" true in
  gemini scoreless 0 (payload_of s v) = Text (Some scoreless_answer)
  /\ assoc "match_percent"
       [("strong_skills", JArr [JStr "Python"]);
        ("missing_skills", JArr [JStr "Docker"]);
        ("explanation", JStr "no score given")] = None
  /\ let (res, w') := _get_or_compute_match scoreless s v empty_cache in
     res <> inl (HTTPException 502)
     /\ res = inr {| vacancy_id := "v1"; title := "Junior Backend Developer";
                     company := "TechCorp"; match_percent := 0;
                     strong_skills := ["Python"]; missing_skills := ["Docker"];
                     explanation := "no score given";
                     cached := false; cached_at := None |}
     /\ r_match_percent <$> cached_row w' s v = Some 0.
Proof. vm_compute. repeat split. discriminate. Qed.

(** An answer that is JSON but not an object ends in HTTP 503. *)
Lemma not_an_object_error of_str parsed :
  match parsed with
  | JObj _ => True
  | _ => to_analysis of_str parsed
         = inl (OtherException ("'" +:+ type_name parsed +:+ "' object has no attribute 'get'"))
         /\ primary_error (OtherException
                             ("'" +:+ type_name parsed +:+ "' object has no attribute 'get'"))
            = HTTPException 503
  end.
Proof. destruct parsed; try exact I; split; reflexivity. Qed.

(** C3, amended. When the Primary call is made and its answer cannot be
    parsed as JSON, [_get_or_compute_match] raises the malformed-answer
    error (HTTP 502); when the answer is JSON but not an object it
    raises HTTP 503; when its [match_percent] is there and [int] cannot
    convert it, whatever the interpreter's [int] accepts, it raises the
    error that the adapter has for an exception other than a parse
    error; in these cases no result is returned and nothing is written
    to the cache. When the answer is a JSON object without
    [match_percent], the adapter takes the score to be 0: the record is
    cached with score 0, and the result, when its other fields
    validate, carries score 0 and is tagged non-cached. A score that
    [int] converts is the score of the record written. *)
Theorem C3_unparseable_raises_missing_score_is_zero env w s v :
  absent_or_stale env w s v ->
  let (res, w') := _get_or_compute_match env s v w in
  match gemini env (count is_primary w) (payload_of s v) with
  | Raises _ => True
  | Text None => res = inl (HTTPException 502) /\ matches w' = matches w
  | Text (Some (JObj items)) =>
      match assoc "match_percent" items with
      | None =>
          r_match_percent <$> cached_row w' s v = Some 0
          /\ match res with
             | inr r => match_percent r = 0 /\ cached r = false
             | inl e => e = ValidationError
             end
      | Some score =>
          match int (int_of_str env) score with
          | inl msg =>
              res = inl (primary_error (OtherException msg))
              /\ matches w' = matches w
          | inr percent => r_match_percent <$> cached_row w' s v = Some percent
          end
      end
  | Text (Some _) => res = inl (HTTPException 503) /\ matches w' = matches w
  end.
Proof.
  intros Hmiss. rewrite (miss_run env w s v Hmiss). unfold primary_outcome.
  destruct (gemini env (count is_primary w) (payload_of s v))
    as [msg|[parsed|]]; [done| |by split].
  pose proof (not_an_object_error (int_of_str env) parsed) as Hshape.
  destruct parsed as [| | | | | |items];
    [destruct Hshape as [-> ->]; by split ..|].
  clear Hshape. unfold to_analysis, get.
  destruct (assoc "match_percent" items) as [score|]; simpl.
  - destruct (int _ score) as [msg|percent]; simpl; [by split|].
    unfold cached_row. simpl. by rewrite lookup_insert_eq.
  - split.
    + unfold cached_row. simpl. by rewrite lookup_insert_eq.
    + match goal with |- context [MatchResult_init ?a ?b ?c ?d ?e ?f ?g ?h ?i] =>
        pose proof (init_inr a b c d e f g h i) as Hinit;
        destruct (MatchResult_init a b c d e f g h i) as [e'|r] eqn:Hres
      end.
      * revert Hres. unfold MatchResult_init.
        repeat match goal with |- context [match ?x with _ => _ end] => destruct x end;
          congruence.
      * destruct (Hinit r eq_refl) as (_ & ? & ? & _). done.
Qed.

Lemma C3_witness :
  let s := student "s1" 80 in
  let v := vacancy "v1" true in
  absent_or_stale scoreless empty_cache s v
  /\ let (res, w') := _get_or_compute_match scoreless s v empty_cache in
     r_match_percent <$> cached_row w' s v = Some 0
     /\ match res with
        | inr r => match_percent r = 0 /\ cached r = false
        | inl e => e = ValidationError
        end.
Proof.
  intros s v.
  assert (Hmiss : absent_or_stale scoreless empty_cache s v) by (left; reflexivity).
  exact (conj Hmiss
           (C3_unparseable_raises_missing_score_is_zero scoreless empty_cache s v Hmiss)).
Defined.

(** ** C4: a fresh cached record is served as it is *)

(** C4. For every pair with a cached row of age at most the freshness
    window, [_get_or_compute_match] calls no provider and leaves the
    cache as it is; when the row is a ScoreRecord (its score is in
    [0,100], its skill lists are lists of strings, its rationale is a
    string) the result is that record unchanged, tagged [cached = true]
    with the record's timestamp. *)
Theorem C4_fresh_record_served_from_cache env w s v row :
  cached_row w s v = Some row ->
  age w row <= window env ->
  let (res, w') := _get_or_compute_match env s v w in
  count is_primary w' = count is_primary w
  /\ count is_fallback w' = count is_fallback w
  /\ matches w' = matches w
  /\ forall (ss ms : list string) (ex : string),
       0 <= r_match_percent row <= 100 ->
       as_str_list (r_strong_skills row) = Some ss ->
       as_str_list (r_missing_skills row) = Some ms ->
       as_str (r_explanation row) = Some ex ->
       res = inr {| vacancy_id := v_id v; title := v_title v; company := v_company v;
                    match_percent := r_match_percent row;
                    strong_skills := ss; missing_skills := ms; explanation := ex;
                    cached := true; cached_at := Some (r_cached_at row) |}.
Proof.
  intros Hrow Hfresh.
  rewrite (hit_run env w s v row Hrow Hfresh).
  rewrite !count_log. simpl. repeat split; [lia..|].
  intros ss ms ex Hrange Hss Hms Hex.
  unfold MatchResult_init. rewrite Hss, Hms, Hex.
  destruct (Z.leb_spec 0 (r_match_percent row)); [|lia].
  destruct (Z.leb_spec (r_match_percent row) 100); [|lia].
  reflexivity.
Qed.

(** The scenario of C4: the record is one hour old, the window 24 hours. *)
Lemma C4_witness :
  let s := student "s1" 80 in
  let v := vacancy "v1" true in
  let r := row "s1" "v1" 70 (99 * hour) in
  (cached_row one_hour_old s v = Some r /\ age one_hour_old r = 1 * hour
   /\ window quiet = 24 * hour)
  /\ let (res, w') := _get_or_compute_match quiet s v one_hour_old in
     count is_primary w' = count is_primary one_hour_old
     /\ count is_fallback w' = count is_fallback one_hour_old
     /\ matches w' = matches one_hour_old
     /\ res = inr {| vacancy_id := "v1"; title := v_title v; company := v_company v;
                     match_percent := 70;
                     strong_skills := ["Python"]; missing_skills := [];
                     explanation := "cached";
                     cached := true; cached_at := Some (99 * hour) |}.
Proof.
  intros s v r. split; [repeat split|].
  assert (Hfresh : age one_hour_old r <= window quiet) by (intros [=]).
  pose proof (C4_fresh_record_served_from_cache quiet one_hour_old s v r
                eq_refl Hfresh) as H.
  destruct (_get_or_compute_match quiet s v one_hour_old) as [res w'].
  destruct H as (H1 & H2 & H3 & H4).
  repeat split; [exact H1|exact H2|exact H3|].
  apply (H4 ["Python"] [] "cached"); [split; intros [=]|reflexivity..].
Defined.

(** ** C5: no record, or a stale one, means one Primary call *)

(** C5. For every pair with no cached record, or with a record whose
    age exceeds the freshness window, [_get_or_compute_match] makes
    exactly one Primary call, with the payload of the pair, whatever the
    provider answers. *)
Theorem C5_absent_or_stale_one_primary_call env w s v :
  cached_row w s v = None
  \/ (exists row, cached_row w s v = Some row /\ window env < age w row) ->
  let w' := snd (_get_or_compute_match env s v w) in
  exists evs,
    trace w' = (trace w ++ evs)%list
    /\ List.filter is_primary evs = [Primary (payload_of s v)]
    /\ count is_primary w' = S (count is_primary w).
Proof.
  intros Hmiss. rewrite (miss_run env w s v Hmiss).
  destruct (primary_outcome env w s v) as [e|a]; simpl.
  - exists [Select (s_id s) (v_id v); Primary (payload_of s v)].
    rewrite <- app_assoc. repeat split.
    unfold asked. rewrite count_tick, !count_log. simpl. lia.
  - exists [Select (s_id s) (v_id v); Primary (payload_of s v);
            Upsert (row_of s v a (clock (asked env w s v)))].
    rewrite <- !app_assoc. repeat split.
    unfold count. simpl. rewrite !List.filter_app, !length_app. simpl. lia.
Qed.

(** The scenario of C5: the record is 25 hours old, the window 24 hours. *)
Lemma C5_witness :
  let s := student "s1" 80 in
  let v := vacancy "v1" true in
  let r := row "s1" "v1" 70 (75 * hour) in
  (cached_row day_old s v = Some r /\ age day_old r = 25 * hour
   /\ window quiet = 24 * hour)
  /\ let w' := snd (_get_or_compute_match quiet s v day_old) in
     exists evs,
       trace w' = (trace day_old ++ evs)%list
       /\ List.filter is_primary evs = [Primary (payload_of s v)]
       /\ count is_primary w' = S (count is_primary day_old).
Proof.
  intros s v r. split; [repeat split|].
  apply (C5_absent_or_stale_one_primary_call quiet day_old s v).
  right. exists r. split; reflexivity.
Defined.

(** ** C6: a Primary answer that is not JSON *)

(** C6. When the Primary call is made and its answer cannot be parsed
    ([json.JSONDecodeError]), [_get_or_compute_match] raises the
    malformed-answer error (HTTP 502) right away: no Fallback call
    follows, and nothing is written to the cache. *)
Theorem C6_invalid_response_no_fallback env w s v :
  absent_or_stale env w s v ->
  gemini env (count is_primary w) (payload_of s v) = Text None ->
  let (res, w') := _get_or_compute_match env s v w in
  res = inl (HTTPException 502)
  /\ count is_fallback w' = count is_fallback w
  /\ count is_primary w' = S (count is_primary w)
  /\ matches w' = matches w.
Proof.
  intros Hmiss Hreply. rewrite (miss_run env w s v Hmiss).
  unfold primary_outcome. rewrite Hreply. simpl.
  unfold asked. rewrite !count_tick, !count_log. simpl. repeat split; lia.
Qed.

Lemma C6_witness :
  let s := student "s1" 80 in
  let v := vacancy "v1" true in
  (absent_or_stale garbled empty_cache s v
   /\ gemini garbled (count is_primary empty_cache) (payload_of s v) = Text None)
  /\ let (res, w') := _get_or_compute_match garbled s v empty_cache in
     res = inl (HTTPException 502)
     /\ count is_fallback w' = count is_fallback empty_cache
     /\ count is_primary w' = S (count is_primary empty_cache)
     /\ matches w' = matches empty_cache.
Proof.
  intros s v.
  assert (Hmiss : absent_or_stale garbled empty_cache s v) by (left; reflexivity).
  split; [split; [exact Hmiss|reflexivity]|].
  exact (C6_invalid_response_no_fallback garbled empty_cache s v Hmiss eq_refl).
Defined.

(** ** C7: the order of a ranking *)

(** C7. What [get_matches_for_student] returns is in descending order of
    score; its entries of any one score are the first of the per-offer
    results of that score, in the order the offers were fetched; and it
    is the [limit]-slice of the one stable descending arrangement of
    those results, so the order depends on nothing else. *)
Theorem C7_ranking_sorted_and_stable env student_id limit w :
  match fst (get_matches_for_student env student_id limit w) with
  | inl _ => True
  | inr out =>
      StronglySorted (desc match_percent) out
      /\ exists results,
           Forall2 (fun v r => vacancy_id r = v_id v) (active_vacancies env) results
           /\ (forall k, with_key match_percent k out
                           `prefix_of` with_key match_percent k results)
           /\ (forall arranged,
                 StronglySorted (desc match_percent) arranged ->
                 (forall k, with_key match_percent k arranged
                            = with_key match_percent k results) ->
                 out = slice_to arranged limit)
  end.
Proof.
  destruct (fst (get_matches_for_student env student_id limit w)) as [e|out] eqn:Hrun;
    [done|].
  apply ranking_shape in Hrun as (results & Hres & ->).
  destruct (ranked_slice match_percent results limit) as (Hsorted & Hstable & Hunique).
  split; [exact Hsorted|]. exists results. split; [|by split].
  eapply Forall2_impl; [exact Hres|]. by intros ? ? [? _].
Qed.

(** The ranking of subjects for an offer is ordered the same way. *)
Lemma candidates_shape env vacancy_id limit w out :
  fst (get_candidates_for_vacancy env vacancy_id limit w) = inr out ->
  exists candidates,
    Forall2 (fun s c => c_student_id c = s_id s) (complete_students env) candidates
    /\ out = slice_to (sort_desc c_match_percent candidates) limit.
Proof.
  unfold get_candidates_for_vacancy.
  destruct (List.find _ (vacancies env)) as [vacancy|]; [|discriminate].
  unfold mbind, M_bind, bind, mret, M_ret, ret.
  destruct (for_each (fun student => candidate_of env student vacancy)
              (complete_students env) w) as [[e|candidates] w1] eqn:Hrun;
    simpl; [discriminate|].
  intros [= <-]. exists candidates. split; [|reflexivity].
  eapply (for_each_Forall2 (fun student => candidate_of env student vacancy));
    last first.
  - by rewrite Hrun.
  - intros student w0 c. unfold candidate_of, mbind, M_bind, bind, mret, M_ret, ret.
    destruct (_get_or_compute_match env student vacancy w0) as [[e|r] w2];
      simpl; [discriminate|].
    by intros [= <-].
Qed.

Lemma candidates_sorted_and_stable env vacancy_id limit w out :
  fst (get_candidates_for_vacancy env vacancy_id limit w) = inr out ->
  StronglySorted (desc c_match_percent) out
  /\ exists candidates,
       Forall2 (fun s c => c_student_id c = s_id s) (complete_students env) candidates
       /\ (forall k, with_key c_match_percent k out
                       `prefix_of` with_key c_match_percent k candidates).
Proof.
  intros (candidates & Hres & ->)%candidates_shape.
  destruct (ranked_slice c_match_percent candidates limit) as (Hsorted & Hstable & _).
  split; [exact Hsorted|]. by exists candidates.
Qed.

(** Offers scored 35, 85, 35 in fetch order v1, v2, v3 are ranked
    v2, v1, v3. *)
Example tied_ranking :
  match fst (get_matches_for_student tied "s1" 10 empty_cache) with
  | inr out => map (fun r => (vacancy_id r, match_percent r)) out
  | inl _ => []
  end = [("v2", 85); ("v1", 35); ("v3", 35)].
Proof. reflexivity. Qed.

Lemma C7_witness :
  match fst (get_matches_for_student tied "s1" 10 empty_cache) with
  | inl _ => True
  | inr out =>
      StronglySorted (desc match_percent) out
      /\ exists results,
           Forall2 (fun v r => vacancy_id r = v_id v) (active_vacancies tied) results
           /\ (forall k, with_key match_percent k out
                           `prefix_of` with_key match_percent k results)
           /\ (forall arranged,
                 StronglySorted (desc match_percent) arranged ->
                 (forall k, with_key match_percent k arranged
                            = with_key match_percent k results) ->
                 out = slice_to arranged 10)
  end.
Proof. exact (C7_ranking_sorted_and_stable tied "s1" 10 empty_cache). Defined.

(** ** C8: the limit *)

(** C8. For every non-negative [limit], the endpoint
    [get_student_matches] returns at most [min(limit, 20)] entries, and
    [get_matches_for_student] itself at most [limit]. *)
Theorem C8_limit_caps_ranking env limit current_user_id student_id w :
  0 <= limit ->
  match fst (Routers.get_student_matches env limit current_user_id w) with
  | inr out => Z.of_nat (length out) <= Z.min limit 20
  | inl _ => True
  end
  /\ match fst (get_matches_for_student env student_id limit w) with
     | inr out => Z.of_nat (length out) <= limit
     | inl _ => True
     end.
Proof.
  intros Hlimit. split.
  - unfold Routers.get_student_matches.
    destruct (List.filter _ (student_profiles env)) as [|profile [|]]; [done| |done].
    destruct (fst (get_matches_for_student env (s_id profile) (Z.min limit 20) w))
      as [e|out] eqn:Hrun; [done|].
    apply ranking_shape in Hrun as (results & _ & ->).
    apply slice_to_length. lia.
  - destruct (fst (get_matches_for_student env student_id limit w))
      as [e|out] eqn:Hrun; [done|].
    apply ranking_shape in Hrun as (results & _ & ->).
    by apply slice_to_length.
Qed.

(** With six active offers and [limit = 5], five entries come back. *)
Example five_of_six :
  length (active_vacancies six_offers) = 6%nat
  /\ match fst (Routers.get_student_matches six_offers 5 "u-s1" empty_cache) with
     | inr out => map vacancy_id out
     | inl _ => []
     end = ["v6"; "v5"; "v4"; "v3"; "v2"].
Proof. split; reflexivity. Qed.

Lemma C8_witness :
  0 <= 5
  /\ match fst (Routers.get_student_matches six_offers 5 "u-s1" empty_cache) with
     | inr out => Z.of_nat (length out) <= Z.min 5 20
     | inl _ => True
     end
  /\ match fst (get_matches_for_student six_offers "s1" 5 empty_cache) with
     | inr out => Z.of_nat (length out) <= 5
     | inl _ => True
     end.
Proof.
  assert (H : 0 <= 5) by (intros [=]).
  exact (conj H (C8_limit_caps_ranking six_offers 5 "u-s1" "s1" empty_cache H)).
Defined.

(** ** C9: how many pairs a ranking handles *)

Lemma candidate_state env s v w :
  snd (candidate_of env s v w) = snd (_get_or_compute_match env s v w).
Proof.
  unfold candidate_of, mbind, M_bind, bind, mret, M_ret, ret.
  by destruct (_get_or_compute_match env s v w) as [[e|r] w1].
Qed.

Lemma pair_at_most_one env s p :
  p = is_select \/ p = is_primary ->
  forall v w, (count p (snd (_get_or_compute_match env s v w)) <= S (count p w))%nat.
Proof.
  intros Hp v w. destruct (pair_counts env s v w) as (Hsel & _ & Hpri).
  destruct Hp as [-> | ->]; lia.
Qed.

(** C9 as stated fails for [get_candidates_for_vacancy]: with 51 subjects
    whose profiles are complete enough, one ranking handles 51 pairs and
    makes 51 Primary calls. *)
Lemma C9_counterexample :
  let w' := snd (get_candidates_for_vacancy crowd "v1" 10 empty_cache) in
  length (complete_students crowd) = 51%nat
  /\ fan_out empty_cache w' = 51%nat
  /\ primary_calls empty_cache w' = 51%nat
  /\ ~ (fan_out empty_cache w' <= 50)%nat.
Proof. vm_compute. repeat split. lia. Qed.

(** C9, amended. A ranking by [get_matches_for_student] handles at most
    50 pairs and makes at most 50 Primary calls. A ranking by
    [get_candidates_for_vacancy] handles at most as many pairs as there
    are subjects with [profile_completion >= 30], and exactly that many
    when it returns. *)
Theorem C9_fan_out env student_id vacancy_id limit w :
  (let w' := snd (get_matches_for_student env student_id limit w) in
   (fan_out w w' <= 50)%nat /\ (primary_calls w w' <= 50)%nat)
  /\ (let (res, w') := get_candidates_for_vacancy env vacancy_id limit w in
      (fan_out w w' <= length (complete_students env))%nat
      /\ match res with
         | inr _ => fan_out w w' = length (complete_students env)
         | inl _ => True
         end).
Proof.
  unfold fan_out, primary_calls. split.
  - unfold get_matches_for_student.
    destruct (List.find _ (student_profiles env)) as [student|]; [|simpl; lia].
    assert (Hlen : (length (active_vacancies env) <= 50)%nat).
    { unfold active_vacancies. rewrite length_take. lia. }
    destruct (active_vacancies env) as [|v0 vs]; [simpl; lia|].
    unfold mbind, M_bind, bind, mret, M_ret, ret.
    pose proof (for_each_at_most (_get_or_compute_match env student) is_select (v0 :: vs)
                  (pair_at_most_one env student is_select (or_introl eq_refl)) w) as Hsel.
    pose proof (for_each_at_most (_get_or_compute_match env student) is_primary (v0 :: vs)
                  (pair_at_most_one env student is_primary (or_intror eq_refl)) w) as Hpri.
    destruct (for_each _ (v0 :: vs) w) as [[e|results] w1]; simpl in *; lia.
  - unfold get_candidates_for_vacancy.
    destruct (List.find _ (vacancies env)) as [vacancy|]; [|simpl; lia].
    unfold mbind, M_bind, bind, mret, M_ret, ret.
    set (f := fun student => candidate_of env student vacancy).
    assert (Hone : forall x w0, count is_select (snd (f x w0)) = S (count is_select w0)).
    { intros x w0. unfold f. rewrite candidate_state. apply pair_counts. }
    assert (Hle : forall x w0, (count is_select (snd (f x w0)) <= S (count is_select w0))%nat).
    { intros x w0. rewrite (Hone x w0). lia. }
    pose proof (for_each_at_most f is_select (complete_students env) Hle w) as Hmost.
    pose proof (for_each_exactly f is_select (complete_students env) Hone w) as Hexact.
    destruct (for_each f (complete_students env) w) as [[e|candidates] w1];
      simpl in *; [lia|].
    specialize (Hexact candidates eq_refl). lia.
Qed.

(** ** C10: every result carries a score between 0 and 100 *)

(** C10. Every result [_get_or_compute_match] returns, and so every
    entry of what [get_matches_for_student] returns, has
    [0 <= match_percent <= 100]; with a score outside this range the
    construction of the result fails with pydantic's validation error. *)
Theorem C10_results_in_range env s v w student_id limit
    vid ttl comp percent strong missing expl from_cache at_ :
  match fst (_get_or_compute_match env s v w) with
  | inr r => 0 <= match_percent r <= 100
  | inl _ => True
  end
  /\ match fst (get_matches_for_student env student_id limit w) with
     | inr out => Forall (fun r => 0 <= match_percent r <= 100) out
     | inl _ => True
     end
  /\ (percent < 0 \/ 100 < percent ->
      MatchResult_init vid ttl comp percent strong missing expl from_cache at_
      = inl ValidationError).
Proof.
  split; [|split].
  - destruct (fst (_get_or_compute_match env s v w)) as [e|r] eqn:Hr; [done|].
    by apply pair_result in Hr as [_ ?].
  - destruct (fst (get_matches_for_student env student_id limit w)) as [e|out] eqn:Hr;
      [done|].
    apply ranking_shape in Hr as (results & Hres & ->).
    destruct (slice_to_prefix (sort_desc match_percent results) limit) as [rest Hrest].
    assert (Hall : Forall (fun r => 0 <= match_percent r <= 100) results).
    { clear -Hres. induction Hres as [|? ? ? ? [_ ?]]; by constructor. }
    rewrite <- (sort_desc_perm match_percent results), Hrest in Hall.
    by apply Forall_app in Hall as [? _].
  - apply init_out_of_range.
Qed.

Lemma C10_witness :
  let s := student "s1" 80 in
  let v := vacancy "v1" true in
  (135 < 0 \/ 100 < 135)
  /\ match fst (_get_or_compute_match quiet s v empty_cache) with
     | inr r => 0 <= match_percent r <= 100
     | inl _ => True
     end
  /\ match fst (get_matches_for_student quiet "s1" 10 empty_cache) with
     | inr out => Forall (fun r => 0 <= match_percent r <= 100) out
     | inl _ => True
     end
  /\ MatchResult_init "v1" "t" "c" 135 (JArr []) (JArr []) (JStr "") false None
     = inl ValidationError.
Proof.
  intros s v.
  assert (Hout : 135 < 0 \/ 100 < 135) by (right; reflexivity).
  destruct (C10_results_in_range quiet s v empty_cache "s1" 10
              "v1" "t" "c" 135 (JArr []) (JArr []) (JStr "") false None)
    as (H1 & H2 & H3).
  exact (conj Hout (conj H1 (conj H2 (H3 Hout)))).
Defined.

(** The runs of the witness do return results. *)
Example quiet_pair_result :
  fst (_get_or_compute_match quiet (student "s1" 80) (vacancy "v1" true) empty_cache)
  = inr {| vacancy_id := "v1"; title := "Junior Backend Developer";
           company := "TechCorp"; match_percent := 55;
           strong_skills := ["Python"]; missing_skills := ["Docker"];
           explanation := "ok"; cached := false; cached_at := None |}.
Proof. reflexivity. Qed.

(** * Further properties of the code, X1 to X23 *)


Module EngineFacts.
Import Py Models World MatchingService Order Cache.
Import SortFacts CacheFacts Fanout Ranking.

(** What a constructed result is made of. *)
Lemma init_full vid ttl comp percent strong missing expl from_cache at_ r :
  MatchResult_init vid ttl comp percent strong missing expl from_cache at_ = inr r ->
  exists ss ms ex,
    as_str_list strong = Some ss /\ as_str_list missing = Some ms
    /\ as_str expl = Some ex /\ 0 <= percent <= 100
    /\ r = {| vacancy_id := vid; title := ttl; company := comp;
              match_percent := percent; strong_skills := ss;
              missing_skills := ms; explanation := ex;
              cached := from_cache; cached_at := at_ |}.
Proof.
  unfold MatchResult_init.
  destruct (as_str_list strong) as [ss|], (as_str_list missing) as [ms|],
    (as_str expl) as [ex|]; try discriminate.
  destruct (Z.leb_spec 0 percent), (Z.leb_spec percent 100); simpl; try discriminate.
  intros [= <-]. exists ss, ms, ex. repeat split; lia.
Qed.

(** A loop keeps every relation between states that its body keeps. *)
Lemma for_each_related {A B : Type} (f : A -> M Exn B) (R : State -> State -> Prop) xs :
  (forall w, R w w) ->
  (forall w1 w2 w3, R w1 w2 -> R w2 w3 -> R w1 w3) ->
  (forall x w, In x xs -> R w (snd (f x w))) ->
  forall w, R w (snd (for_each f xs w)).
Proof.
  intros Hrefl Htrans. induction xs as [|x xs IH]; intros Hf w; [apply Hrefl|].
  rewrite for_each_step.
  pose proof (Hf x w (or_introl eq_refl)) as Hx.
  destruct (f x w) as [[e|r] w1]; simpl in *; [exact Hx|].
  assert (IH' : R w1 (snd (for_each f xs w1))) by (apply IH; intros; apply Hf; by right).
  destruct (for_each f xs w1) as [[e|rs] w2]; simpl in *; eauto.
Qed.

Lemma found_student_id env student_id student :
  List.find (fun s => String.eqb (s_id s) student_id) (student_profiles env) = Some student ->
  s_id student = student_id /\ In student (student_profiles env).
Proof.
  intros H. apply find_some in H as [Hin Heq]. by apply String.eqb_eq in Heq.
Qed.

Lemma ranking_state env student_id limit w student :
  List.find (fun s => String.eqb (s_id s) student_id) (student_profiles env) = Some student ->
  snd (get_matches_for_student env student_id limit w)
  = snd (for_each (_get_or_compute_match env student) (active_vacancies env) w).
Proof.
  intros Hfind. unfold get_matches_for_student. rewrite Hfind.
  destruct (active_vacancies env) as [|v0 vs]; [reflexivity|].
  unfold mbind, M_bind, bind, mret, M_ret, ret.
  by destruct (for_each _ (v0 :: vs) w) as [[e|rs] w1].
Qed.

Lemma ranking_result env student_id limit w student :
  List.find (fun s => String.eqb (s_id s) student_id) (student_profiles env) = Some student ->
  fst (get_matches_for_student env student_id limit w)
  = match fst (for_each (_get_or_compute_match env student) (active_vacancies env) w) with
    | inl e => inl e
    | inr results => inr (slice_to (sort_desc match_percent results) limit)
    end.
Proof.
  intros Hfind. unfold get_matches_for_student. rewrite Hfind.
  destruct (active_vacancies env) as [|v0 vs];
    [simpl; f_equal; symmetry; apply slice_to_nil|].
  unfold mbind, M_bind, bind, mret, M_ret, ret.
  by destruct (for_each _ (v0 :: vs) w) as [[e|rs] w1].
Qed.

(** A pair touches no record but its own. *)
Lemma pair_frame env s v w key :
  key <> (s_id s, v_id v) ->
  matches (snd (_get_or_compute_match env s v w)) !! key = matches w !! key.
Proof.
  intros Hkey.
  destruct (fresh_or_not env w s v) as [(row & Hrow & Hfresh)|Hmiss].
  - by rewrite (hit_run env w s v row Hrow Hfresh).
  - rewrite (miss_run env w s v Hmiss).
    destruct (primary_outcome env w s v) as [e|a]; simpl; [reflexivity|].
    by rewrite lookup_insert_ne.
Qed.

End EngineFacts.

Import MoreScenarios EngineFacts.

(** ** X1: what a pair and a ranking leave alone in the cache *)

(** X1. [_get_or_compute_match] for a subject and an offer leaves the
    cached record of every other (subject, offer) key as it was, and
    [get_matches_for_student] changes no record except those keyed by
    the requested subject and one of the active offers it fetched:
    records of other subjects, and of offers that are inactive or
    beyond the page, stay as they were, whatever the provider answers. *)
Theorem X1_other_records_untouched env s v student_id limit w key :
  (key <> (s_id s, v_id v) ->
   matches (snd (_get_or_compute_match env s v w)) !! key = matches w !! key)
  /\ ((forall o, In o (active_vacancies env) -> key <> (student_id, v_id o)) ->
      matches (snd (get_matches_for_student env student_id limit w)) !! key
      = matches w !! key).
Proof.
  split; [apply pair_frame|]. intros Hkey.
  destruct (List.find (fun s => String.eqb (s_id s) student_id) (student_profiles env))
    as [student|] eqn:Hfind.
  - rewrite (ranking_state env student_id limit w student Hfind).
    destruct (found_student_id env student_id student Hfind) as [Hid _].
    apply (for_each_related (_get_or_compute_match env student)
             (fun w1 w2 => matches w2 !! key = matches w1 !! key)).
    + reflexivity.
    + intros w1 w2 w3 H12 H23. by rewrite H23.
    + intros o w0 Ho. apply pair_frame. rewrite Hid. by apply Hkey.
  - unfold get_matches_for_student. by rewrite Hfind.
Qed.

(** A record of another subject survives a pair and a ranking of [s1]. *)
Lemma X1_witness :
  let w := start (100 * hour) [row "s2" "v1" 40 (99 * hour)] in
  let key := ("s2", "v1") in
  (key <> (s_id (student "s1" 80), v_id (vacancy "v1" true))
   /\ (forall o, In o (active_vacancies tied) -> key <> ("s1", v_id o)))
  /\ matches (snd (_get_or_compute_match tied (student "s1" 80) (vacancy "v1" true) w))
       !! key = matches w !! key
  /\ matches (snd (get_matches_for_student tied "s1" 10 w)) !! key = matches w !! key.
Proof.
  intros w key.
  assert (H1 : key <> (s_id (student "s1" 80), v_id (vacancy "v1" true)))
    by (intros [=]).
  assert (H2 : forall o, In o (active_vacancies tied) -> key <> ("s1", v_id o))
    by (intros o _ [=]).
  destruct (X1_other_records_untouched tied (student "s1" 80) (vacancy "v1" true)
              "s1" 10 w key) as [P1 P2].
  exact (conj (conj H1 H2) (conj (P1 H1) (P2 H2))).
Defined.


(** ** X2: a computed score is served from the cache afterwards *)

(** X2. When [_get_or_compute_match] returns a freshly computed result
    (tagged non-cached), a later request for the same pair that finds
    the record it wrote, no more than the freshness window after the
    write, returns the same score, skill lists and explanation, tagged
    cached with the time of the write, and calls no provider. *)
Theorem X2_computed_score_is_served_again env s v w r w' w2 :
  _get_or_compute_match env s v w = (inr r, w') ->
  cached r = false ->
  cached_row w2 s v = cached_row w' s v ->
  clock w2 - clock w' <= window env ->
  let (res2, w3) := _get_or_compute_match env s v w2 in
  res2 = inr {| vacancy_id := vacancy_id r; title := title r; company := company r;
                match_percent := match_percent r;
                strong_skills := strong_skills r;
                missing_skills := missing_skills r;
                explanation := explanation r;
                cached := true; cached_at := Some (clock w') |}
  /\ count is_primary w3 = count is_primary w2
  /\ matches w3 = matches w2.
Proof.
  intros Hrun Hfresh Hrow Hage.
  destruct (fresh_or_not env w s v) as [(row0 & Hrow0 & Hfresh0)|Hmiss].
  { rewrite (hit_run env w s v row0 Hrow0 Hfresh0) in Hrun.
    injection Hrun as Hres _. apply init_inr in Hres as (_ & _ & Hc & _).
    congruence. }
  rewrite (miss_run env w s v Hmiss) in Hrun.
  destruct (primary_outcome env w s v) as [e|a]; [discriminate|].
  injection Hrun as Hres <-.
  apply init_full in Hres as (ss & ms & ex & Hss & Hms & Hex & Hrange & ->).
  set (t := clock (stored env w s v a)) in *.
  assert (Hstored : cached_row (stored env w s v a) s v = Some (row_of s v a t)).
  { unfold cached_row, stored. simpl. by rewrite lookup_insert_eq. }
  rewrite Hstored in Hrow.
  rewrite (hit_run env w2 s v (row_of s v a t) Hrow); [|by unfold fresh, age].
  unfold MatchResult_init. simpl. rewrite Hss, Hms, Hex.
  destruct (Z.leb_spec 0 (a_match_percent a)); [|lia].
  destruct (Z.leb_spec (a_match_percent a) 100); [|lia].
  simpl. rewrite count_log. simpl. repeat split; lia.
Qed.

Lemma X2_witness :
  let s := student "s1" 80 in
  let v := vacancy "v1" true in
  let '(res, w') := _get_or_compute_match quiet s v empty_cache in
  (exists r, res = inr r /\ cached r = false /\ match_percent r = 55)
  /\ let (res2, w3) := _get_or_compute_match quiet s v w' in
     res2 = inr {| vacancy_id := "v1"; title := v_title v; company := v_company v;
                   match_percent := 55;
                   strong_skills := ["Python"]; missing_skills := ["Docker"];
                   explanation := "ok";
                   cached := true; cached_at := Some (clock w') |}
     /\ count is_primary w3 = count is_primary w'
     /\ matches w3 = matches w'.
Proof.
  intros s v.
  destruct (_get_or_compute_match quiet s v empty_cache) as [res w'] eqn:Hrun.
  assert (Hres : res = inr {| vacancy_id := "v1"; title := v_title v;
                              company := v_company v; match_percent := 55;
                              strong_skills := ["Python"]; missing_skills := ["Docker"];
                              explanation := "ok"; cached := false; cached_at := None |}).
  { change res with (fst (res, w')). rewrite <- Hrun. reflexivity. }
  subst res. split; [eexists; repeat split|].
  apply (X2_computed_score_is_served_again quiet s v empty_cache _ w' w' Hrun);
    [reflexivity|reflexivity|].
  rewrite Z.sub_diag. intros [=].
Defined.

(** ** X3: one failing pair ends the ranking *)

Lemma for_each_abort {A B : Type} (f : A -> M Exn B) xs x ys w rs w1 e w2 :
  for_each f xs w = (inr rs, w1) ->
  f x w1 = (inl e, w2) ->
  for_each f (xs ++ x :: ys) w = (inl e, w2).
Proof.
  revert w rs. induction xs as [|x0 xs IH]; intros w rs Hxs Hx.
  - injection Hxs as <- <-.
    change (for_each f (x :: ys) w = (inl e, w2)).
    rewrite for_each_step. by rewrite Hx.
  - change (for_each f (x0 :: (xs ++ x :: ys)) w = (inl e, w2)).
    rewrite for_each_step. rewrite for_each_step in Hxs.
    destruct (f x0 w) as [[e0|r0] w0]; [discriminate|].
    destruct (for_each f xs w0) as [[e1|rs1] w01] eqn:Hrest; [discriminate|].
    injection Hxs as <- <-. by rewrite (IH w0 rs1 Hrest Hx).
Qed.

(** X3. When the pairs of the offers fetched before some offer succeed
    and the pair of that offer raises, [get_matches_for_student] raises
    the same error and stops there: no result is returned, the offers
    after it are not looked at, and what the earlier pairs wrote to the
    cache stays written. *)
Theorem X3_ranking_stops_at_first_failure
    env student_id limit w student before v after rs w1 e w2 :
  List.find (fun s => String.eqb (s_id s) student_id) (student_profiles env)
  = Some student ->
  active_vacancies env = (before ++ v :: after)%list ->
  for_each (_get_or_compute_match env student) before w = (inr rs, w1) ->
  _get_or_compute_match env student v w1 = (inl e, w2) ->
  get_matches_for_student env student_id limit w = (inl e, w2).
Proof.
  intros Hfind Hactive Hbefore Hfail.
  pose proof (for_each_abort (_get_or_compute_match env student)
                before v after w rs w1 e w2 Hbefore Hfail) as Hloop.
  unfold get_matches_for_student. rewrite Hfind, Hactive.
  destruct (before ++ v :: after)%list as [|v0 vs] eqn:Hsplit;
    [by destruct before|].
  unfold mbind, M_bind, bind. by rewrite Hloop.
Qed.

(** Three offers, the Primary provider down for the second: the ranking
    ends with HTTP 503, the first record is cached, the third offer is
    never queried. *)
Lemma X3_witness :
  let s := student "s1" 80 in
  let r1 := {| vacancy_id := "v1"; title := "Junior Backend Developer";
               company := "TechCorp"; match_percent := 60;
               strong_skills := ["Python"]; missing_skills := ["Docker"];
               explanation := "ok"; cached := false; cached_at := None |} in
  let w1 := snd (_get_or_compute_match second_fails s (vacancy "v1" true) empty_cache) in
  let w2 := snd (_get_or_compute_match second_fails s (vacancy "v2" true) w1) in
  (for_each (_get_or_compute_match second_fails s) [vacancy "v1" true] empty_cache
   = (inr [r1], w1)
   /\ _get_or_compute_match second_fails s (vacancy "v2" true) w1
      = (inl (HTTPException 503), w2))
  /\ get_matches_for_student second_fails "s1" 10 empty_cache
     = (inl (HTTPException 503), w2)
  /\ r_match_percent <$> matches w2 !! ("s1", "v1") = Some 60
  /\ List.filter is_select (trace w2) = [Select "s1" "v1"; Select "s1" "v2"].
Proof.
  intros s r1 w1 w2.
  assert (H1 : for_each (_get_or_compute_match second_fails s) [vacancy "v1" true]
                 empty_cache = (inr [r1], w1)) by reflexivity.
  assert (H2 : _get_or_compute_match second_fails s (vacancy "v2" true) w1
               = (inl (HTTPException 503), w2)) by reflexivity.
  split; [exact (conj H1 H2)|].
  split; [|split; reflexivity].
  exact (X3_ranking_stops_at_first_failure second_fails "s1" 10 empty_cache s
           [vacancy "v1" true] (vacancy "v2" true) [vacancy "v3" true]
           [r1] w1 (HTTPException 503) w2 eq_refl eq_refl H1 H2).
Defined.

Module EngineFacts2.
Import Py Models World MatchingService Order Cache.
Import SortFacts CacheFacts Fanout Ranking EngineFacts.

Lemma slice_to_length_nonneg {A : Type} (l : list A) n :
  0 <= n -> Z.of_nat (length (slice_to l n)) = Z.min n (Z.of_nat (length l)).
Proof.
  intros Hn. unfold slice_to. destruct (Z.leb_spec 0 n); [|lia].
  rewrite length_take. lia.
Qed.

Lemma slice_to_length_neg {A : Type} (l : list A) n :
  n < 0 -> Z.of_nat (length (slice_to l n)) = Z.max 0 (Z.of_nat (length l) + n).
Proof.
  intros Hn. unfold slice_to. destruct (Z.leb_spec 0 n); [lia|].
  rewrite length_take. lia.
Qed.

Lemma ranking_length env student_id limit w out :
  fst (get_matches_for_student env student_id limit w) = inr out ->
  exists results : list MatchResult,
    length results = length (active_vacancies env)
    /\ out = slice_to (sort_desc match_percent results) limit.
Proof.
  intros (results & Hres & ->)%ranking_shape. exists results.
  split; [|reflexivity]. symmetry. by eapply Forall2_length.
Qed.

Lemma In_slice_sorted {A : Type} (key : A -> Z) (l : list A) n x :
  In x (slice_to (sort_desc key l) n) -> In x l.
Proof.
  intros Hin. destruct (slice_to_prefix (sort_desc key l) n) as [rest Hrest].
  apply (Permutation_in x (sort_desc_perm key l)).
  rewrite Hrest. apply in_or_app. by left.
Qed.

Lemma In_take {A : Type} (l : list A) n x : In x (take n l) -> In x l.
Proof.
  intros Hin. rewrite <- (take_drop n l). apply in_or_app. by left.
Qed.

Lemma Forall2_In_r {A B : Type} (R : A -> B -> Prop) xs ys y :
  Forall2 R xs ys -> In y ys -> exists x, In x xs /\ R x y.
Proof.
  induction 1 as [|x y0 xs ys Hxy _ IH]; simpl; [done|].
  intros [<-|Hin]; [exists x; by split; [left|]|].
  destruct (IH Hin) as (x' & ? & ?). exists x'. split; [by right|done].
Qed.

(** What a successful pair returns and leaves in the cache. *)
Lemma pair_outcome env s v w r w' :
  _get_or_compute_match env s v w = (inr r, w') ->
  vacancy_id r = v_id v /\ title r = v_title v /\ company r = v_company v
  /\ 0 <= match_percent r <= 100
  /\ exists row, cached_row w' s v = Some row
                 /\ r_match_percent row = match_percent r
                 /\ if cached r
                    then cached_row w s v = Some row /\ fresh env w row
                         /\ cached_at r = Some (r_cached_at row)
                         /\ w' = log (Select (s_id s) (v_id v)) w
                    else absent_or_stale env w s v /\ cached_at r = None
                         /\ r_cached_at row = clock w + Z.of_N (latency env)
                         /\ w' = stored env w s v
                                   {| a_match_percent := r_match_percent row;
                                      a_strong_skills := r_strong_skills row;
                                      a_missing_skills := r_missing_skills row;
                                      a_explanation := r_explanation row |}.
Proof.
  destruct (fresh_or_not env w s v) as [(row & Hrow & Hfresh)|Hmiss].
  - rewrite (hit_run env w s v row Hrow Hfresh). intros [= Hres <-].
    apply init_full in Hres as (ss & ms & ex & _ & _ & _ & Hrange & ->). simpl.
    repeat split; try lia. exists row. repeat split; done.
  - rewrite (miss_run env w s v Hmiss).
    destruct (primary_outcome env w s v) as [e|a]; [discriminate|].
    intros [= Hres <-].
    apply init_full in Hres as (ss & ms & ex & _ & _ & _ & Hrange & ->). simpl.
    repeat split; try lia.
    exists (row_of s v a (clock (asked env w s v))).
    split; [unfold cached_row, stored; simpl; by rewrite lookup_insert_eq|].
    destruct a. repeat split; done.
Qed.

Lemma for_each_rows env s xs :
  NoDup (map v_id xs) ->
  forall w rs w',
    for_each (_get_or_compute_match env s) xs w = (inr rs, w') ->
    Forall2 (fun v r => vacancy_id r = v_id v
                        /\ exists row, matches w' !! (s_id s, v_id v) = Some row
                                       /\ r_match_percent row = match_percent r)
      xs rs.
Proof.
  induction xs as [|x xs IH]; intros Hnd w rs w'.
  - simpl. intros [= <- <-]. constructor.
  - rewrite for_each_step.
    destruct (_get_or_compute_match env s x w) as [[e|r] w1] eqn:Hx; [discriminate|].
    destruct (for_each (_get_or_compute_match env s) xs w1) as [[e|rs'] w2] eqn:Hxs;
      [discriminate|].
    intros [= <- <-]. simpl in Hnd. apply NoDup_cons in Hnd as [Hx_new Hnd].
    constructor; [|by eapply IH].
    apply pair_outcome in Hx as (Hid & _ & _ & _ & row & Hrow & Hpercent & _).
    split; [exact Hid|]. exists row. split; [|exact Hpercent].
    assert (Hkeep : matches w2 !! (s_id s, v_id x) = matches w1 !! (s_id s, v_id x)).
    { replace w2 with (snd (for_each (_get_or_compute_match env s) xs w1))
        by (by rewrite Hxs).
      apply (for_each_related (_get_or_compute_match env s)
               (fun wa wb => matches wb !! (s_id s, v_id x)
                             = matches wa !! (s_id s, v_id x))).
      - reflexivity.
      - intros wa wb wc Hab Hbc. by rewrite Hbc.
      - intros o w0 Ho. apply pair_frame. intros [= Heq].
        apply Hx_new. rewrite Heq. apply list_elem_of_In, in_map, Ho. }
    by rewrite Hkeep.
Qed.

End EngineFacts2.
Import EngineFacts2.

(** ** X4: how many entries a ranking returns *)

(** X4. For a non-negative [limit], the endpoint [get_student_matches]
    returns exactly [min(limit, 20, n)] entries and the service
    [get_matches_for_student] exactly [min(limit, n)], where [n], at
    most 50, is the number of active offers fetched: no offer is dropped
    other than by the limit. *)
Theorem X4_ranking_length env limit current_user_id student_id w :
  0 <= limit ->
  let n := Z.of_nat (length (active_vacancies env)) in
  n <= 50
  /\ match fst (Routers.get_student_matches env limit current_user_id w) with
     | inr out => Z.of_nat (length out) = Z.min (Z.min limit 20) n
     | inl _ => True
     end
  /\ match fst (get_matches_for_student env student_id limit w) with
     | inr out => Z.of_nat (length out) = Z.min limit n
     | inl _ => True
     end.
Proof.
  intros Hlimit n. split; [|split].
  - unfold n, active_vacancies. rewrite length_take. lia.
  - unfold Routers.get_student_matches.
    destruct (List.filter _ (student_profiles env)) as [|profile [|]]; [done| |done].
    destruct (fst (get_matches_for_student env (s_id profile) (Z.min limit 20) w))
      as [e|out] eqn:Hrun; [done|].
    apply ranking_length in Hrun as (results & Hlen & ->).
    rewrite slice_to_length_nonneg by lia.
    rewrite sort_desc_length, Hlen. reflexivity.
  - destruct (fst (get_matches_for_student env student_id limit w))
      as [e|out] eqn:Hrun; [done|].
    apply ranking_length in Hrun as (results & Hlen & ->).
    rewrite slice_to_length_nonneg by lia.
    rewrite sort_desc_length, Hlen. reflexivity.
Qed.

Lemma X4_witness :
  0 <= 5
  /\ let n := Z.of_nat (length (active_vacancies six_offers)) in
     n <= 50
     /\ match fst (Routers.get_student_matches six_offers 5 "u-s1" empty_cache) with
        | inr out => Z.of_nat (length out) = Z.min (Z.min 5 20) n
        | inl _ => True
        end
     /\ match fst (get_matches_for_student six_offers "s1" 5 empty_cache) with
        | inr out => Z.of_nat (length out) = Z.min 5 n
        | inl _ => True
        end.
Proof.
  assert (H : 0 <= 5) by (intros [=]).
  exact (conj H (X4_ranking_length six_offers 5 "u-s1" "s1" empty_cache H)).
Defined.

(** ** X5: a negative limit *)

(** X5. For a negative [limit] the endpoint [get_student_matches] passes
    it on as it is ([min(limit, 20)] is [limit]) and [results[:limit]]
    drops the last [-limit] entries: [max(0, n + limit)] entries come
    back, which is more than 20 when more than [20 - limit] offers are
    active. *)
Theorem X5_negative_limit env limit current_user_id w :
  limit < 0 ->
  match fst (Routers.get_student_matches env limit current_user_id w) with
  | inr out =>
      Z.of_nat (length out)
      = Z.max 0 (Z.of_nat (length (active_vacancies env)) + limit)
  | inl _ => True
  end.
Proof.
  intros Hlimit. unfold Routers.get_student_matches.
  destruct (List.filter _ (student_profiles env)) as [|profile [|]]; [done| |done].
  replace (Z.min limit 20) with limit by lia.
  destruct (fst (get_matches_for_student env (s_id profile) limit w))
    as [e|out] eqn:Hrun; [done|].
  apply ranking_length in Hrun as (results & Hlen & ->).
  rewrite slice_to_length_neg by lia.
  by rewrite sort_desc_length, Hlen.
Qed.

(** With 22 active offers, [limit = -1] brings back 21 entries. *)
Example twenty_one_entries :
  match fst (Routers.get_student_matches many_offers (-1) "u-s1" empty_cache) with
  | inr out => length out
  | inl _ => 0%nat
  end = 21%nat.
Proof. vm_compute. reflexivity. Qed.

Lemma X5_witness :
  -1 < 0
  /\ match fst (Routers.get_student_matches many_offers (-1) "u-s1" empty_cache) with
     | inr out =>
         Z.of_nat (length out)
         = Z.max 0 (Z.of_nat (length (active_vacancies many_offers)) + -1)
     | inl _ => True
     end.
Proof.
  assert (H : -1 < 0) by reflexivity.
  split; [exact H|].
  exact (X5_negative_limit many_offers (-1) "u-s1" empty_cache H).
Defined.

(** ** X6: who can appear in a ranking *)

(** X6. Every entry that [get_matches_for_student] returns carries the
    id, title and company of an active offer of the store, and every
    entry that [get_candidates_for_vacancy] returns carries the id and
    name of a subject whose [profile_completion] is at least 30 and a
    score between 0 and 100: inactive offers and incomplete subjects
    never appear. *)
Theorem X6_only_active_offers_and_complete_subjects
    env student_id (offer_id : string) limit w :
  match fst (get_matches_for_student env student_id limit w) with
  | inr out =>
      Forall (fun r => exists o, In o (vacancies env) /\ v_is_active o = true
                                 /\ vacancy_id r = v_id o /\ title r = v_title o
                                 /\ company r = v_company o) out
  | inl _ => True
  end
  /\ match fst (get_candidates_for_vacancy env offer_id limit w) with
     | inr out =>
         Forall (fun c => exists s, In s (student_profiles env)
                                    /\ 30 <= s_profile_completion s
                                    /\ c_student_id c = s_id s /\ c_name c = s_name s
                                    /\ 0 <= c_match_percent c <= 100) out
     | inl _ => True
     end.
Proof.
  split.
  - destruct (get_matches_for_student env student_id limit w) as [[e|out] w'] eqn:Hrun;
      [done|]. simpl.
    unfold get_matches_for_student in Hrun.
    destruct (List.find _ (student_profiles env)) as [student|]; [|discriminate].
    assert (Hloop : exists results w1,
               for_each (_get_or_compute_match env student) (active_vacancies env) w
               = (inr results, w1)
               /\ out = slice_to (sort_desc match_percent results) limit).
    { destruct (active_vacancies env) as [|v0 vs].
      - injection Hrun as <- <-. exists [], w. split; [reflexivity|].
        symmetry. apply slice_to_nil.
      - unfold mbind, M_bind, bind, mret, M_ret, ret in Hrun.
        destruct (for_each _ (v0 :: vs) w) as [[e|results] w1]; [discriminate|].
        injection Hrun as <- <-. by exists results, w1. }
    destruct Hloop as (results & w1 & Hloop & ->).
    assert (Hpairs : Forall2 (fun o r => vacancy_id r = v_id o /\ title r = v_title o
                                         /\ company r = v_company o)
                       (active_vacancies env) results).
    { eapply (for_each_Forall2 (_get_or_compute_match env student)); last first.
      - by rewrite Hloop.
      - intros o w0 r Hr.
        destruct (_get_or_compute_match env student o w0) as [res w2] eqn:Ho.
        simpl in Hr. subst res.
        apply pair_outcome in Ho as (? & ? & ? & _). done. }
    apply List.Forall_forall. intros r Hr%In_slice_sorted.
    destruct (Forall2_In_r _ _ _ _ Hpairs Hr) as (o & Ho & Hfields).
    exists o. unfold active_vacancies in Ho. apply In_take in Ho.
    apply filter_In in Ho as [Hin Hactive]. tauto.
  - destruct (fst (get_candidates_for_vacancy env offer_id limit w)) as [e|out] eqn:Hrun;
      [done|].
    unfold get_candidates_for_vacancy in Hrun.
    destruct (List.find _ (vacancies env)) as [vacancy|]; [|discriminate].
    unfold mbind, M_bind, bind, mret, M_ret, ret in Hrun.
    destruct (for_each (fun student => candidate_of env student vacancy)
                (complete_students env) w) as [[e|candidates] w1] eqn:Hloop;
      [discriminate|].
    simpl in Hrun. injection Hrun as <-.
    assert (Hpairs : Forall2 (fun s c => c_student_id c = s_id s /\ c_name c = s_name s
                                         /\ 0 <= c_match_percent c <= 100)
                       (complete_students env) candidates).
    { eapply (for_each_Forall2 (fun student => candidate_of env student vacancy));
        last first.
      - by rewrite Hloop.
      - intros s w0 c. unfold candidate_of, mbind, M_bind, bind, mret, M_ret, ret.
        destruct (_get_or_compute_match env s vacancy w0) as [[e|r] w2] eqn:Hs;
          simpl; [discriminate|].
        intros [= <-]. simpl.
        apply pair_outcome in Hs as (_ & _ & _ & ? & _). done. }
    apply List.Forall_forall. intros c Hc%In_slice_sorted.
    destruct (Forall2_In_r _ _ _ _ Hpairs Hc) as (s & Hs & Hfields).
    exists s. unfold complete_students in Hs.
    apply filter_In in Hs as [Hin Hcomplete]. apply Z.leb_le in Hcomplete. tauto.
Qed.

(** Of two subjects with completeness 80 and 25, only the first is a
    candidate. *)
Example incomplete_subject_left_out :
  match fst (get_candidates_for_vacancy two_subjects "v1" 10 empty_cache) with
  | inr out => map c_student_id out
  | inl _ => []
  end = ["s1"].
Proof. reflexivity. Qed.

(** ** X7: the cached tag tells where the score came from *)

(** X7. A result of [_get_or_compute_match] tagged cached was read from
    a record that was in the cache and fresh: it carries that record's
    score and timestamp, and neither a provider call nor a write took
    place. A result tagged non-cached comes from exactly one Primary
    call made because no fresh record existed; it has no timestamp, and
    the cache now holds a record with its score, stamped with the time
    after the provider answered. *)
Theorem X7_cached_tag_is_truthful env s v w r w' :
  _get_or_compute_match env s v w = (inr r, w') ->
  if cached r
  then (exists row, cached_row w s v = Some row /\ age w row <= window env
                    /\ match_percent r = r_match_percent row
                    /\ cached_at r = Some (r_cached_at row))
       /\ primary_calls w w' = 0%nat /\ matches w' = matches w
  else absent_or_stale env w s v
       /\ cached_at r = None
       /\ primary_calls w w' = 1%nat
       /\ (exists row, cached_row w' s v = Some row
                       /\ r_match_percent row = match_percent r
                       /\ r_cached_at row = clock w + Z.of_N (latency env)).
Proof.
  intros Hrun.
  apply pair_outcome in Hrun as (_ & _ & _ & _ & row & Hrow & Hpercent & Htag).
  unfold primary_calls. destruct (cached r).
  - destruct Htag as (Hold & Hfresh & Hat & ->). split; [|split].
    + exists row. by repeat split.
    + rewrite count_log. simpl. lia.
    + reflexivity.
  - destruct Htag as (Hmiss & Hat & Htime & ->). repeat split; [done|done| |].
    + unfold count. simpl. rewrite !List.filter_app, !length_app. simpl. lia.
    + exists row. by repeat split.
Qed.

Lemma X7_witness :
  let s := student "s1" 80 in
  let v := vacancy "v1" true in
  let r := {| vacancy_id := "v1"; title := v_title v; company := v_company v;
              match_percent := 55;
              strong_skills := ["Python"]; missing_skills := ["Docker"];
              explanation := "ok"; cached := false; cached_at := None |} in
  let w' := snd (_get_or_compute_match quiet s v empty_cache) in
  _get_or_compute_match quiet s v empty_cache = (inr r, w')
  /\ absent_or_stale quiet empty_cache s v
  /\ cached_at r = None
  /\ primary_calls empty_cache w' = 1%nat
  /\ (exists row, cached_row w' s v = Some row
                  /\ r_match_percent row = match_percent r
                  /\ r_cached_at row = clock empty_cache + Z.of_N (latency quiet)).
Proof.
  intros s v r w'.
  assert (Hrun : _get_or_compute_match quiet s v empty_cache = (inr r, w'))
    by reflexivity.
  exact (conj Hrun (X7_cached_tag_is_truthful quiet s v empty_cache r w' Hrun)).
Defined.

(** ** X8: nothing is done for a caller without a profile or without the offer *)

(** X8. [get_vacancy_candidates] does its work only for the employer who
    owns the offer: when no offer of the store with the requested id
    belongs to the caller, the request ends with HTTP 403 (one offer has
    the id, and it is another's) or with the [APIError] of the client
    (no offer has the id, or several), and the state is as it was: no
    cache query, no provider call, no write. Likewise
    [get_student_matches] ends with [APIError] and does nothing when
    the caller has no profile. In neither case does the HTTP 404 of the
    code reach the caller. *)
Theorem X8_no_work_without_ownership env vacancy_id limit current_user_id w :
  ((forall o, In o (vacancies env) -> v_id o = vacancy_id ->
              v_employer_id o <> current_user_id) ->
   exists e, (e = APIError \/ e = HTTPException 403)
             /\ Routers.get_vacancy_candidates env vacancy_id limit current_user_id w
                = (inl e, w)
             /\ (e = HTTPException 403 <->
                 exists o, List.filter (fun v => String.eqb (v_id v) vacancy_id)
                             (vacancies env) = [o]))
  /\ ((forall s, In s (student_profiles env) -> s_user_id s <> current_user_id) ->
      Routers.get_student_matches env limit current_user_id w = (inl APIError, w)).
Proof.
  split.
  - intros Hforeign. unfold Routers.get_vacancy_candidates.
    destruct (List.filter _ (vacancies env)) as [|existing [|other rest]] eqn:Hfilter.
    + exists APIError. split; [by left|]. split; [reflexivity|].
      split; [discriminate|]. by intros [o [=]].
    + assert (Hin : In existing (List.filter
                       (fun v => String.eqb (v_id v) vacancy_id) (vacancies env)))
        by (rewrite Hfilter; by left).
      apply filter_In in Hin as [Hin Hid]. apply String.eqb_eq in Hid.
      destruct (String.eqb_spec (v_employer_id existing) current_user_id) as [Heq|Hne].
      * by destruct (Hforeign existing Hin Hid).
      * exists (HTTPException 403). split; [by right|]. split; [reflexivity|].
        split; [by exists existing|reflexivity].
    + exists APIError. split; [by left|]. split; [reflexivity|].
      split; [discriminate|]. by intros [o [=]].
  - intros Hnone. unfold Routers.get_student_matches.
    destruct (List.filter _ (student_profiles env)) as [|profile rest] eqn:Hfilter;
      [reflexivity|].
    assert (Hin : In profile (List.filter
                     (fun s => String.eqb (s_user_id s) current_user_id)
                     (student_profiles env))) by (rewrite Hfilter; by left).
    apply filter_In in Hin as [Hin Hid]. apply String.eqb_eq in Hid.
    by destruct (Hnone profile Hin).
Qed.

Lemma X8_witness :
  ((forall o, In o (vacancies quiet) -> v_id o = "v1" -> v_employer_id o <> "e2")
   /\ (forall s, In s (student_profiles quiet) -> s_user_id s <> "e2"))
  /\ (exists e, (e = APIError \/ e = HTTPException 403)
                /\ Routers.get_vacancy_candidates quiet "v1" 10 "e2" empty_cache
                   = (inl e, empty_cache)
                /\ (e = HTTPException 403 <->
                    exists o, List.filter (fun v => String.eqb (v_id v) "v1")
                                (vacancies quiet) = [o]))
  /\ Routers.get_vacancy_candidates quiet "v1" 10 "e2" empty_cache
     = (inl (HTTPException 403), empty_cache)
  /\ Routers.get_vacancy_candidates quiet "v9" 10 "e1" empty_cache
     = (inl APIError, empty_cache)
  /\ Routers.get_student_matches quiet 10 "e2" empty_cache
     = (inl APIError, empty_cache).
Proof.
  assert (H1 : forall o, In o (vacancies quiet) -> v_id o = "v1" ->
                 v_employer_id o <> "e2").
  { intros o [<-|[]] _. intros [=]. }
  assert (H2 : forall s, In s (student_profiles quiet) -> s_user_id s <> "e2").
  { intros s [<-|[]]. intros [=]. }
  destruct (X8_no_work_without_ownership quiet "v1" 10 "e2" empty_cache) as [P1 P2].
  split; [exact (conj H1 H2)|]. split; [exact (P1 H1)|].
  split; [reflexivity|]. split; [reflexivity|].
  exact (P2 H2).
Defined.

(** ** X9: the Groq adapter *)

(** X9. [GroqService.analyze_match] makes exactly one call to its
    provider and never touches the cache. It raises HTTP 502 exactly
    when the answer is not JSON; every other failure (an exception of
    the provider, a quota error included, an answer that is not an
    object, a score that [int] cannot convert, whatever the
    interpreter's [int] accepts) is HTTP 503; otherwise it returns the
    analysis, with the score of the answer as [int] converts it, or 0
    when the answer has none. *)
Theorem X9_groq_adapter env payload w :
  let (res, w') := GroqService.analyze_match env payload w in
  matches w' = matches w
  /\ trace w' = (trace w ++ [Fallback payload])%list
  /\ (res = inl (HTTPException 502)
      <-> groq env (count is_fallback w) payload = Text None)
  /\ match groq env (count is_fallback w) payload with
     | Raises _ => res = inl (HTTPException 503)
     | Text None => res = inl (HTTPException 502)
     | Text (Some parsed) =>
         match to_analysis (int_of_str env) parsed with
         | inl _ => res = inl (HTTPException 503)
         | inr a =>
             res = inr a
             /\ match parsed with
                | JObj items =>
                    int (int_of_str env)
                      (default (JInt 0) (assoc "match_percent" items))
                    = inr (a_match_percent a)
                | _ => False
                end
         end
     end.
Proof.
  unfold GroqService.analyze_match, GroqService.create, try_except,
    mbind, M_bind, bind, lift, raise.
  destruct (groq env (count is_fallback w) payload) as [msg|[parsed|]]; simpl.
  - repeat split; try done. all: discriminate.
  - destruct (to_analysis _ parsed) as [[|msg]|a] eqn:Hparsed; simpl.
    + exfalso. revert Hparsed. unfold to_analysis.
      repeat match goal with |- context [match ?x with _ => _ end] => destruct x end;
        discriminate.
    + repeat split; try done. all: discriminate.
    + repeat split; try done; try discriminate.
      revert Hparsed. unfold to_analysis, get.
      destruct parsed; try discriminate.
      destruct (int _) as [msg|percent]; [discriminate|].
      by intros [= <-].
  - repeat split; done.
Qed.

Lemma X9_witness :
  let payload := payload_of (student "s1" 80) (vacancy "v1" true) in
  let (res, w') := GroqService.analyze_match quiet payload empty_cache in
  matches w' = matches empty_cache
  /\ trace w' = (trace empty_cache ++ [Fallback payload])%list
  /\ (res = inl (HTTPException 502)
      <-> groq quiet (count is_fallback empty_cache) payload = Text None)
  /\ res = inr {| a_match_percent := 80; a_strong_skills := JArr [JStr "Python"];
                  a_missing_skills := JArr [JStr "Docker"];
                  a_explanation := JStr "ok" |}.
Proof.
  intros payload.
  pose proof (X9_groq_adapter quiet payload empty_cache) as H.
  destruct (GroqService.analyze_match quiet payload empty_cache) as [res w'].
  destruct H as (H1 & H2 & H3 & H4 & _).
  exact (conj H1 (conj H2 (conj H3 H4))).
Defined.

(** A quota error of the Groq provider comes out as HTTP 503. *)
Example groq_quota_is_503 :
  fst (GroqService.analyze_match groq_over_quota
         (payload_of (student "s1" 80) (vacancy "v1" true)) empty_cache)
  = inl (HTTPException 503).
Proof. reflexivity. Qed.

(** ** X10: after a ranking the cache holds the scores it returned *)

(** X10. When the ids of the fetched offers are distinct and
    [get_matches_for_student] returns, the cache holds, for every entry
    returned, a record keyed by the subject and the entry's offer whose
    score is the entry's score. *)
Theorem X10_ranking_scores_are_cached env student_id limit w :
  NoDup (map v_id (active_vacancies env)) ->
  let (res, w') := get_matches_for_student env student_id limit w in
  match res with
  | inr out =>
      Forall (fun r => exists row,
                  matches w' !! (student_id, vacancy_id r) = Some row
                  /\ r_match_percent row = match_percent r) out
  | inl _ => True
  end.
Proof.
  intros Hnd.
  destruct (get_matches_for_student env student_id limit w) as [[e|out] w'] eqn:Hrun;
    [done|].
  unfold get_matches_for_student in Hrun.
  destruct (List.find _ (student_profiles env)) as [student|] eqn:Hfind; [|discriminate].
  destruct (found_student_id env student_id student Hfind) as [<- _].
  assert (Hloop : exists results,
             for_each (_get_or_compute_match env student) (active_vacancies env) w
             = (inr results, w')
             /\ out = slice_to (sort_desc match_percent results) limit).
  { destruct (active_vacancies env) as [|v0 vs].
    - injection Hrun as <- <-. exists []. split; [reflexivity|].
      symmetry. apply slice_to_nil.
    - unfold mbind, M_bind, bind, mret, M_ret, ret in Hrun.
      destruct (for_each _ (v0 :: vs) w) as [[e|results] w1]; [discriminate|].
      injection Hrun as <- <-. by exists results. }
  destruct Hloop as (results & Hloop & ->).
  pose proof (for_each_rows env student (active_vacancies env) Hnd w results w' Hloop)
    as Hrows.
  apply List.Forall_forall. intros r Hr%In_slice_sorted.
  destruct (Forall2_In_r _ _ _ _ Hrows Hr) as (o & _ & Hid & row & Hrow & Hpercent).
  exists row. by rewrite Hid.
Qed.

Lemma X10_witness :
  NoDup (map v_id (active_vacancies tied))
  /\ let (res, w') := get_matches_for_student tied "s1" 10 empty_cache in
     match res with
     | inr out =>
         Forall (fun r => exists row,
                     matches w' !! ("s1", vacancy_id r) = Some row
                     /\ r_match_percent row = match_percent r) out
     | inl _ => True
     end.
Proof.
  assert (H : NoDup (map v_id (active_vacancies tied))).
  { apply (bool_decide_unpack _). vm_compute. exact I. }
  split; [exact H|].
  exact (X10_ranking_scores_are_cached tied "s1" 10 empty_cache H).
Defined.

(** ** X11: with a limit that covers them, every fetched offer is ranked once *)

(** X11. When [limit] is at least the number of active offers fetched
    and [get_matches_for_student] returns, the offers of the entries are
    the fetched offers, each as often as it was fetched: none is lost,
    none is added. *)
Theorem X11_every_offer_is_ranked env student_id limit w :
  Z.of_nat (length (active_vacancies env)) <= limit ->
  match fst (get_matches_for_student env student_id limit w) with
  | inr out => Permutation (map vacancy_id out) (map v_id (active_vacancies env))
  | inl _ => True
  end.
Proof.
  intros Hlimit.
  destruct (fst (get_matches_for_student env student_id limit w)) as [e|out] eqn:Hrun;
    [done|].
  apply ranking_shape in Hrun as (results & Hres & ->).
  assert (Hlen : length results = length (active_vacancies env))
    by (symmetry; by eapply Forall2_length).
  assert (Hids : map vacancy_id results = map v_id (active_vacancies env)).
  { clear -Hres. induction Hres as [|o r os rs [Hid _] _ IH]; [done|].
    simpl. by rewrite Hid, IH. }
  unfold slice_to. destruct (Z.leb_spec 0 limit); [|lia].
  rewrite take_ge by (rewrite sort_desc_length; lia).
  rewrite <- Hids. apply Permutation_map, sort_desc_perm.
Qed.

Lemma X11_witness :
  Z.of_nat (length (active_vacancies tied)) <= 10
  /\ match fst (get_matches_for_student tied "s1" 10 empty_cache) with
     | inr out => Permutation (map vacancy_id out) (map v_id (active_vacancies tied))
     | inl _ => True
     end.
Proof.
  assert (H : Z.of_nat (length (active_vacancies tied)) <= 10) by (intros [=]).
  split; [exact H|].
  exact (X11_every_offer_is_ranked tied "s1" 10 empty_cache H).
Defined.

(** ** The completeness of a profile *)

Module StudentFacts.
Import Py PyMore Student.

Lemma assoc_dset d key v k :
  assoc k (dset d key v) = if String.eqb key k then Some v else assoc k d.
Proof.
  induction d as [|[k0 x] d IH]; simpl.
  - by destruct (String.eqb key k).
  - destruct (String.eqb_spec k0 key) as [->|Hne]; simpl.
    + by destruct (String.eqb key k).
    + rewrite IH. destruct (String.eqb_spec k0 k) as [->|Hne']; [|done].
      destruct (String.eqb_spec key k) as [->|]; [done|reflexivity].
Qed.

Lemma dget_dset d key v k dflt :
  dget (dset d key v) k dflt = if String.eqb key k then v else dget d k dflt.
Proof. unfold dget. rewrite assoc_dset. by destruct (String.eqb key k). Qed.

(** A value that has a length and is true is not empty. *)
Lemma len_truthy v n : len v = inr n -> truthy v = true -> 0 < n.
Proof.
  destruct v as [| | | |s|items|items]; simpl; try discriminate; intros [= <-].
  - destruct s; [discriminate|]. simpl. lia.
  - destruct items; [discriminate|]. simpl. lia.
  - destruct items; [discriminate|]. simpl. lia.
Qed.

Lemma len_nonneg v n : len v = inr n -> 0 <= n.
Proof.
  destruct v; simpl; try discriminate; intros [= <-]; lia.
Qed.

Lemma fold_points c1 c2 c3 c4 c5 c6 c7 c8 :
  fold_left add_points
    [(c1, 15); (c2, 15); (c3, 15); (c4, 15); (c5, 15); (c6, 10); (c7, 10); (c8, 5)] 0
  = score8 c1 c2 c3 c4 c5 c6 c7 c8.
Proof. by destruct c1, c2, c3, c4, c5, c6, c7, c8. Qed.

Lemma score8_range c1 c2 c3 c4 c5 c6 c7 c8 :
  0 <= score8 c1 c2 c3 c4 c5 c6 c7 c8 <= 100.
Proof. destruct c1, c2, c3, c4, c5, c6, c7, c8; vm_compute; split; discriminate. Qed.

Lemma completion_value profile n :
  calculate_profile_completion profile = inr n ->
  exists n_skills n_technologies,
    len (dget profile "skills" (JArr [])) = inr n_skills
    /\ len (dget profile "technologies" (JArr [])) = inr n_technologies
    /\ n = score8 (truthy (dget profile "name" JNull))
                  (truthy (dget profile "university" JNull))
                  (truthy (dget profile "specialty" JNull))
                  (0 <? n_skills) (0 <? n_technologies)
                  (truthy (dget profile "experience_text" JNull))
                  (truthy (dget profile "github_url" JNull))
                  (truthy (dget profile "resume_url" JNull)).
Proof.
  unfold calculate_profile_completion, checks.
  destruct (len (dget profile "skills" (JArr []))) as [msg|ns]; [discriminate|].
  destruct (len (dget profile "technologies" (JArr []))) as [msg|nt]; [discriminate|].
  rewrite fold_points. intros [= <-]. exists ns, nt. repeat split.
  pose proof (score8_range (truthy (dget profile "name" JNull))
                (truthy (dget profile "university" JNull))
                (truthy (dget profile "specialty" JNull))
                (0 <? ns) (0 <? nt)
                (truthy (dget profile "experience_text" JNull))
                (truthy (dget profile "github_url" JNull))
                (truthy (dget profile "resume_url" JNull))).
  lia.
Qed.

End StudentFacts.
Import Py PyMore Student StudentFacts.

(** ** X12: the range of the completeness *)

(** X12. When [calculate_profile_completion] returns (the values under
    [skills] and [technologies] have a length), the result is a multiple
    of 5 between 0 and 100: the points add up to at most 100, so the
    final [min(score, 100)] changes nothing, and the result is 100
    exactly when all eight checks hold. It raises exactly when one of
    the two values has no length. *)
Theorem X12_completion_range profile :
  match calculate_profile_completion profile with
  | inr n =>
      0 <= n <= 100 /\ n mod 5 = 0
      /\ (exists cs, checks profile = inr cs /\ n = fold_left add_points cs 0
                     /\ (n = 100 <-> forallb fst cs = true))
  | inl msg =>
      len (dget profile "skills" (JArr [])) = inl msg
      \/ len (dget profile "technologies" (JArr [])) = inl msg
  end.
Proof.
  unfold calculate_profile_completion, checks.
  destruct (len (dget profile "skills" (JArr []))) as [msg|ns]; [by left|].
  destruct (len (dget profile "technologies" (JArr []))) as [msg|nt]; [by right|].
  rewrite fold_points.
  set (c1 := truthy _). set (c2 := truthy _). set (c3 := truthy _).
  set (c4 := 0 <? ns). set (c5 := 0 <? nt).
  set (c6 := truthy _). set (c7 := truthy _). set (c8 := truthy _).
  pose proof (score8_range c1 c2 c3 c4 c5 c6 c7 c8) as Hrange.
  rewrite Z.min_l by lia. split; [exact Hrange|]. split.
  - by destruct c1, c2, c3, c4, c5, c6, c7, c8.
  - eexists. split; [reflexivity|]. rewrite fold_points. split; [reflexivity|].
    destruct c1, c2, c3, c4, c5, c6, c7, c8; vm_compute;
      split; intros H; (reflexivity || discriminate H).
Qed.

Lemma X12_witness :
  match calculate_profile_completion
          [("name", JStr "Anna"); ("skills", JArr [JStr "teamwork"])] with
  | inr n =>
      0 <= n <= 100 /\ n mod 5 = 0
      /\ (exists cs, checks [("name", JStr "Anna"); ("skills", JArr [JStr "teamwork"])]
                     = inr cs
                     /\ n = fold_left add_points cs 0
                     /\ (n = 100 <-> forallb fst cs = true))
  | inl msg => False
  end.
Proof.
  exact (X12_completion_range [("name", JStr "Anna"); ("skills", JArr [JStr "teamwork"])]).
Defined.

Module StudentFacts2.
Import Py PyMore Student StudentFacts.

Lemma points_mono (c c' : bool) p :
  0 <= p -> implb c c' = true -> (if c then p else 0) <= (if c' then p else 0).
Proof. destruct c, c'; simpl; intros; (lia || discriminate). Qed.

Lemma score8_mono c1 c2 c3 c4 c5 c6 c7 c8 d1 d2 d3 d4 d5 d6 d7 d8 :
  implb c1 d1 = true -> implb c2 d2 = true -> implb c3 d3 = true ->
  implb c4 d4 = true -> implb c5 d5 = true -> implb c6 d6 = true ->
  implb c7 d7 = true -> implb c8 d8 = true ->
  score8 c1 c2 c3 c4 c5 c6 c7 c8 <= score8 d1 d2 d3 d4 d5 d6 d7 d8.
Proof.
  intros H1 H2 H3 H4 H5 H6 H7 H8. unfold score8.
  pose proof (points_mono c1 d1 15 ltac:(lia) H1).
  pose proof (points_mono c2 d2 15 ltac:(lia) H2).
  pose proof (points_mono c3 d3 15 ltac:(lia) H3).
  pose proof (points_mono c4 d4 15 ltac:(lia) H4).
  pose proof (points_mono c5 d5 15 ltac:(lia) H5).
  pose proof (points_mono c6 d6 10 ltac:(lia) H6).
  pose proof (points_mono c7 d7 10 ltac:(lia) H7).
  pose proof (points_mono c8 d8 5 ltac:(lia) H8).
  lia.
Qed.

(** Setting a key to a true value keeps or turns on a truth check ... *)
Lemma truth_check_mono profile key v k :
  truthy v = true ->
  implb (truthy (dget profile k JNull)) (truthy (dget (dset profile key v) k JNull))
  = true.
Proof.
  intros Hv. rewrite dget_dset.
  destruct (String.eqb key k), (truthy (dget profile k JNull)); simpl;
    first [reflexivity | exact Hv].
Qed.

(** ... and a length check. *)
Lemma len_check_mono profile key v k n n' :
  truthy v = true ->
  len (dget profile k (JArr [])) = inr n ->
  len (dget (dset profile key v) k (JArr [])) = inr n' ->
  implb (0 <? n) (0 <? n') = true.
Proof.
  intros Hv Hn. rewrite dget_dset. destruct (String.eqb key k).
  - intros Hn'. apply (len_truthy v n' Hn') in Hv.
    apply Z.ltb_lt in Hv. rewrite Hv. by destruct (0 <? n).
  - rewrite Hn. intros [= <-]. by destruct (0 <? n).
Qed.

End StudentFacts2.
Import StudentFacts2.

(** A profile with every field filled scores 100, an empty one 0, and a
    null [skills] raises. *)
Example completion_examples :
  calculate_profile_completion
    [("name", JStr "Anna"); ("university", JStr "KazNU"); ("specialty", JStr "CS");
     ("skills", JArr [JStr "teamwork"]); ("technologies", JArr [JStr "Python"]);
     ("experience_text", JStr "internship"); ("github_url", JStr "https://github.com/anna");
     ("resume_url", JStr "https://files/cv.pdf")] = inr 100
  /\ calculate_profile_completion [] = inr 0
  /\ calculate_profile_completion [("skills", JNull)]
     = inl "object of type 'NoneType' has no len()".
Proof. repeat split. Qed.

(** ** X13: filling a field never lowers the completeness *)

(** X13. Setting one key of a profile to a true value ([profile[key] = v]
    with [bool(v)]) never lowers [calculate_profile_completion], whenever
    it returns for both profiles. *)
Theorem X13_completion_monotone profile key v before after :
  truthy v = true ->
  calculate_profile_completion profile = inr before ->
  calculate_profile_completion (dset profile key v) = inr after ->
  before <= after.
Proof.
  intros Hv (ns & nt & Hns & Hnt & ->)%completion_value
    (ns' & nt' & Hns' & Hnt' & ->)%completion_value.
  apply score8_mono; try (by apply truth_check_mono).
  - by apply (len_check_mono profile key v "skills").
  - by apply (len_check_mono profile key v "technologies").
Qed.

Lemma X13_witness :
  let profile := [("name", JStr "Anna"); ("skills", JArr [])] in
  (truthy (JArr [JStr "teamwork"]) = true
   /\ calculate_profile_completion profile = inr 15
   /\ calculate_profile_completion (dset profile "skills" (JArr [JStr "teamwork"]))
      = inr 30)
  /\ 15 <= 30.
Proof.
  intros profile.
  assert (H : truthy (JArr [JStr "teamwork"]) = true
              /\ calculate_profile_completion profile = inr 15
              /\ calculate_profile_completion
                   (dset profile "skills" (JArr [JStr "teamwork"])) = inr 30)
    by (repeat split).
  destruct H as (H1 & H2 & H3).
  exact (conj (conj H1 (conj H2 H3))
           (X13_completion_monotone profile "skills" (JArr [JStr "teamwork"]) 15 30
              H1 H2 H3)).
Defined.

(** ** X14: the completeness stored when a profile is saved *)

(** X14. For a validated body, [upsert_student_profile] computes the
    completeness from the dumped body, which has no [resume_url]: the
    value it stores lies between 45 and 95, whether or not the existing
    profile has a resume, and so every saved profile passes the
    [profile_completion >= 30] filter of [get_candidates_for_vacancy]. *)
Theorem X14_saved_completion_bounds data current_user_id :
  validated data ->
  exists d n,
    upsert_profile_dict data current_user_id = inr d
    /\ dget d "profile_completion" JNull = JInt n
    /\ dget d "user_id" JNull = JStr current_user_id
    /\ dget d "resume_url" JNull = JNull
    /\ 45 <= n <= 95
    /\ (30 <=? n) = true.
Proof.
  intros (Hname & Huniversity & Hspecialty).
  unfold upsert_profile_dict, calculate_profile_completion, checks.
  cbn [model_dump dset dget assoc String.eqb Ascii.eqb Bool.eqb default
         from_option id len].
  rewrite fold_points.
  assert (Htrue : forall s, (2 <= String.length s)%nat -> truthy (JStr s) = true).
  { intros [|c s]; simpl; [lia|done]. }
  rewrite (Htrue _ Hname), (Htrue _ Huniversity), (Htrue _ Hspecialty).
  set (c4 := 0 <? _). set (c5 := 0 <? _). set (c6 := truthy _). set (c7 := truthy _).
  assert (Hn : 45 <= Z.min (score8 true true true c4 c5 c6 c7 (truthy JNull)) 100 <= 95).
  { destruct c4, c5, c6, c7; vm_compute; split; discriminate. }
  eexists _, _. split; [reflexivity|].
  cbn [dset dget assoc String.eqb Ascii.eqb Bool.eqb default from_option id].
  repeat split; try apply Hn. apply Z.leb_le. lia.
Qed.

Lemma X14_witness :
  let data := {| name := "Anna Petrova"; university := "KazNU"; specialty := "CS";
                 skills := []; technologies := ["Python"];
                 experience_text := None; github_url := None;
                 career_interests := [] |} in
  validated data
  /\ exists d n,
       upsert_profile_dict data "u1" = inr d
       /\ dget d "profile_completion" JNull = JInt n
       /\ dget d "user_id" JNull = JStr "u1"
       /\ dget d "resume_url" JNull = JNull
       /\ 45 <= n <= 95
       /\ (30 <=? n) = true.
Proof.
  intros data.
  assert (H : validated data) by (repeat split; simpl; lia).
  exact (conj H (X14_saved_completion_bounds data "u1" H)).
Defined.

(** ** The GitHub service *)

Module SplitFacts.
Import Py PyMore Chars.

Lemma append_cons x a u : String x a +:+ u = String x (a +:+ u).
Proof. reflexivity. Qed.

Lemma append_nil u : EmptyString +:+ u = u.
Proof. reflexivity. Qed.

Lemma append_char a c u : (a +:+ String c EmptyString) +:+ u = a +:+ String c u.
Proof.
  induction a as [|x a IH]; [reflexivity|]. rewrite !append_cons. by rewrite IH.
Qed.

Lemma rstrip_repeat c n : rstrip_char c (repeat_char c n) = EmptyString.
Proof. induction n as [|n IH]; simpl; [done|]. by rewrite IH, Ascii.eqb_refl. Qed.

Lemma rstrip_app_repeat c s n :
  rstrip_char c (s +:+ repeat_char c n) = rstrip_char c s.
Proof.
  induction s as [|x s IH]; [apply rstrip_repeat|].
  rewrite append_cons. simpl. by rewrite IH.
Qed.

Lemma rstrip_clean c u :
  u <> EmptyString -> has_char c u = false -> rstrip_char c u = u.
Proof.
  induction u as [|x u IH]; [done|]. simpl. intros _ Hno.
  apply orb_false_iff in Hno as [Hx Hu].
  destruct u as [|y u]; [simpl; by rewrite Hx|].
  rewrite IH by done. reflexivity.
Qed.

Lemma rstrip_app_clean c a u :
  u <> EmptyString -> has_char c u = false ->
  rstrip_char c (a +:+ u) = a +:+ u.
Proof.
  intros Hu Hno. induction a as [|x a IH]; [by apply rstrip_clean|].
  rewrite append_cons. simpl. rewrite IH.
  destruct (a +:+ u) eqn:Hau; [|done].
  destruct a; [by destruct Hu|discriminate].
Qed.

Lemma rstrip_empty c s : rstrip_char c s = EmptyString <-> all_char c s = true.
Proof.
  induction s as [|x s IH]; simpl; [done|].
  destruct (rstrip_char c s) eqn:Hs.
  - destruct (Ascii.eqb x c); simpl; [|split; discriminate].
    split; intros _; [by apply IH|done].
  - split; [discriminate|]. intros [_ Hall]%andb_true_iff.
    apply IH in Hall. discriminate.
Qed.

Lemma split_nonempty c s : split_on c s <> [].
Proof.
  destruct s as [|x s]; simpl; [done|].
  destruct (Ascii.eqb x c); [done|]. by destruct (split_on c s).
Qed.

Lemma split_clean c u : has_char c u = false -> split_on c u = [u].
Proof.
  induction u as [|x u IH]; simpl; [done|].
  intros [Hx Hu]%orb_false_iff. by rewrite Hx, IH.
Qed.

Lemma split_app c a u :
  exists parts, parts <> []
    /\ split_on c (a +:+ String c u) = (parts ++ split_on c u)%list.
Proof.
  induction a as [|x a (parts & Hne & IH)].
  - rewrite append_nil. simpl. rewrite Ascii.eqb_refl. by exists [EmptyString].
  - rewrite append_cons. simpl. rewrite IH. destruct (Ascii.eqb x c).
    + by exists (EmptyString :: parts).
    + destruct parts as [|p ps]; [done|]. by exists (String x p :: ps).
Qed.

Lemma last_app_nonempty {A : Type} (l1 l2 : list A) d :
  l2 <> [] -> List.last (l1 ++ l2) d = List.last l2 d.
Proof.
  intros Hne. induction l1 as [|x l1 IH]; [done|].
  simpl. rewrite IH. destruct (l1 ++ l2)%list eqn:Happ; [|done].
  apply app_eq_nil in Happ as [_ ->]. done.
Qed.

Lemma split_parts_clean c s : Forall (fun p => has_char c p = false) (split_on c s).
Proof.
  induction s as [|x s IH]; simpl; [by repeat constructor|].
  destruct (Ascii.eqb x c) eqn:Hx; [by constructor|].
  destruct (split_on c s) as [|p ps]; [repeat constructor; simpl; by rewrite Hx|].
  apply Forall_cons in IH as [Hp Hps]. constructor; [|done]. simpl. by rewrite Hx.
Qed.

Lemma last_In {A : Type} (l : list A) d : l <> [] -> In (List.last l d) l.
Proof.
  induction l as [|x l IH]; [done|]. intros _.
  destruct l as [|y l]; [by left|]. right. by apply IH.
Qed.

(** What is left after stripping does not end in an empty segment. *)
Lemma rstrip_last_segment c s :
  rstrip_char c s = EmptyString
  \/ List.last (split_on c (rstrip_char c s)) EmptyString <> EmptyString.
Proof.
  induction s as [|x s IH]; simpl; [by left|].
  destruct (rstrip_char c s) as [|y t] eqn:Hs.
  - destruct (Ascii.eqb x c) eqn:Hx; [by left|]. right. simpl. by rewrite Hx.
  - right. destruct IH as [|IH]; [done|].
    change (split_on c (String x (String y t)))
      with (if Ascii.eqb x c then EmptyString :: split_on c (String y t)
            else match split_on c (String y t) with
                 | p :: ps => String x p :: ps
                 | [] => [String x EmptyString]
                 end).
    pose proof (split_nonempty c (String y t)) as Hne.
    destruct (split_on c (String y t)) as [|p ps]; [done|].
    destruct (Ascii.eqb x c); [exact IH|].
    destruct ps as [|q ps]; [done|]. exact IH.
Qed.

End SplitFacts.

Import Py PyMore Chars GitHubService SplitFacts.

(** ** X15: the user name of a profile URL *)

(** X15. [_extract_username] returns the last path segment of the URL,
    whatever stands before it and however many slashes follow it: for a
    non-empty [u] without a slash, [p/u], [p/u/], [p/u//], ... and [u],
    [u/], ... all give [u]. So a repository URL [.../user/repo] gives
    the repository name, not the user. *)
Theorem X15_username_is_last_segment p u n :
  u <> EmptyString -> has_char slash u = false ->
  _extract_username ((p +:+ String slash u) +:+ repeat_char slash n) = inr u
  /\ _extract_username (u +:+ repeat_char slash n) = inr u.
Proof.
  intros Hu Hno. unfold _extract_username.
  assert (Heq : String.eqb u "" = false) by (by apply String.eqb_neq).
  split.
  - rewrite rstrip_app_repeat.
    rewrite <- (append_char p slash u).
    rewrite rstrip_app_clean by done.
    rewrite (append_char p slash u).
    destruct (split_app slash p u) as (parts & Hne & ->).
    rewrite last_app_nonempty by apply split_nonempty.
    rewrite split_clean by done. simpl. by rewrite Heq.
  - rewrite rstrip_app_repeat, rstrip_clean by done.
    rewrite split_clean by done. simpl. by rewrite Heq.
Qed.

Lemma X15_witness :
  ("repo" <> EmptyString /\ has_char slash "repo" = false)
  /\ _extract_username (("https://github.com/anna" +:+ String slash "repo")
                        +:+ repeat_char slash 2) = inr "repo"
  /\ _extract_username ("repo" +:+ repeat_char slash 2) = inr "repo".
Proof.
  assert (H1 : "repo" <> EmptyString) by discriminate.
  assert (H2 : has_char slash "repo" = false) by reflexivity.
  exact (conj (conj H1 H2)
           (X15_username_is_last_segment "https://github.com/anna" "repo" 2 H1 H2)).
Defined.

(** ** X16: when [_extract_username] fails, and what it returns *)

(** X16. [_extract_username] raises HTTP 400 exactly for the URLs made
    of slashes only (the empty URL included); in every other case it
    returns a non-empty name without a slash. *)
Theorem X16_username_shape github_url :
  match _extract_username github_url with
  | inl e => e = Http 400 /\ all_char slash github_url = true
  | inr username =>
      username <> EmptyString /\ has_char slash username = false
      /\ all_char slash github_url = false
  end.
Proof.
  unfold _extract_username.
  set (url := rstrip_char slash github_url).
  destruct (String.eqb_spec (List.last (split_on slash url) EmptyString) "")
    as [Hempty|Hname].
  - split; [reflexivity|]. apply rstrip_empty.
    destruct (rstrip_last_segment slash github_url) as [Hurl|Hlast]; [exact Hurl|].
    by destruct Hlast.
  - split; [exact Hname|]. split.
    + pose proof (split_parts_clean slash url) as Hclean.
      rewrite List.Forall_forall in Hclean. apply Hclean.
      apply last_In, split_nonempty.
    + destruct (all_char slash github_url) eqn:Hall; [|reflexivity].
      apply rstrip_empty in Hall. unfold url in Hname. rewrite Hall in Hname.
      by destruct Hname.
Qed.

Module GitHubFacts.
Import Py PyMore Order GitHubService SortFacts.

Lemma bump_keys counts lang :
  map fst (bump counts lang)
  = if bool_decide (lang ∈ map fst counts) then map fst counts
    else (map fst counts ++ [lang])%list.
Proof.
  induction counts as [|[l n] counts IH]; simpl; [done|].
  destruct (String.eqb_spec l lang) as [->|Hne]; simpl.
  - rewrite bool_decide_true by (by left). reflexivity.
  - rewrite IH. destruct (bool_decide_reflect (lang ∈ map fst counts)) as [Hin|Hnin].
    + rewrite bool_decide_true by (by right). reflexivity.
    + rewrite bool_decide_false; [reflexivity|].
      intros [?|?]%elem_of_cons; congruence.
Qed.

Lemma bump_NoDup counts lang :
  NoDup (map fst counts) -> NoDup (map fst (bump counts lang)).
Proof.
  intros Hnd. rewrite bump_keys.
  destruct (bool_decide_reflect (lang ∈ map fst counts)) as [Hin|Hnin]; [done|].
  apply NoDup_app. repeat split; [done| |apply NoDup_singleton].
  intros k Hk ->%list_elem_of_singleton. done.
Qed.

Lemma bump_positive counts lang :
  Forall (fun kv => 1 <= snd kv) counts ->
  Forall (fun kv => 1 <= snd kv) (bump counts lang).
Proof.
  induction 1 as [|[l n] counts Hn Hrest IH]; simpl;
    [repeat constructor; simpl; lia|].
  destruct (String.eqb l lang); constructor; simpl in *; (lia || done).
Qed.

Lemma count_language_counted own_repos counts repo :
  In repo own_repos -> counted own_repos counts ->
  counted own_repos (count_language counts repo).
Proof.
  intros Hin (Hnd & Hpos & Hfrom). unfold count_language.
  destruct (language repo) as [lang|] eqn:Hlang; [|done].
  destruct (String.eqb_spec lang "") as [->|Hne]; [done|].
  split; [by apply bump_NoDup|]. split; [by apply bump_positive|].
  intros l. rewrite bump_keys.
  destruct (bool_decide_reflect (lang ∈ map fst counts)) as [Hold|Hnew];
    [by apply Hfrom|].
  intros [Hl| ->%list_elem_of_singleton]%elem_of_app; [by apply Hfrom|].
  split; [done|]. by exists repo.
Qed.

Lemma fold_counted own_repos repos :
  (forall repo, In repo repos -> In repo own_repos) ->
  forall counts, counted own_repos counts ->
    counted own_repos (fold_left count_language repos counts).
Proof.
  induction repos as [|repo repos IH]; intros Hsub counts Hc; [done|].
  simpl. apply IH; [intros r Hr; apply Hsub; by right|].
  apply count_language_counted; [apply Hsub; by left|done].
Qed.

Lemma language_counts_counted own_repos : counted own_repos (language_counts own_repos).
Proof.
  apply fold_counted.
  - intros repo Hin. rewrite <- (take_drop 50 own_repos). apply in_or_app. by left.
  - split; [apply NoDup_nil_2|]. split; [apply Forall_nil_2|].
    intros lang Hin. by apply elem_of_nil in Hin.
Qed.

(** The shape of a successful analysis *)
Lemma analysis_shape get_user github_url res :
  _sync_analyze get_user github_url = inr res ->
  exists username repos n_public n_followers total,
    _extract_username github_url = inr username
    /\ get_user username = User (inr repos) n_public n_followers
    /\ let own_repos := List.filter (fun r => negb (fork r)) repos in
       res = {| a_github_url := github_url; a_username := username;
                detected_technologies :=
                  map fst (sort_desc snd (language_counts own_repos));
                language_stats := sort_desc snd (language_counts own_repos);
                top_repos := map top_repo_data
                               (take 5 (sort_desc stargazers_count own_repos));
                total_commits := total;
                public_repos_count := n_public; a_followers := n_followers |}.
Proof.
  unfold _sync_analyze.
  destruct (_extract_username github_url) as [e|username]; [discriminate|].
  destruct (get_user username) as [|msg|msg|[msg|repos] n_public n_followers] eqn:Huser;
    try discriminate.
  set (own_repos := List.filter _ repos).
  destruct (match own_repos with [] => _ | _ => _ end) as [msg|total]; [discriminate|].
  intros [= <-]. by exists username, repos, n_public, n_followers, total.
Qed.

End GitHubFacts.
Import Order GitHubFacts SortFacts.

(** ** X17: the technologies detected on a GitHub profile *)

(** X17. When [_sync_analyze] returns, [detected_technologies] lists
    each language once; every language listed is the non-empty
    [language] of a repository of the user that is not a fork; the
    languages come in descending order of their counts in
    [language_stats], and every count is at least 1. *)
Theorem X17_detected_technologies get_user github_url :
  match _sync_analyze get_user github_url with
  | inr res =>
      NoDup (detected_technologies res)
      /\ detected_technologies res = map fst (language_stats res)
      /\ StronglySorted (desc snd) (language_stats res)
      /\ Forall (fun kv => 1 <= snd kv) (language_stats res)
      /\ exists username repos n_public n_followers,
           _extract_username github_url = inr username
           /\ get_user username = User (inr repos) n_public n_followers
           /\ forall lang, In lang (detected_technologies res) ->
                lang <> ""
                /\ exists repo, In repo repos /\ fork repo = false
                                /\ language repo = Some lang
  | inl _ => True
  end.
Proof.
  destruct (_sync_analyze get_user github_url) as [e|res] eqn:Hrun; [done|].
  apply analysis_shape in Hrun
    as (username & repos & n_public & n_followers & total & Hname & Huser & ->).
  simpl.
  set (own_repos := List.filter (fun r => negb (fork r)) repos).
  destruct (language_counts_counted own_repos) as (Hnd & Hpos & Hfrom).
  pose proof (sort_desc_perm snd (language_counts own_repos)) as Hperm.
  split; [by rewrite Hperm|]. split; [reflexivity|].
  split; [apply sort_desc_sorted|]. split; [by rewrite Hperm|].
  exists username, repos, n_public, n_followers. split; [done|]. split; [done|].
  intros lang Hlang. apply list_elem_of_In in Hlang. rewrite Hperm in Hlang.
  destruct (Hfrom lang Hlang) as (Hne & repo & Hin & Hrepo).
  split; [done|]. exists repo. unfold own_repos in Hin.
  apply filter_In in Hin as [Hin Hfork]. apply negb_true_iff in Hfork. done.
Qed.

Lemma X17_witness :
  match _sync_analyze GitHubExample.anna "https://github.com/anna" with
  | inr res =>
      NoDup (detected_technologies res)
      /\ detected_technologies res = map fst (language_stats res)
      /\ StronglySorted (desc snd) (language_stats res)
      /\ Forall (fun kv => 1 <= snd kv) (language_stats res)
      /\ exists username repos n_public n_followers,
           _extract_username "https://github.com/anna" = inr username
           /\ GitHubExample.anna username = User (inr repos) n_public n_followers
           /\ forall lang, In lang (detected_technologies res) ->
                lang <> ""
                /\ exists repo, In repo repos /\ fork repo = false
                                /\ language repo = Some lang
  | inl _ => False
  end.
Proof.
  exact (X17_detected_technologies GitHubExample.anna "https://github.com/anna").
Defined.

(** ** X18: the top repositories of a GitHub profile *)

(** X18. When [_sync_analyze] returns, [top_repos] has [min(5, n)]
    entries, [n] being the number of the user's repositories that are
    not forks; they are in descending order of stars, and each describes
    one of those repositories: forks never appear. *)
Theorem X18_top_repos get_user github_url :
  match _sync_analyze get_user github_url with
  | inr res =>
      StronglySorted (desc t_stars) (top_repos res)
      /\ exists username repos n_public n_followers,
           _extract_username github_url = inr username
           /\ get_user username = User (inr repos) n_public n_followers
           /\ length (top_repos res)
              = Nat.min 5 (length (List.filter (fun r => negb (fork r)) repos))
           /\ Forall (fun t => exists repo, In repo repos /\ fork repo = false
                                            /\ t = top_repo_data repo)
                (top_repos res)
  | inl _ => True
  end.
Proof.
  destruct (_sync_analyze get_user github_url) as [e|res] eqn:Hrun; [done|].
  apply analysis_shape in Hrun
    as (username & repos & n_public & n_followers & total & Hname & Huser & ->).
  simpl.
  set (own_repos := List.filter (fun r => negb (fork r)) repos).
  split.
  - assert (Hsorted : StronglySorted (desc stargazers_count)
                        (take 5 (sort_desc stargazers_count own_repos))).
    { eapply sorted_prefix; [apply prefix_take|apply sort_desc_sorted]. }
    induction Hsorted as [|repo rest _ IH Hall]; simpl; constructor; [done|].
    apply Forall_map. eapply Forall_impl; [exact Hall|]. done.
  - exists username, repos, n_public, n_followers. split; [done|]. split; [done|].
    split.
    + rewrite length_map, length_take, sort_desc_length. reflexivity.
    + apply Forall_map. apply List.Forall_forall. intros repo Hin. simpl.
      exists repo. split; [|split; [|reflexivity]].
      * apply In_take in Hin.
        apply (Permutation_in repo (sort_desc_perm stargazers_count own_repos)) in Hin.
        unfold own_repos in Hin. by apply filter_In in Hin as [? _].
      * apply In_take in Hin.
        apply (Permutation_in repo (sort_desc_perm stargazers_count own_repos)) in Hin.
        unfold own_repos in Hin. apply filter_In in Hin as [_ Hfork].
        by apply negb_true_iff in Hfork.
Qed.

(** The fork and its language are left out; Python, counted twice, comes
    first; repositories with equal stars keep the order of the listing. *)
Example anna_profile :
  match _sync_analyze GitHubExample.anna "https://github.com/anna/" with
  | inr res =>
      (detected_technologies res, language_stats res,
       map t_name (top_repos res), map t_language (top_repos res),
       total_commits res)
  | inl _ => ([], [], [], [], 0)
  end
  = (["Python"; "Go"], [("Python", 2); ("Go", 1)],
     ["api"; "cli"; "bot"; "notes"], ["Go"; "Python"; "Python"; "Unknown"], 12)
  /\ _sync_analyze GitHubExample.anna "https://github.com/bob" = inl (Http 404).
Proof. split; reflexivity. Qed.

(** ** Authentication *)

Import Py PyMore.

(** ** X19: the user [get_current_user] lets through *)

(** X19. Whoever [get_current_user] lets through has a true [sub], a
    role that is true (never [None], never empty) and an email that is
    not [None]. A true role in [user_metadata] decides alone: a second
    token whose claims agree with the first on [sub], [email] and
    [user_metadata] gives the same user, whatever its [app_metadata]
    holds, even when that is not a dict. *)
Theorem X19_role_of_a_caller jwt_decode token payload u :
  jwt_decode token = Some payload ->
  Auth.get_current_user jwt_decode token = inr u ->
  truthy (Auth.user_id u) = true
  /\ truthy (Auth.role u) = true
  /\ Auth.email u <> JNull
  /\ forall role token' payload',
       get (dget payload "user_metadata" (JObj [])) "role" JNull = inr role ->
       truthy role = true ->
       jwt_decode token' = Some payload' ->
       dget payload' "sub" JNull = dget payload "sub" JNull ->
       dget payload' "email" JNull = dget payload "email" JNull ->
       dget payload' "user_metadata" (JObj []) = dget payload "user_metadata" (JObj []) ->
       Auth.role u = role /\ Auth.get_current_user jwt_decode token' = inr u.
Proof.
  intros Hdecode. unfold Auth.get_current_user, Auth.decode_supabase_jwt.
  rewrite Hdecode.
  destruct (truthy (dget payload "sub" JNull)) eqn:Hsub; [|discriminate]. simpl.
  assert (Hmail : or_else (dget payload "email" JNull) (JStr "") <> JNull).
  { unfold or_else. destruct (truthy (dget payload "email" JNull)) eqn:Hm; [|done].
    intros Heq. rewrite Heq in Hm. discriminate. }
  destruct (get (dget payload "user_metadata" (JObj [])) "role" JNull)
    as [msg|r1] eqn:Huser; [discriminate|].
  destruct (truthy r1) eqn:Hr1.
  - intros [= <-]. simpl.
    split; [exact Hsub|]. split; [exact Hr1|]. split; [exact Hmail|].
    intros role token' payload' [= <-] _ Hdecode' Hsub' Hmail' Huser'.
    split; [reflexivity|].
    rewrite Hdecode', Hsub', Hmail', Huser', Hsub. simpl.
    by rewrite Huser, Hr1.
  - destruct (get (dget payload "app_metadata" (JObj [])) "role" JNull)
      as [msg|r2]; [discriminate|].
    intros [= <-]. simpl.
    split; [exact Hsub|]. split; [|split; [exact Hmail|]].
    + unfold or_else. by destruct (truthy r2) eqn:Hr2.
    + intros role token' payload' [= <-] Hrole. congruence.
Qed.

(** A user who writes [role = employer] into the own [user_metadata] is
    an employer, whether [app_metadata] says student or is no dict at
    all. *)
Lemma X19_witness :
  let payload := [("sub", JStr "u1");
                  ("user_metadata", JObj [("role", JStr "employer")]);
                  ("app_metadata", JObj [("role", JStr "student")])] in
  let payload' := [("sub", JStr "u1");
                   ("user_metadata", JObj [("role", JStr "employer")]);
                   ("app_metadata", JNull)] in
  let decode := fun token => if String.eqb token "first" then Some payload
                             else Some payload' in
  let u := {| Auth.user_id := JStr "u1"; Auth.email := JStr "";
              Auth.role := JStr "employer" |} in
  (decode "first" = Some payload /\ Auth.get_current_user decode "first" = inr u)
  /\ truthy (Auth.user_id u) = true
  /\ truthy (Auth.role u) = true
  /\ Auth.email u <> JNull
  /\ Auth.get_current_user decode "second" = inr u.
Proof.
  intros payload payload' decode u.
  assert (H1 : decode "first" = Some payload) by reflexivity.
  assert (H2 : Auth.get_current_user decode "first" = inr u) by reflexivity.
  destruct (X19_role_of_a_caller decode "first" payload u H1 H2) as (P1 & P2 & P3 & P4).
  split; [exact (conj H1 H2)|]. split; [exact P1|]. split; [exact P2|].
  split; [exact P3|].
  exact (proj2 (P4 (JStr "employer") "second" payload' eq_refl eq_refl eq_refl
                  eq_refl eq_refl eq_refl)).
Defined.

(** ** X20: who gets past which gate *)

(** X20. Whatever the token, at most one of [require_student],
    [require_employer] and [require_university] lets the caller
    through, each only for its own role (student; employer; university
    or admin); a caller let through by any of them has a true [sub];
    and a token that does not decode, or has no true [sub], stops at
    HTTP 401 before every gate. *)
Theorem X20_gates jwt_decode token :
  let user := Auth.get_current_user jwt_decode token in
  (forall u, Auth.require_student user = inr u ->
             Auth.role u = JStr "student" /\ truthy (Auth.user_id u) = true
             /\ Auth.require_employer user = inl (Http 403)
             /\ Auth.require_university user = inl (Http 403))
  /\ (forall u, Auth.require_employer user = inr u ->
                Auth.role u = JStr "employer" /\ truthy (Auth.user_id u) = true
                /\ Auth.require_student user = inl (Http 403)
                /\ Auth.require_university user = inl (Http 403))
  /\ (forall u, Auth.require_university user = inr u ->
                (Auth.role u = JStr "university" \/ Auth.role u = JStr "admin")
                /\ truthy (Auth.user_id u) = true
                /\ Auth.require_student user = inl (Http 403)
                /\ Auth.require_employer user = inl (Http 403))
  /\ (match jwt_decode token with
      | None => True
      | Some payload => truthy (dget payload "sub" JNull) = false
      end ->
      user = inl (Http 401)).
Proof.
  intros user.
  assert (Hsub : forall u, user = inr u -> truthy (Auth.user_id u) = true).
  { unfold user, Auth.get_current_user, Auth.decode_supabase_jwt.
    destruct (jwt_decode token) as [payload|]; [|discriminate].
    destruct (truthy (dget payload "sub" JNull)) eqn:Htrue; [|discriminate]. simpl.
    intros u.
    destruct (get _ "role" JNull) as [msg|r1]; [discriminate|].
    destruct (truthy r1).
    - by intros [= <-].
    - destruct (get _ "role" JNull) as [msg|r2]; [discriminate|]. by intros [= <-]. }
  assert (Hstr : forall v s, Auth.is_str v s = true -> v = JStr s).
  { intros v s. destruct v as [| | | |t| |]; simpl; try discriminate.
    by intros ->%String.eqb_eq. }
  unfold Auth.require_student, Auth.require_employer, Auth.require_university.
  destruct user as [e|u0] eqn:Huser.
  - repeat split; try discriminate.
    intros Hbad. revert Huser.
    unfold user, Auth.get_current_user, Auth.decode_supabase_jwt.
    destruct (jwt_decode token) as [payload|]; [|done].
    rewrite Hbad. done.
  - pose proof (Hsub u0 eq_refl) as Hu0.
    split; [|split; [|split]].
    + intros u. destruct (Auth.is_str (Auth.role u0) "student") eqn:Hs;
        simpl; [|discriminate].
      intros [= <-]. apply Hstr in Hs. rewrite Hs. by repeat split.
    + intros u. destruct (Auth.is_str (Auth.role u0) "employer") eqn:Hs;
        simpl; [|discriminate].
      intros [= <-]. apply Hstr in Hs. rewrite Hs. by repeat split.
    + intros u.
      destruct (Auth.is_str (Auth.role u0) "university") eqn:Hs1.
      * simpl. intros [= <-]. apply Hstr in Hs1. rewrite Hs1.
        repeat split; try done. by left.
      * destruct (Auth.is_str (Auth.role u0) "admin") eqn:Hs2;
          simpl; [|discriminate].
        intros [= <-]. apply Hstr in Hs2. rewrite Hs2.
        repeat split; try done. by right.
    + intros Hbad. exfalso. revert Huser.
      unfold user, Auth.get_current_user, Auth.decode_supabase_jwt.
      destruct (jwt_decode token) as [payload|]; [|discriminate].
      by rewrite Hbad.
Qed.

Lemma X20_witness :
  let decode := fun _ : string =>
                  Some [("sub", JStr "u1"); ("email", JStr "anna@example.org")] in
  let u := {| Auth.user_id := JStr "u1"; Auth.email := JStr "anna@example.org";
              Auth.role := JStr "student" |} in
  Auth.require_student (Auth.get_current_user decode "token") = inr u
  /\ Auth.role u = JStr "student" /\ truthy (Auth.user_id u) = true
  /\ Auth.require_employer (Auth.get_current_user decode "token") = inl (Http 403)
  /\ Auth.require_university (Auth.get_current_user decode "token") = inl (Http 403).
Proof.
  intros decode u.
  assert (H : Auth.require_student (Auth.get_current_user decode "token") = inr u)
    by reflexivity.
  destruct (X20_gates decode "token") as (P & _).
  exact (conj H (P u H)).
Defined.

(** A token that does not decode, and one without [sub], stop at 401. *)
Example unauthenticated :
  Auth.get_current_user (fun _ => None) "token" = inl (Http 401)
  /\ Auth.require_student
       (Auth.get_current_user (fun _ => Some [("email", JStr "a@b.c")]) "token")
     = inl (Http 401).
Proof. split; reflexivity. Qed.

(** ** Analytics *)

Module AnalyticsFacts.
Import Py PyMore Models Order Analytics SortFacts GitHubFacts EngineFacts2.

Lemma count_of_bump counter key x :
  count_of (bump counter key) x
  = if String.eqb key x then count_of counter x + 1 else count_of counter x.
Proof.
  induction counter as [|[k n] counter IH]; simpl.
  - by destruct (String.eqb key x).
  - destruct (String.eqb_spec k key) as [->|Hne]; simpl.
    + by destruct (String.eqb key x).
    + rewrite IH. destruct (String.eqb_spec k x) as [->|Hne']; [|done].
      destruct (String.eqb_spec key x) as [->|]; [done|reflexivity].
Qed.

Lemma count_of_tally xs : forall counter x,
  count_of (tally counter xs) x = count_of counter x + occurrences xs x.
Proof.
  unfold tally, occurrences.
  induction xs as [|y xs IH]; intros counter x; simpl; [lia|].
  rewrite IH, count_of_bump.
  destruct (String.string_dec y x) as [->|Hne].
  - rewrite String.eqb_refl. lia.
  - apply String.eqb_neq in Hne. rewrite Hne. lia.
Qed.

Lemma count_of_In counter x n :
  NoDup (map fst counter) -> In (x, n) counter -> count_of counter x = n.
Proof.
  induction counter as [|[k m] counter IH]; simpl; [done|].
  intros [Hk Hnd]%NoDup_cons [[= -> ->]|Hin].
  - by rewrite String.eqb_refl.
  - destruct (String.eqb_spec k x) as [->|Hne]; [|by apply IH].
    destruct Hk. apply list_elem_of_In. by apply (in_map fst _ (x, n)).
Qed.

Lemma tally_NoDup xs : forall counter,
  NoDup (map fst counter) -> NoDup (map fst (tally counter xs)).
Proof.
  unfold tally. induction xs as [|y xs IH]; intros counter Hnd; simpl; [done|].
  apply IH. by apply bump_NoDup.
Qed.

Lemma tally_positive xs : forall counter,
  Forall (fun kv => 1 <= snd kv) counter ->
  Forall (fun kv => 1 <= snd kv) (tally counter xs).
Proof.
  unfold tally. induction xs as [|y xs IH]; intros counter Hpos; simpl; [done|].
  apply IH. by apply bump_positive.
Qed.

(** Counting list by list is counting the lists end to end. *)
Lemma tally_concat {A : Type} (f : A -> list string) rows : forall counter,
  fold_left (fun counter row => tally counter (f row)) rows counter
  = tally counter (concat (map f rows)).
Proof.
  induction rows as [|row rows IH]; intros counter; simpl; [done|].
  rewrite IH. unfold tally. by rewrite fold_left_app.
Qed.

Lemma occurrences_concat {A : Type} (f : A -> list string) rows x :
  Forall (fun row => NoDup (f row)) rows ->
  occurrences (concat (map f rows)) x <= Z.of_nat (length rows).
Proof.
  unfold occurrences. induction 1 as [|row rows Hrow _ IH]; simpl; [lia|].
  rewrite count_occ_app.
  assert (count_occ string_dec (f row) x <= 1)%nat.
  { apply NoDup_ListNoDup in Hrow. by apply (proj1 (NoDup_count_occ string_dec _)). }
  lia.
Qed.

Lemma most_common_ranks xs limit :
  ranks xs limit (most_common (tally [] xs) limit).
Proof.
  unfold ranks, most_common.
  set (counter := tally [] xs).
  assert (Hnd : NoDup (map fst counter)) by (apply tally_NoDup; constructor).
  assert (Hpos : Forall (fun kv => 1 <= snd kv) counter)
    by (apply tally_positive; constructor).
  pose proof (sort_desc_perm snd counter) as Hperm.
  assert (Hsub : forall kv, In kv (take (Z.to_nat limit) (sort_desc snd counter)) ->
                   In kv counter).
  { intros kv Hin%In_take. by apply (Permutation_in kv Hperm). }
  split; [rewrite length_take; lia|]. split; [|split].
  - rewrite <- (take_drop (Z.to_nat limit) (sort_desc snd counter)) in Hperm.
    rewrite <- Hperm, map_app in Hnd. by apply NoDup_app in Hnd as [? _].
  - eapply sorted_prefix; [apply prefix_take|apply sort_desc_sorted].
  - apply List.Forall_forall. intros [x n] Hin%Hsub. simpl. split.
    + rewrite <- (count_of_In counter x n Hnd Hin).
      unfold counter. by rewrite count_of_tally.
    + rewrite List.Forall_forall in Hpos. apply (Hpos (x, n) Hin).
Qed.

Lemma count_where_filter p cs :
  count_where p cs = Z.of_nat (length (List.filter p cs)).
Proof.
  unfold count_where.
  assert (H : forall total,
             fold_left (fun total c => if p c then total + 1 else total) cs total
             = total + Z.of_nat (length (List.filter p cs))).
  { induction cs as [|c cs IH]; intros total; simpl; [lia|].
    rewrite IH. destruct (p c); simpl; lia. }
  by rewrite H.
Qed.

Lemma three_way (cs : list Z) :
  Z.of_nat (length (List.filter (fun c => c <? 40) cs))
  + Z.of_nat (length (List.filter (fun c => (40 <=? c) && (c <? 70)) cs))
  + Z.of_nat (length (List.filter (fun c => 70 <=? c) cs))
  = Z.of_nat (length cs).
Proof.
  induction cs as [|c cs IH]; simpl; [done|].
  destruct (Z.ltb_spec c 40), (Z.leb_spec 40 c), (Z.ltb_spec c 70), (Z.leb_spec 70 c);
    simpl; lia.
Qed.

Lemma most_common_length counter n :
  0 <= n -> Z.of_nat (length (most_common counter n)) <= n.
Proof. intros Hn. unfold most_common. rewrite length_take. lia. Qed.

End AnalyticsFacts.
Import Models Analytics AnalyticsFacts Fixtures.

(** ** X21: the rankings of [get_top_skills] *)

(** X21. [get_top_skills] reports the number of rows it was given, and
    each of its two rankings has at most [limit] entries, names each
    technology or skill once, is in descending order of the counts, and
    gives every name the number of times it occurs in the lists of the
    rows, at least 1. When no row lists a technology twice, the count
    of a technology is at most the number of rows; a skill listed under
    both [required_skills] and [soft_skills] of a row counts twice. *)
Theorem X21_top_skills vacancies limit :
  let r := get_top_skills vacancies limit in
  total_vacancies_analyzed r = Z.of_nat (length vacancies)
  /\ ranks (concat (map required_technologies vacancies)) limit (top_technologies r)
  /\ ranks (concat (map (fun v => required_skills v ++ soft_skills v)%list vacancies))
       limit (top_skills r)
  /\ (Forall (fun v => NoDup (required_technologies v)) vacancies ->
      Forall (fun kv => snd kv <= total_vacancies_analyzed r) (top_technologies r)).
Proof.
  intros r. unfold r, get_top_skills. simpl.
  rewrite (tally_concat required_technologies).
  rewrite (tally_concat (fun v => required_skills v ++ soft_skills v)%list).
  split; [reflexivity|]. split; [apply most_common_ranks|].
  split; [apply most_common_ranks|].
  intros Hnd.
  destruct (most_common_ranks (concat (map required_technologies vacancies)) limit)
    as (_ & _ & _ & Hcount).
  eapply Forall_impl; [exact Hcount|]. intros [x n] [-> _]. simpl.
  by apply occurrences_concat.
Qed.

(** One vacancy with the same skill in both lists: the skill is counted
    twice, more often than there are vacancies. *)
Example skill_counted_twice :
  let r := get_top_skills
             [{| required_skills := ["teamwork"]; required_technologies := ["Python"];
                 soft_skills := ["teamwork"] |}] 5 in
  total_vacancies_analyzed r = 1
  /\ top_technologies r = [("Python", 1)]
  /\ top_skills r = [("teamwork", 2)].
Proof. repeat split. Qed.

(** ** X22: the distribution of [get_student_readiness] *)

(** X22. When there are students, the three levels of
    [get_student_readiness] count every student exactly once: the
    counts of low, medium and high add up to [total_students], which is
    the number of rows and at least 1; the two rankings have at most 15
    and 10 entries. Without students no statistics are computed. *)
Theorem X22_readiness_partition students :
  match get_student_readiness students with
  | Some r =>
      total_students r = Z.of_nat (length students)
      /\ 1 <= total_students r
      /\ low r + medium r + high r = total_students r
      /\ 0 <= low r /\ 0 <= medium r /\ 0 <= high r
      /\ Z.of_nat (length (top_student_technologies r)) <= 15
      /\ Z.of_nat (length (top_specialties r)) <= 10
  | None => students = []
  end.
Proof.
  destruct students as [|s students]; [reflexivity|].
  unfold get_student_readiness.
  set (all := s :: students).
  cbn [total_students low medium high top_student_technologies top_specialties].
  rewrite !count_where_filter.
  pose proof (three_way (map s_profile_completion all)) as Hsum.
  rewrite length_map in Hsum.
  repeat split; try lia; try (by apply most_common_length).
  simpl. lia.
Qed.

Example readiness_of_three :
  get_student_readiness [student "s1" 25; student "s2" 55; student "s3" 80]
  = Some {| total_students := 3; low := 1; medium := 1; high := 1;
            top_student_technologies := [("Python", 3); ("FastAPI", 3)];
            top_specialties := [("CS", 3)] |}.
Proof. reflexivity. Qed.

(** ** X23: the completeness [connect_github] stores *)

Module RouterFacts.
Import Py PyMore Student StudentsRouter GitHubService StudentFacts StudentFacts2.

(** A URL that has a user name is not empty. *)
Lemma extract_nonempty github_url username :
  _extract_username github_url = inr username -> github_url <> "".
Proof. intros H ->. discriminate H. Qed.

Lemma score8_github c1 c2 c3 c4 c5 c6 c8 :
  10 <= score8 c1 c2 c3 c4 c5 c6 true c8
  /\ (c5 = true -> 25 <= score8 c1 c2 c3 c4 c5 c6 true c8).
Proof.
  split; [|intros ->]; destruct c1, c2, c3, c4, c6, c8; try destruct c5;
    vm_compute; discriminate.
Qed.

End RouterFacts.
Import Student StudentsRouter GitHubService StudentFacts StudentFacts2 RouterFacts.

(** X23. When the GitHub analysis has returned and [connect_github]
    computes its update for a profile whose [technologies] is a list,
    the completeness it stores is at least the completeness of the
    profile as it was, and at least 10, the check of [github_url] being
    met by the URL just analysed; it is at least 25 when the analysis
    detected a technology. This holds for every order in which
    [list(set(...))] lists the merged technologies. *)
Theorem X23_connect_github_completion
    get_user github_url analysis profile existing merged update :
  _sync_analyze get_user github_url = inr analysis ->
  dget profile "technologies" (JArr []) = JArr existing ->
  is_list_of_set (existing ++ map JStr (detected_technologies analysis))%list merged ->
  connect_github_update profile github_url merged = inr update ->
  exists before n,
    calculate_profile_completion profile = inr before
    /\ dget update "profile_completion" JNull = JInt n
    /\ before <= n
    /\ 10 <= n
    /\ (detected_technologies analysis <> [] -> 25 <= n).
Proof.
  intros Hrun Hexisting [Hfrom Hkeep] Hupdate.
  apply analysis_shape in Hrun as (username & _ & _ & _ & _ & Hname & _ & _).
  apply extract_nonempty in Hname.
  assert (Hurl : truthy (JStr github_url) = true).
  { simpl. apply negb_true_iff. by apply String.eqb_neq. }
  unfold connect_github_update in Hupdate.
  destruct (calculate_profile_completion _) as [msg|n] eqn:Hafter; [discriminate|].
  injection Hupdate as <-.
  apply completion_value in Hafter as (ns & nt & Hns & Hnt & Hn).
  unfold dict_merge, github_update_data in Hns, Hnt, Hn.
  cbn [fold_left fst snd] in Hns, Hnt, Hn.
  repeat rewrite dget_dset in Hns. repeat rewrite dget_dset in Hnt.
  repeat rewrite dget_dset in Hn.
  cbn [String.eqb Ascii.eqb Bool.eqb] in Hns, Hnt, Hn.
  rewrite Hurl in Hn. simpl in Hnt. injection Hnt as <-.
  assert (Hbefore : calculate_profile_completion profile
                    = inr (score8 (truthy (dget profile "name" JNull))
                             (truthy (dget profile "university" JNull))
                             (truthy (dget profile "specialty" JNull))
                             (0 <? ns) (0 <? Z.of_nat (length existing))
                             (truthy (dget profile "experience_text" JNull))
                             (truthy (dget profile "github_url" JNull))
                             (truthy (dget profile "resume_url" JNull)))).
  { unfold calculate_profile_completion, checks. rewrite Hns, Hexisting. cbn [len].
    rewrite fold_points. f_equal. apply Z.min_l. apply score8_range. }
  eexists _, n. split; [exact Hbefore|]. split; [reflexivity|].
  set (c5 := 0 <? Z.of_nat (length merged)) in *.
  destruct (score8_github (truthy (dget profile "name" JNull))
              (truthy (dget profile "university" JNull))
              (truthy (dget profile "specialty" JNull))
              (0 <? ns) c5
              (truthy (dget profile "experience_text" JNull))
              (truthy (dget profile "resume_url" JNull))) as [H10 H25].
  rewrite <- Hn in H10, H25.
  split; [|split; [exact H10|]].
  - rewrite Hn. apply score8_mono; try apply Bool.implb_same.
    + unfold c5. destruct existing as [|x existing]; [reflexivity|].
      destruct merged as [|y merged]; [|reflexivity].
      destruct (Hkeep ltac:(discriminate) eq_refl).
    + apply Bool.implb_true_r.
  - intros Hnew. apply H25. unfold c5.
    destruct merged as [|y merged]; [|reflexivity].
    exfalso. apply Hkeep; [|reflexivity].
    destruct (detected_technologies analysis); [done|]. by destruct existing.
Qed.

Lemma X23_witness :
  let github_url := "https://github.com/anna" in
  let profile := [("name", JStr "Anna"); ("technologies", JArr [JStr "Python"])] in
  let existing := [JStr "Python"] in
  let merged := [JStr "Go"; JStr "Python"] in
  let update := [("github_url", JStr github_url); ("technologies", JArr merged);
                 ("profile_completion", JInt 40)] in
  (_sync_analyze GitHubExample.anna github_url = inr GitHubExample.anna_analysis
   /\ dget profile "technologies" (JArr []) = JArr existing
   /\ is_list_of_set
        (existing ++ map JStr (detected_technologies GitHubExample.anna_analysis))%list
        merged
   /\ connect_github_update profile github_url merged = inr update)
  /\ exists before n,
       calculate_profile_completion profile = inr before
       /\ dget update "profile_completion" JNull = JInt n
       /\ before <= n
       /\ 10 <= n
       /\ (detected_technologies GitHubExample.anna_analysis <> [] -> 25 <= n).
Proof.
  intros github_url profile existing merged update.
  assert (H1 : _sync_analyze GitHubExample.anna github_url
               = inr GitHubExample.anna_analysis) by reflexivity.
  assert (H2 : dget profile "technologies" (JArr []) = JArr existing) by reflexivity.
  assert (H3 : is_list_of_set
                 (existing ++ map JStr (detected_technologies GitHubExample.anna_analysis))%list
                 merged).
  { split; [|discriminate]. intros x [<-|[<-|[]]]; simpl; tauto. }
  assert (H4 : connect_github_update profile github_url merged = inr update)
    by reflexivity.
  split; [exact (conj H1 (conj H2 (conj H3 H4)))|].
  exact (X23_connect_github_completion GitHubExample.anna github_url
           GitHubExample.anna_analysis profile existing merged update H1 H2 H3 H4).
Defined.
